(** * bokeh.util.serialization: a shallow embedding and its properties

    The development follows [src/bokeh/util/serialization.py] function by
    function.  Python values are an inductive type, NumPy arrays are records
    (dtype, shape, cells in C order, memory layout) in a store of objects
    addressed by references, exceptions are a [result] type, and double
    precision floats are the Standard Library's [spec_float] at precision
    53.  What NumPy and pandas do is written after their sources; where
    their answer depends on the installed version (how a dtype tag is
    read, the number of dimensions an array may have, [total_seconds] of
    a [pd.Timedelta]) it is a variable of the section that uses it. *)

From Stdlib Require Import ZArith String Ascii DecimalString DecimalPos DecimalZ SpecFloat.
From Stdlib.Strings Require Import Byte.
From stdpp Require Import base decidable option list strings.

Local Open Scope Z_scope.
Set Warnings "-register-all".

(* ===================================================================== *)
(** * Exceptions *)
(* ===================================================================== *)

(** The exception classes that the module, NumPy, pandas and [base64]
    raise on the paths embedded below.  [binascii_Error] is the error of
    [base64.b64decode] and [OutOfBoundsDatetime] the one of pandas; in
    Python both inherit from [ValueError], and they are kept apart here
    to tell where an error comes from. *)
Inductive exn :=
| ValueError
| TypeError
| NotImplementedError
| AttributeError
| SystemError
| OverflowError
| binascii_Error
| OutOfBoundsDatetime.

Inductive result (A : Type) :=
| Ok (a : A)
| Raise (e : exn).
Arguments Ok {A} a.
Arguments Raise {A} e.

Definition rbind {A B} (r : result A) (k : A -> result B) : result B :=
  match r with
  | Ok a => k a
  | Raise e => Raise e
  end.

Definition returns {A} (r : result A) : bool :=
  match r with Ok _ => true | Raise _ => false end.

#[global] Instance exn_eq_dec : EqDecision exn.
Proof. solve_decision. Defined.

(* ===================================================================== *)
(** * Double precision floats *)
(* ===================================================================== *)

Module Double.

Definition prec : Z := 53.
Definition emax : Z := 1024.

Definition nan : spec_float := S754_nan.
Definition inf : spec_float := S754_infinity false.
Definition neg_inf : spec_float := S754_infinity true.

(** [float(n)] for a Python int: the nearest double, ties to even. *)
Definition of_Z (n : Z) : spec_float := binary_normalize prec emax n 0 false.

Definition add : spec_float -> spec_float -> spec_float := SFadd prec emax.
Definition mul : spec_float -> spec_float -> spec_float := SFmul prec emax.
Definition div : spec_float -> spec_float -> spec_float := SFdiv prec emax.

(** Python's [==] on floats: IEEE-754 equality. *)
Definition eqb : spec_float -> spec_float -> bool := SFeqb.

Definition isnan (x : spec_float) : bool :=
  match x with S754_nan => true | _ => false end.
Definition isposinf (x : spec_float) : bool :=
  match x with S754_infinity false => true | _ => false end.
Definition isneginf (x : spec_float) : bool :=
  match x with S754_infinity true => true | _ => false end.
Definition isfinite (x : spec_float) : bool :=
  match x with S754_nan | S754_infinity _ => false | _ => true end.

(** The integer [n] as an exact, not yet rounded, operand. *)
Definition exact (n : Z) : spec_float :=
  match n with
  | Z0 => S754_zero false
  | Zpos p => S754_finite false p 0
  | Zneg p => S754_finite true p 0
  end.

(** [a / b] on two Python ints with [b <> 0]: the exact quotient rounded
    once to the nearest double. *)
Definition int_truediv (a b : Z) : spec_float := div (exact a) (exact b).

End Double.

Abbreviation float := spec_float.

(* ===================================================================== *)
(** * Fixed width integers *)
(* ===================================================================== *)

Definition INT64_MIN : Z := - 2 ^ 63.
Definition INT64_MAX : Z := 2 ^ 63 - 1.

(** Two's complement wrap-around of a 64-bit signed integer. *)
Definition wrap64 (n : Z) : Z := (n + 2 ^ 63) mod 2 ^ 64 - 2 ^ 63.

(** The count that a 64-bit integer is when it is read as a datetime64
    or a timedelta64: the least integer is NaT, here [None]. *)
Definition time_of_int64 (n : Z) : option Z :=
  if n =? INT64_MIN then None else Some n.

(* ===================================================================== *)
(** * Time units of datetime64 and timedelta64 *)
(* ===================================================================== *)

(** The units with a fixed length, coarsest first. *)
Inductive lunit :=
| l_W | l_D | l_h | l_m | l_s | l_ms | l_us | l_ns | l_ps | l_fs | l_as.

(** A unit is a calendar unit (years, months), a unit of fixed length, or
    NumPy's generic unit. *)
Inductive tunit :=
| u_Y
| u_M
| u_lin (l : lunit)
| u_generic.

#[global] Instance lunit_eq_dec : EqDecision lunit.
Proof. solve_decision. Defined.
#[global] Instance tunit_eq_dec : EqDecision tunit.
Proof. solve_decision. Defined.

Definition rank (l : lunit) : nat :=
  match l with
  | l_W => 0 | l_D => 1 | l_h => 2 | l_m => 3 | l_s => 4 | l_ms => 5
  | l_us => 6 | l_ns => 7 | l_ps => 8 | l_fs => 9 | l_as => 10
  end%nat.

(** How many units of rank [S i] make one unit of rank [i]. *)
Definition step_factors : list Z := [7; 24; 60; 60; 1000; 1000; 1000; 1000; 1000; 1000].

(** Number of units of rank [j] in one unit of rank [i], for [i <= j]
    (and [1] otherwise). *)
Definition rank_factor (i j : nat) : Z :=
  foldr Z.mul 1 (take (j - i) (drop i step_factors)).

(** NumPy's scaling of a count that is not NaT by the factor
    [num / denom], in the 64-bit arithmetic of C: the product wraps
    around, the division truncates, and a negative count is lowered by
    [denom - 1] first so that the quotient is rounded down. *)
Definition scale64 (num denom dt : Z) : Z :=
  if dt <? 0 then Z.quot (wrap64 (wrap64 (dt * num) - (denom - 1))) denom
  else Z.quot (wrap64 (dt * num)) denom.

(** Rescaling of a count from rank [i] to rank [j]: multiplication
    towards a finer unit, division towards a coarser one.  A result that
    is the least 64-bit integer reads as NaT. *)
Definition rescale (i j : nat) (v : Z) : option Z :=
  time_of_int64 (scale64 (rank_factor i j) (rank_factor j i) v).

Definition is_leapyear (y : Z) : bool :=
  (y mod 4 =? 0) && (negb (y mod 100 =? 0) || (y mod 400 =? 0)).

Definition days_before_year (y : Z) : Z :=
  365 * (y - 1) + (y - 1) / 4 - (y - 1) / 100 + (y - 1) / 400.

Definition days_before_month (y m0 : Z) : Z :=
  nth (Z.to_nat m0) [0; 31; 59; 90; 120; 151; 181; 212; 243; 273; 304; 334] 0
  + (if (2 <=? m0) && is_leapyear y then 1 else 0).

(** Days from 1970-01-01 to the first day of month [m0] (0 .. 11) of the
    proleptic Gregorian year [y]. *)
Definition days_from_epoch (y m0 : Z) : Z :=
  days_before_year y - days_before_year 1970 + days_before_month y m0.

(** NumPy's [get_datetimestruct_days]: the day number, relative to
    1970-01-01, of the first day of month [m0] (0 .. 11) of [year],
    computed in 64-bit arithmetic from the years since 1970 and the leap
    years among them.  It agrees with [days_from_epoch] as long as
    nothing wraps around. *)
Definition struct_days (year m0 : Z) : Z :=
  let y := wrap64 (year - 1970) in
  let days := wrap64 (y * 365) in
  let days :=
    if 0 <=? days then
      let y := wrap64 (y + 1) in
      let days := wrap64 (days + Z.quot y 4) in
      let y := wrap64 (y + 68) in
      let days := wrap64 (days - Z.quot y 100) in
      let y := wrap64 (y + 300) in
      wrap64 (days + Z.quot y 400)
    else
      let y := wrap64 (y - 2) in
      let days := wrap64 (days + Z.quot y 4) in
      let y := wrap64 (y - 28) in
      let days := wrap64 (days - Z.quot y 100) in
      wrap64 (days + Z.quot y 400) in
  wrap64 (days + days_before_month year m0).

(** The datetime64 count in unit [l] of the first day of a month, as
    NumPy makes it from the broken-down date: whole weeks rounded down,
    days, or the days multiplied out to the finer unit.  A year that is
    the least 64-bit integer stands for NaT. *)
Definition datetime_of_month (l : lunit) (year m0 : Z) : option Z :=
  if year =? INT64_MIN then None
  else
    let days := struct_days year m0 in
    time_of_int64
      match l with
      | l_W => if 0 <=? days then Z.quot days 7 else Z.quot (wrap64 (days - 6)) 7
      | l_D => days
      | _ => wrap64 (days * rank_factor 1 (rank l))
      end.

(** NumPy's cast of a datetime64 value ([None] is NaT) of unit [u] to the
    fixed-length unit [l].  Years and months go through the calendar; a
    value of generic unit keeps its count. *)
Definition cast_datetime (u : tunit) (l : lunit) (v : option Z) : option Z :=
  match v with
  | None => None
  | Some x =>
      match u with
      | u_Y => datetime_of_month l (wrap64 (1970 + x)) 0
      | u_M => datetime_of_month l (wrap64 (1970 + x / 12)) (x mod 12)
      | u_lin a => rescale (rank a) (rank l) x
      | u_generic => Some x
      end
  end.

(** NumPy's unsafe cast of a timedelta64 value of unit [u] to the
    fixed-length unit [l].  Years and months count as the 400 year cycle
    averaged ([146097] days in [400] years, [4800] months), the factor
    being reduced to lowest terms before it is applied; a generic value
    keeps its count. *)
Definition cast_timedelta (u : tunit) (l : lunit) (v : option Z) : option Z :=
  match v with
  | None => None
  | Some x =>
      let scaled (months : Z) :=
        let num := 146097 * rank_factor 1 (rank l) in
        let denom := months * rank_factor (rank l) 1 in
        time_of_int64 (scale64 (num / Z.gcd num denom) (denom / Z.gcd num denom) x) in
      match u with
      | u_Y => scaled 400
      | u_M => scaled 4800
      | u_lin a => rescale (rank a) (rank l) x
      | u_generic => Some x
      end
  end.

Definition finer (a b : lunit) : lunit :=
  if (rank a <=? rank b)%nat then b else a.

(** Unit in which NumPy computes [datetime64 - datetime64] when the
    second operand has the fixed-length unit [l]. *)
Definition promote_datetime (u : tunit) (l : lunit) : lunit :=
  match u with
  | u_lin a => finer a l
  | _ => l
  end.

(** Unit in which NumPy computes [timedelta64 / timedelta64] when the
    second operand has the fixed-length unit [l]: between timedeltas a
    calendar unit has no common divisor with a unit of fixed length, and
    NumPy raises [TypeError]. *)
Definition promote_timedelta (u : tunit) (l : lunit) : result lunit :=
  match u with
  | u_lin a => Ok (finer a l)
  | u_generic => Ok l
  | u_Y | u_M => Raise TypeError
  end.

(* ===================================================================== *)
(** * Python values *)
(* ===================================================================== *)

(** Scalars.  A [date] is its day number relative to 1970-01-01, a
    [datetime] its wall clock in microseconds relative to
    1970-01-01T00:00:00 with the UTC offset of its [tzinfo] (in
    microseconds) when it has one, a [timedelta] its length in
    microseconds.  A datetime64 or timedelta64 scalar is a 64-bit count
    ([None] for NaT) with a unit, a [np.float64] scalar a double.  A
    [pd.Timestamp] is its instant and a [pd.Timedelta] its length in
    nanoseconds, a [pd.Period] the instant it starts at, in nanoseconds
    since 1970-01-01T00:00:00; none of them need fit the 64 bits of a
    [value] (since pandas 2 a timestamp can be kept in a coarser unit). *)
Inductive pyobj :=
| PyNone
| PyBool (b : bool)
| PyInt (n : Z)
| PyFloat (x : float)
| PyStr (s : string)
| PyDate (days : Z)
| PyTime (hour minute second microsecond : Z)
| PyDatetime (wall_us : Z) (utcoffset : option Z)
| PyTimedelta (us : Z)
| NpDatetime64 (v : option Z) (u : tunit)
| NpTimedelta64 (v : option Z) (u : tunit)
| NpFloat64 (x : float)
| PdTimestamp (ns : Z) (utcoffset : option Z)
| PdTimedelta (ns : Z)
| PdPeriod (start_ns : Z)
| PdNaT.

Inductive pyclass :=
| c_NoneType | c_bool | c_int | c_float | c_str | c_list
| c_date | c_time | c_datetime | c_timedelta
| c_np_datetime64 | c_np_timedelta64 | c_np_float64
| c_pd_Timestamp | c_pd_Timedelta | c_pd_Period | c_pd_NaTType
| c_ndarray | c_MaskedArray.

#[global] Instance pyclass_eq_dec : EqDecision pyclass.
Proof. solve_decision. Defined.

(** The class of a scalar, as [type(obj)] reports it. *)
Definition type_of (o : pyobj) : pyclass :=
  match o with
  | PyNone => c_NoneType
  | PyBool _ => c_bool
  | PyInt _ => c_int
  | PyFloat _ => c_float
  | PyStr _ => c_str
  | PyDate _ => c_date
  | PyTime _ _ _ _ => c_time
  | PyDatetime _ _ => c_datetime
  | PyTimedelta _ => c_timedelta
  | NpDatetime64 _ _ => c_np_datetime64
  | NpTimedelta64 _ _ => c_np_timedelta64
  | NpFloat64 _ => c_np_float64
  | PdTimestamp _ _ => c_pd_Timestamp
  | PdTimedelta _ => c_pd_Timedelta
  | PdPeriod _ => c_pd_Period
  | PdNaT => c_pd_NaTType
  end.

(** The classes a class inherits from, itself first: [bool] is an [int],
    [np.float64] is a [float], [datetime] is a [date], [pd.Timestamp] and
    the class of [pd.NaT] are [datetime]s, [pd.Timedelta] is a
    [timedelta], a masked array is an [ndarray]. *)
Definition mro (c : pyclass) : list pyclass :=
  match c with
  | c_bool => [c_bool; c_int]
  | c_np_float64 => [c_np_float64; c_float]
  | c_datetime => [c_datetime; c_date]
  | c_pd_Timestamp => [c_pd_Timestamp; c_datetime; c_date]
  | c_pd_NaTType => [c_pd_NaTType; c_datetime; c_date]
  | c_pd_Timedelta => [c_pd_Timedelta; c_timedelta]
  | c_MaskedArray => [c_MaskedArray; c_ndarray]
  | c => [c]
  end.

Definition issubclass (c d : pyclass) : bool := bool_decide (d ∈ mro c).

(** The scalars of NumPy, instances of [np.generic]: like an array they
    have a [dtype] and [flags], and their flags say C-contiguous. *)
Definition is_np_generic (o : pyobj) : bool :=
  match o with
  | NpDatetime64 _ _ | NpTimedelta64 _ _ | NpFloat64 _ => true
  | _ => false
  end.

(* ===================================================================== *)
(** * NumPy arrays *)
(* ===================================================================== *)

(** Byte order of a multi-byte dtype relative to the machine. *)
Inductive byteorder := native | swapped.

Inductive width := w16 | w32 | w64.

(** The dtypes of the model: booleans, integers and floats of every
    width, the two temporal kinds with their unit, and Python objects.
    Single-byte dtypes have no byte order. *)
Inductive dtype :=
| dt_bool
| dt_int8
| dt_uint8
| dt_int (w : width) (o : byteorder)
| dt_uint (w : width) (o : byteorder)
| dt_float (w : width) (o : byteorder)
| dt_datetime64 (u : tunit) (o : byteorder)
| dt_timedelta64 (u : tunit) (o : byteorder)
| dt_object.

#[global] Instance byteorder_eq_dec : EqDecision byteorder.
Proof. solve_decision. Defined.
#[global] Instance width_eq_dec : EqDecision width.
Proof. solve_decision. Defined.
#[global] Instance dtype_eq_dec : EqDecision dtype.
Proof. solve_decision. Defined.

(** [np.dtype(np.float32)] and the like: the dtype of a scalar type, in
    native byte order. *)
Definition np_float16 : dtype := dt_float w16 native.
Definition np_float32 : dtype := dt_float w32 native.
Definition np_float64 : dtype := dt_float w64 native.
Definition np_int8 : dtype := dt_int8.
Definition np_uint8 : dtype := dt_uint8.
Definition np_int16 : dtype := dt_int w16 native.
Definition np_uint16 : dtype := dt_uint w16 native.
Definition np_int32 : dtype := dt_int w32 native.
Definition np_uint32 : dtype := dt_uint w32 native.
Definition np_int64 : dtype := dt_int w64 native.
Definition np_uint64 : dtype := dt_uint w64 native.
Definition np_bool : dtype := dt_bool.
Definition np_object : dtype := dt_object.

(** [dtype.kind]. *)
Definition kind (d : dtype) : ascii :=
  match d with
  | dt_bool => "b"
  | dt_int8 | dt_int _ _ => "i"
  | dt_uint8 | dt_uint _ _ => "u"
  | dt_float _ _ => "f"
  | dt_datetime64 _ _ => "M"
  | dt_timedelta64 _ _ => "m"
  | dt_object => "O"
  end%char.

Definition width_bytes (w : width) : Z :=
  match w with w16 => 2 | w32 => 4 | w64 => 8 end.

(** [dtype.itemsize], in bytes. *)
Definition itemsize (d : dtype) : Z :=
  match d with
  | dt_bool | dt_int8 | dt_uint8 => 1
  | dt_int w _ | dt_uint w _ | dt_float w _ => width_bytes w
  | dt_datetime64 _ _ | dt_timedelta64 _ _ | dt_object => 8
  end.

(** One element of an array: a boolean, an integer, a float (of any
    width, held as the double of the same value), a temporal count
    ([None] for NaT), or a Python object. *)
Inductive cell :=
| CBool (b : bool)
| CInt (n : Z)
| CFloat (x : float)
| CTime (t : option Z)
| CObj (o : pyobj).

(** The memory layout of an array, as far as the module can tell one
    from another.  [C_contiguous]: [flags["C_CONTIGUOUS"]] is set.
    [C_strided]: the flag is not set and the axes lie in memory in C
    order (a slice with a step), so that a copy which keeps the order is
    C-contiguous.  [F_ordered]: the flag is not set and the axes lie in
    another order (Fortran order, a transpose), so that a copy which
    keeps the order is not C-contiguous either. *)
Inductive layout := C_contiguous | C_strided | F_ordered.

#[global] Instance layout_eq_dec : EqDecision layout.
Proof. solve_decision. Defined.

(** The layout of what NumPy allocates with [order='K'], the default of
    [astype], [copy] and the element-wise operations: as close to the
    layout of the source as a contiguous block can be. *)
Definition keep_order (l : layout) : layout :=
  match l with
  | F_ordered => F_ordered
  | _ => C_contiguous
  end.

(** A base [np.ndarray]: the cells are listed in C (row-major) order
    whatever the memory layout. *)
Record ndarray := mk_ndarray {
  nd_dtype : dtype;
  nd_shape : list Z;
  nd_data : list cell;
  nd_layout : layout
}.

(** [a.flags["C_CONTIGUOUS"]]. *)
Definition nd_c_contiguous (a : ndarray) : bool :=
  match nd_layout a with
  | C_contiguous => true
  | _ => false
  end.

(** An array is a base [ndarray] or a [np.ma.MaskedArray], which adds a
    mask: [None] for [nomask], else one boolean per cell, [true] where the
    cell is masked. *)
Inductive array :=
| NDArray (a : ndarray)
| MaskedArray (a : ndarray) (mask : option (list bool)).

Definition base (a : array) : ndarray :=
  match a with NDArray nd | MaskedArray nd _ => nd end.

(** [base] with another payload, the class and the mask kept. *)
Definition with_base (a : array) (nd : ndarray) : array :=
  match a with
  | NDArray _ => NDArray nd
  | MaskedArray _ m => MaskedArray nd m
  end.

(** [np.ma.getmaskarray(a)]: the mask as one boolean per cell, all false
    for [nomask] and for a base array. *)
Definition getmaskarray (a : array) : list bool :=
  match a with
  | MaskedArray _ (Some m) => m
  | _ => replicate (length (nd_data (base a))) false
  end.

(** The constant [np.ma.masked]: a masked array without dimension whose
    one cell, the float 0.0, is masked. *)
Definition ma_masked : array :=
  MaskedArray (mk_ndarray np_float64 [] [CFloat (Double.of_Z 0)] C_contiguous) (Some [true]).

(** Any Python value the functions can be handed. *)
Inductive value :=
| VObj (o : pyobj)
| VList (l : list value)
| VArr (a : array).

Definition class_of (v : value) : pyclass :=
  match v with
  | VObj o => type_of o
  | VList _ => c_list
  | VArr (NDArray _) => c_ndarray
  | VArr (MaskedArray _ _) => c_MaskedArray
  end.

(** [isinstance(v, cs)] for a tuple of classes [cs]. *)
Definition isinstance (v : value) (cs : list pyclass) : bool :=
  existsb (issubclass (class_of v)) cs.

(* ===================================================================== *)
(** * Globals and constants *)
(* ===================================================================== *)

(** [_compute_datetime_types()]: the three classes that are always
    recognized and, when [import_optional('pandas')] finds pandas ([pd]),
    four pandas classes. *)
Definition _compute_datetime_types (pd : bool) : list pyclass :=
  [c_time; c_datetime; c_np_datetime64]
  ++ (if pd then [c_pd_Timestamp; c_pd_Timedelta; c_pd_Period; c_pd_NaTType] else []).

Definition BINARY_ARRAY_TYPES : list dtype :=
  [np_float32; np_float64; np_uint8; np_int8; np_uint16; np_int16; np_uint32; np_int32].

(** [NP_EPOCH = np.datetime64(0, 'ms')] and
    [NP_MS_DELTA = np.timedelta64(1, 'ms')]: a count and a unit. *)
Definition NP_EPOCH : option Z * lunit := (Some 0, l_ms).
Definition NP_MS_DELTA : option Z * lunit := (Some 1, l_ms).

(** [DT_EPOCH = dt.datetime.utcfromtimestamp(0)]: the naive datetime at
    wall clock zero. *)
Definition DT_EPOCH : Z := 0.

(* ===================================================================== *)
(** * Library operations on temporal scalars *)
(* ===================================================================== *)

(** [a - b] for two datetime64 scalars, [b] of fixed-length unit: a
    timedelta64 in the promoted unit, NaT when either operand is, the
    difference being taken in 64-bit arithmetic. *)
Definition datetime64_sub (v : option Z) (u : tunit) (b : option Z * lunit)
  : option Z * lunit :=
  let l := promote_datetime u (snd b) in
  match cast_datetime u l v, cast_datetime (u_lin (snd b)) l (fst b) with
  | Some x, Some y => (time_of_int64 (wrap64 (x - y)), l)
  | _, _ => (None, l)
  end.

(** [a / b] for two timedelta64 scalars, [b] of fixed-length unit: both
    counts are brought to the promoted unit and divided as doubles; NaT
    gives NaN. *)
Definition timedelta64_truediv (v : option Z) (u : tunit) (b : option Z * lunit)
  : result float :=
  rbind (promote_timedelta u (snd b)) (fun l =>
    match cast_timedelta u l v, cast_timedelta (u_lin (snd b)) l (fst b) with
    | Some x, Some y => Ok (Double.div (Double.of_Z x) (Double.of_Z y))
    | _, _ => Ok Double.nan
    end).

(** Whether a count of nanoseconds is one that 64 bits hold, the least
    integer being set apart for NaT. *)
Definition in_ns_bounds (ns : Z) : bool := (INT64_MIN <? ns) && (ns <=? INT64_MAX).

(** [obj.value] of a [pd.Timestamp] or a [pd.Timedelta]: the nanoseconds
    as an int, [OverflowError] when they do not fit. *)
Definition pd_value (ns : Z) : result Z :=
  if in_ns_bounds ns then Ok ns else Raise OverflowError.

(** [period.to_timestamp().value]: the start of the period as a
    [pd.Timestamp] of nanoseconds, which pandas refuses with
    [OutOfBoundsDatetime] when the instant is not within bounds. *)
Definition period_to_timestamp_value (start_ns : Z) : result Z :=
  if in_ns_bounds start_ns then Ok start_ns else Raise OutOfBoundsDatetime.

Section Scalars.

(** [pd.Timedelta.total_seconds()] as a function of the length in
    nanoseconds.  pandas has computed it in more than one way
    ([(value - value % 1000) / 1e9] in one release, days, seconds and
    microseconds added up in another), so the method is a variable. *)
Variable pd_total_seconds : Z -> float.

(** [obj.total_seconds()].  For a [dt.timedelta] it is the microsecond
    count divided by [10**6] as integers; [pd.Timedelta] overrides it. *)
Definition total_seconds (o : pyobj) : result float :=
  match o with
  | PyTimedelta us => Ok (Double.int_truediv us (10 ^ 6))
  | PdTimedelta v => Ok (pd_total_seconds v)
  | _ => Raise AttributeError
  end.

(** [(obj.replace(tzinfo=None) - DT_EPOCH).total_seconds()] for an
    instance of [dt.datetime].  [replace] keeps the wall clock; on a
    [pd.Timestamp] the difference is a [pd.Timedelta], on [pd.NaT] every
    step gives NaT and [total_seconds()] is NaN. *)
Definition seconds_since_epoch (o : pyobj) : result float :=
  match o with
  | PyDatetime wall _ => total_seconds (PyTimedelta (wall - DT_EPOCH))
  | PdTimestamp v off => total_seconds (PdTimedelta (v + 1000 * default 0 off - 1000 * DT_EPOCH))
  | PdNaT => Ok Double.nan
  | _ => Raise AttributeError
  end.

(* ===================================================================== *)
(** * General API: temporal scalars *)
(* ===================================================================== *)

Definition is_datetime_type (pd : bool) (obj : value) : bool :=
  let _dt_tuple := _compute_datetime_types pd in
  isinstance obj _dt_tuple.

Definition is_timedelta_type (obj : value) : bool :=
  isinstance obj [c_timedelta; c_np_timedelta64].

(** [convert_date_to_datetime]: [obj.timetuple()[:6]] keeps the date and
    the whole seconds of the wall clock ([pd.NaT] has no [timetuple]). *)
Definition convert_date_to_datetime (obj : pyobj) : result float :=
  let midnight_or_second (us : Z) :=
    rbind (total_seconds (PyTimedelta (us - DT_EPOCH)))
          (fun s => Ok (Double.mul s (Double.of_Z 1000))) in
  match obj with
  | PyDate days => midnight_or_second (days * 86400 * 10 ^ 6)
  | PyDatetime wall _ => midnight_or_second (wall - wall mod 10 ^ 6)
  | PdTimestamp v off =>
      let wall := (v + 1000 * default 0 off) / 1000 in
      midnight_or_second (wall - wall mod 10 ^ 6)
  | PdNaT => Raise ValueError
  | _ => Raise AttributeError
  end.

Definition convert_timedelta_type (obj : value) : result float :=
  if isinstance obj [c_timedelta] then
    match obj with
    | VObj o => rbind (total_seconds o) (fun s => Ok (Double.mul s (Double.of_Z 1000)))
    | _ => Raise AttributeError
    end
  else if isinstance obj [c_np_timedelta64] then
    match obj with
    | VObj (NpTimedelta64 v u) => timedelta64_truediv v u NP_MS_DELTA
    | _ => Raise TypeError
    end
  else Raise ValueError.

(** [obj is pd.NaT]: [pd.NaT] is the only instance of its class. *)
Definition is_pd_NaT (obj : value) : bool :=
  match obj with VObj PdNaT => true | _ => false end.

Definition convert_datetime_type (pd : bool) (obj : value) : result float :=
  let per_million (n : Z) := Ok (Double.div (Double.of_Z n) (Double.of_Z (10 ^ 6))) in
  (* Pandas NaT *)
  if pd && is_pd_NaT obj then Ok Double.nan
  (* Pandas Period *)
  else if pd && isinstance obj [c_pd_Period] then
    match obj with
    | VObj (PdPeriod start_ns) => rbind (period_to_timestamp_value start_ns) per_million
    | _ => Raise AttributeError
    end
  (* Pandas Timestamp *)
  else if pd && isinstance obj [c_pd_Timestamp] then
    match obj with
    | VObj (PdTimestamp ns _) => rbind (pd_value ns) per_million
    | _ => Raise AttributeError
    end
  (* Pandas Timedelta *)
  else if pd && isinstance obj [c_pd_Timedelta] then
    match obj with
    | VObj (PdTimedelta ns) => rbind (pd_value ns) per_million
    | _ => Raise AttributeError
    end
  (* Datetime (datetime is a subclass of date) *)
  else if isinstance obj [c_datetime] then
    match obj with
    | VObj o => rbind (seconds_since_epoch o) (fun s => Ok (Double.mul s (Double.of_Z 1000)))
    | _ => Raise AttributeError
    end
  (* Date *)
  else if isinstance obj [c_date] then
    match obj with VObj o => convert_date_to_datetime o | _ => Raise AttributeError end
  (* NumPy datetime64 *)
  else if isinstance obj [c_np_datetime64] then
    match obj with
    | VObj (NpDatetime64 v u) =>
        let epoch_delta := datetime64_sub v u NP_EPOCH in
        timedelta64_truediv (fst epoch_delta) (u_lin (snd epoch_delta)) NP_MS_DELTA
    | _ => Raise TypeError
    end
  (* Time *)
  else if isinstance obj [c_time] then
    match obj with
    | VObj (PyTime hour minute second microsecond) =>
        Ok (Double.add (Double.of_Z ((hour * 3600 + minute * 60 + second) * 1000))
                       (Double.div (Double.of_Z microsecond) (Double.of_Z 1000)))
    | _ => Raise AttributeError
    end
  else Raise ValueError.

End Scalars.

(* ===================================================================== *)
(** * Identifiers *)
(* ===================================================================== *)

Definition ID : Type := string.

(** Python's [str(n)] for an int. *)
Definition py_str_int (n : Z) : string := DecimalString.NilZero.string_of_int (Z.to_int n).

(** [uuid.uuid4()] from the sixteen bytes [os.urandom(16)] returned, read
    as a big-endian integer [rnd]: the variant is set to RFC 4122 and the
    version to 4. *)
Definition uuid4 (rnd : Z) : Z :=
  let rnd := rnd mod 2 ^ 128 in
  let rnd := Z.land rnd (Z.lnot (Z.shiftl 49152 48)) in
  let rnd := Z.lor rnd (Z.shiftl 32768 48) in
  let rnd := Z.land rnd (Z.lnot (Z.shiftl 61440 64)) in
  Z.lor rnd (Z.shiftl 4 76).

Definition hex_digit (n : Z) : ascii :=
  nth (Z.to_nat n)
      ["0"; "1"; "2"; "3"; "4"; "5"; "6"; "7"; "8"; "9"; "a"; "b"; "c"; "d"; "e"; "f"]%char
      "0"%char.

(** ['%032x' % n]: thirty-two lower case hexadecimal digits. *)
Definition hex32 (n : Z) : list ascii :=
  map (fun i => hex_digit (Z.land (Z.shiftr n (4 * (31 - Z.of_nat i))) 15)) (seq 0 32).

(** [str(u)] for a UUID: the digits in groups of 8, 4, 4, 4 and 12. *)
Definition uuid_str (u : Z) : string :=
  let hex := hex32 u in
  let dash := ["-"%char] in
  string_of_list_ascii
    (take 8 hex ++ dash ++ take 4 (drop 8 hex) ++ dash ++ take 4 (drop 12 hex)
     ++ dash ++ take 4 (drop 16 hex) ++ dash ++ drop 20 hex).

Definition make_globally_unique_id (rnd : Z) : ID := uuid_str (uuid4 rnd).

(** The module level binding [_simple_id = 999]: the value of the global
    counter when the module has been loaded. *)
Definition _simple_id : Z := 999.

(** [make_id()].  The global counter is passed in and out; [simple_ids] is
    what [settings.simple_ids()] answers at this call and [rnd] what the
    operating system would deliver to [uuid.uuid4()].  The lock makes the
    increment and the read one step, so calls are modelled one after the
    other. *)
Definition make_id (simple_ids : bool) (rnd : Z) (counter : Z) : ID * Z :=
  if simple_ids then
    let counter := counter + 1 in
    (py_str_int counter, counter)
  else (make_globally_unique_id rnd, counter).

(** A run of calls to [make_id], each with its setting and its entropy,
    from a given counter: the identifiers in order and the final counter. *)
Fixpoint make_ids (calls : list (bool * Z)) (counter : Z) : list ID * Z :=
  match calls with
  | [] => ([], counter)
  | (simple_ids, rnd) :: rest =>
      let '(i, counter') := make_id simple_ids rnd counter in
      let '(ids, final) := make_ids rest counter' in
      (i :: ids, final)
  end.

(* ===================================================================== *)
(** * Binary transfer eligibility *)
(* ===================================================================== *)

Definition array_encoding_disabled (array : array) : bool :=
  (* disable binary encoding for non-supported dtypes *)
  negb (bool_decide (nd_dtype (base array) ∈ BINARY_ARRAY_TYPES)).

(* ===================================================================== *)
(** * The store of objects *)
(* ===================================================================== *)

(** Python passes references.  The store lists the objects created so
    far; a reference is a position in it, and a new object goes to the
    end.  A computation reads and extends the store and returns or
    raises. *)
Definition ref : Type := nat.
Definition heap : Type := list value.
Definition M (A : Type) : Type := heap -> result (A * heap).

#[global] Instance M_ret : MRet M := fun A (a : A) h => Ok (a, h).
#[global] Instance M_bind : MBind M := fun A B (k : A -> M B) (c : M A) h =>
  match c h with
  | Ok (a, h') => k a h'
  | Raise e => Raise e
  end.

Definition raise {A} (e : exn) : M A := fun _ => Raise e.

(** Lifting of a computation that does not touch the store. *)
Definition lift {A} (r : result A) : M A := fun h =>
  match r with
  | Ok a => Ok (a, h)
  | Raise e => Raise e
  end.

Definition alloc (v : value) : M ref := fun h => Ok (length h, h ++ [v]).

(** The object a reference points to.  A reference outside the store
    does not occur in a running program; the model answers with
    [SystemError]. *)
Definition deref (r : ref) : M value := fun h =>
  match h !! r with
  | Some v => Ok (v, h)
  | None => Raise SystemError
  end.

(* ===================================================================== *)
(** * Library operations on arrays *)
(* ===================================================================== *)

Definition prod_shape (shape : list Z) : Z := foldr Z.mul 1 shape.

(** An array with other cells and another dtype in the shape of its
    source: what an element-wise operation or a cast allocates, a
    contiguous block that keeps the order of the axes. *)
Definition map_cells (f : cell -> cell) (d : dtype) (a : ndarray) : ndarray :=
  mk_ndarray d (nd_shape a) (map f (nd_data a)) (keep_order (nd_layout a)).

(** [a.astype('datetime64[us]')] and [a.astype('timedelta64[us]')] on an
    array of the same temporal kind. *)
Definition astype_us_cell (d : dtype) (c : cell) : cell :=
  match d, c with
  | dt_datetime64 u _, CTime t => CTime (cast_datetime u l_us t)
  | dt_timedelta64 u _, CTime t => CTime (cast_timedelta u l_us t)
  | _, c => c
  end.

Definition us_dtype (d : dtype) : dtype :=
  match d with
  | dt_timedelta64 _ _ => dt_timedelta64 (u_lin l_us) native
  | _ => dt_datetime64 (u_lin l_us) native
  end.

Definition astype_us (a : ndarray) : ndarray :=
  map_cells (astype_us_cell (nd_dtype a)) (us_dtype (nd_dtype a)) a.

(** [a.astype('int64')] on a temporal array: the raw count, NaT being
    the least 64-bit integer. *)
Definition astype_int64_cell (c : cell) : cell :=
  match c with
  | CTime t => CInt (default INT64_MIN t)
  | c => c
  end.

Definition astype_int64 (a : ndarray) : ndarray :=
  map_cells astype_int64_cell np_int64 a.

(** [a / 1000.0] on an int64 array: a float64 array. *)
Definition div_1000_cell (c : cell) : cell :=
  match c with
  | CInt n => CFloat (Double.div (Double.of_Z n) (Double.of_Z 1000))
  | c => c
  end.

Definition truediv_1000 (a : ndarray) : ndarray :=
  map_cells div_1000_cell np_float64 a.

(** The one element of an array without dimension, as the float64
    scalar that an element-wise operation returns in place of such an
    array. *)
Definition float64_scalar (a : ndarray) : pyobj :=
  match nd_data a with
  | CFloat x :: _ => NpFloat64 x
  | _ => NpFloat64 Double.nan
  end.

(** What the division of [numpy.ma] leaves in the payload: at a masked
    cell the quotient is set to zero and the dividend added back, so the
    cell holds the count as it was, undivided; elsewhere zero is added
    to the quotient. *)
Definition put_back_cell (b : bool) (n q : cell) : cell :=
  match n, q with
  | CInt n, CFloat q =>
      CFloat (Double.add (if b then Double.of_Z 0 else q)
                         (Double.of_Z (if b then n else 0)))
  | _, q => q
  end.

Fixpoint ma_put_back (mask : list bool) (dividend quotient : list cell) : list cell :=
  match mask, dividend, quotient with
  | b :: mask', n :: dividend', q :: quotient' =>
      put_back_cell b n q :: ma_put_back mask' dividend' quotient'
  | _, _, quotient => quotient
  end.

(** [a / 1000.0] on an int64 array.  A base array gives a float64 array,
    and a float64 scalar when it has no dimension.  A masked array goes
    through the division of [numpy.ma]: the quotient of a 64-bit integer
    by 1000.0 is finite and 1000.0 is within the domain of the division,
    so the mask of the result is the mask of the dividend, written out
    cell by cell; without dimension the result is the constant [masked]
    when the cell is masked and the float64 scalar when it is not. *)
Definition array_truediv_1000 (a : array) : value :=
  let quotient := truediv_1000 (base a) in
  match a, nd_shape (base a) with
  | NDArray _, [] => VObj (float64_scalar quotient)
  | NDArray _, _ => VArr (NDArray quotient)
  | MaskedArray _ _, [] =>
      if hd false (getmaskarray a) then VArr ma_masked
      else VObj (float64_scalar quotient)
  | MaskedArray _ _, _ =>
      VArr (MaskedArray
              (mk_ndarray np_float64 (nd_shape quotient)
                 (ma_put_back (getmaskarray a) (nd_data (base a)) (nd_data quotient))
                 (nd_layout quotient))
              (Some (getmaskarray a)))
  end.

(** [len(a)]: the first dimension; a zero-dimensional array has no
    length and NumPy raises [TypeError]. *)
Definition len (a : ndarray) : result Z :=
  match nd_shape a with
  | [] => Raise TypeError
  | d :: _ => Ok d
  end.

(** [a[0]] when it is a plain element: the first cell of a
    one-dimensional object array that is not masked there.  On more
    dimensions [a[0]] is a sub-array, and on a masked first cell it is the
    [masked] constant: neither is an instance of a scalar class. *)
Definition first_element (a : array) : option pyobj :=
  match nd_shape (base a), nd_data (base a) with
  | [_], CObj o :: _ =>
      match a with
      | MaskedArray _ (Some (true :: _)) => None
      | _ => Some o
      end
  | _, _ => None
  end.

(** Cell by cell application of a conversion that can fail: the first
    failure is the failure of the whole. *)
Fixpoint map_result {A B} (f : A -> result B) (l : list A) : result (list B) :=
  match l with
  | [] => Ok []
  | x :: rest =>
      rbind (f x) (fun y => rbind (map_result f rest) (fun ys => Ok (y :: ys)))
  end.

(** [np.array(np.nan, dtype=d)], by which [filled] checks its fill value:
    NaN is a float and an object, is true as a boolean, and is no integer
    (NumPy raises, and [filled] turns it into [TypeError]).  A temporal
    dtype takes what it cannot read as NaT. *)
Definition nan_as (d : dtype) : result cell :=
  match d with
  | dt_float _ _ => Ok (CFloat Double.nan)
  | dt_object => Ok (CObj (PyFloat Double.nan))
  | dt_bool => Ok (CBool true)
  | dt_int8 | dt_uint8 | dt_int _ _ | dt_uint _ _ => Raise TypeError
  | dt_datetime64 _ _ | dt_timedelta64 _ _ => Ok (CTime None)
  end.

(** The cells with [fill] where the mask is set. *)
Fixpoint fill_where (mask : list bool) (fill : cell) (cells : list cell) : list cell :=
  match cells, mask with
  | c :: cells', b :: mask' => (if b then fill else c) :: fill_where mask' fill cells'
  | cells, _ => cells
  end.

(** [a.filled(np.nan)] on a masked array with payload [a]: without a mask
    the payload itself, as a view; else the fill value is checked
    against the dtype, and the payload is returned as a view when nothing
    is masked, or copied, the order of the axes kept, with NaN at the
    masked cells. *)
Definition filled_nan (a : ndarray) (mask : option (list bool)) : result ndarray :=
  match mask with
  | None => Ok a
  | Some m =>
      rbind (nan_as (nd_dtype a)) (fun fill =>
        if existsb id m then
          Ok (mk_ndarray (nd_dtype a) (nd_shape a) (fill_where m fill (nd_data a))
                         (keep_order (nd_layout a)))
        else Ok a)
  end.

(** [np.ascontiguousarray(a)]: a base array of at least one dimension
    with the same cells, C-contiguous. *)
Definition ascontiguousarray (a : array) : array :=
  let nd := base a in
  NDArray (mk_ndarray (nd_dtype nd)
                      (match nd_shape nd with [] => [1] | s => s end)
                      (nd_data nd) C_contiguous).

(* ===================================================================== *)
(** * General API: arrays *)
(* ===================================================================== *)

Section Arrays.

(** NumPy's conversion of one Python object to a datetime64 count in
    microseconds ([None] for NaT), which the cast of an object array
    applies to every cell and which raises on an object it cannot
    convert. *)
Variable pyobject_to_datetime64_us : pyobj -> result (option Z).

Definition object_cell_to_us (c : cell) : result cell :=
  match c with
  | CObj o => rbind (pyobject_to_datetime64_us o) (fun t => Ok (CTime t))
  | c => Ok c
  end.

(** [a.astype('datetime64[us]')] on an object array. *)
Definition astype_us_object (a : ndarray) : result ndarray :=
  rbind (map_result object_cell_to_us (nd_data a)) (fun cells =>
    Ok (mk_ndarray (dt_datetime64 (u_lin l_us) native) (nd_shape a) cells
                   (keep_order (nd_layout a)))).

Definition convert_datetime_array (array : ref) : M ref :=
  v ← deref array;
  match v with
  | VArr a =>
      let nd := base a in
      (* not quite correct, truncates to ms.. *)
      if Ascii.eqb (kind (nd_dtype nd)) "M" then
        alloc (array_truediv_1000 (with_base a (astype_int64 (astype_us nd))))
      else if Ascii.eqb (kind (nd_dtype nd)) "m" then
        alloc (array_truediv_1000 (with_base a (astype_int64 (astype_us nd))))
      (* XXX (bev) special case dates, not great *)
      else if Ascii.eqb (kind (nd_dtype nd)) "O" then
        n ← lift (len nd);
        if (0 <? n)
           && match first_element a with
              | Some o => isinstance (VObj o) [c_date]
              | None => false
              end
        then
          match astype_us_object nd with
          | Ok nd' => alloc (array_truediv_1000 (with_base a (astype_int64 nd')))
          | Raise _ => mret array
          end
        else mret array
      else mret array
  | _ => mret array
  end.

Definition transform_array (array : ref) : M ref :=
  array ← convert_datetime_array array;
  v ← deref array;
  array ← match v with
          | VArr (MaskedArray nd mask) =>
              (* Set masked values to nan *)
              filled ← lift (filled_nan nd mask);
              alloc (VArr (NDArray filled))
          | _ => mret array
          end;
  v ← deref array;
  match v with
  | VArr a =>
      if negb (nd_c_contiguous (base a)) then alloc (VArr (ascontiguousarray a))
      else mret array
  | VObj o =>
      (* the flags of a NumPy scalar say C-contiguous *)
      if is_np_generic o then mret array else raise AttributeError
  | VList _ => raise AttributeError
  end.

End Arrays.

(* ===================================================================== *)
(** * From arrays to lists *)
(* ===================================================================== *)

(** A count of rank [i] in units of rank [j], without wrap-around. *)
Definition rescale_exact (i j : nat) (v : Z) : Z :=
  v * rank_factor i j / rank_factor j i.

(** First and last day number, relative to 1970-01-01, of the years 1 to
    9999 that [dt.date] and [dt.datetime] cover. *)
Definition MIN_DAY : Z := days_from_epoch 1 0.
Definition MAX_DAY : Z := days_from_epoch 10000 0 - 1.

(** The Python object NumPy makes of a datetime64 count: [None] for NaT
    and for the generic unit, the raw int for units finer than
    microseconds and for years outside 1 .. 9999, a [date] for units of a
    day or coarser, else a [datetime]. *)
Definition datetime64_item (u : tunit) (t : option Z) : pyobj :=
  match t with
  | None => PyNone
  | Some x =>
      let dated (day_unit : bool) (days us : Z) :=
        if (MIN_DAY <=? days) && (days <=? MAX_DAY) then
          if day_unit then PyDate days else PyDatetime us None
        else PyInt x in
      match u with
      | u_generic => PyNone
      | u_Y => dated true (days_from_epoch (1970 + x) 0) 0
      | u_M => dated true (days_from_epoch (1970 + x / 12) (x mod 12)) 0
      | u_lin a =>
          if (rank l_us <? rank a)%nat then PyInt x
          else dated (rank a <=? rank l_D)%nat
                     (rescale_exact (rank a) (rank l_D) x)
                     (rescale_exact (rank a) (rank l_us) x)
      end
  end.

(** The Python object NumPy makes of a timedelta64 count: [None] for NaT,
    the raw int for the calendar units, the generic unit, units finer
    than microseconds and lengths beyond what [dt.timedelta] holds, else a
    [timedelta]. *)
Definition timedelta64_item (u : tunit) (t : option Z) : pyobj :=
  match t, u with
  | None, _ => PyNone
  | Some x, u_lin a =>
      let us := rescale_exact (rank a) (rank l_us) x in
      let days := us / (86400 * 10 ^ 6) in
      if (rank l_us <? rank a)%nat || (days <? -999999999) || (999999999 <? days)
      then PyInt x
      else PyTimedelta us
  | Some x, _ => PyInt x
  end.

(** [a.item()] on one cell of an array of dtype [d], as [tolist()] and
    [astype('object')] apply it. *)
Definition item (d : dtype) (c : cell) : pyobj :=
  match c with
  | CBool b => PyBool b
  | CInt n => PyInt n
  | CFloat x => PyFloat x
  | CObj o => o
  | CTime t =>
      match d with
      | dt_timedelta64 u _ => timedelta64_item u t
      | dt_datetime64 u _ => datetime64_item u t
      | _ => PyNone
      end
  end.

(** [a.astype('object')]. *)
Definition astype_object (a : ndarray) : ndarray :=
  map_cells (fun c => CObj (item (nd_dtype a) c)) dt_object a.

(** The rows of a flat list: [count] pieces of [size] elements. *)
Definition chunks {A} (size count : nat) (xs : list A) : list (list A) :=
  map (fun i => take size (drop (i * size) xs)) (seq 0 count).

(** The nested list of a shape over the elements in C order; without a
    dimension, the element itself. *)
Fixpoint nest (shape : list Z) (xs : list value) : value :=
  match shape with
  | [] => hd (VObj PyNone) xs
  | d :: rest =>
      VList (map (nest rest) (chunks (Z.to_nat (prod_shape rest)) (Z.to_nat d) xs))
  end.

(** [a.tolist()] on a base array. *)
Definition tolist (a : ndarray) : value :=
  nest (nd_shape a) (map (fun c => VObj (item (nd_dtype a) c)) (nd_data a)).

(** The elements of a masked array as [tolist()] lists them: [None] for
    a masked cell. *)
Fixpoint ma_items (d : dtype) (mask : list bool) (cells : list cell) : list value :=
  match cells, mask with
  | c :: cells', b :: mask' =>
      VObj (if b then PyNone else item d c) :: ma_items d mask' cells'
  | cells, _ => map (fun c => VObj (item d c)) cells
  end.

(** [a.tolist()] on any array: without a mask the list of the payload. *)
Definition array_tolist (a : array) : value :=
  match a with
  | MaskedArray nd (Some m) => nest (nd_shape nd) (ma_items (nd_dtype nd) m (nd_data nd))
  | _ => tolist (base a)
  end.

(** The element-wise tests [np.isfinite], [np.isnan], [np.isposinf] and
    [np.isneginf]: booleans and integers are finite. *)
Definition cell_float (c : cell) : option float :=
  match c with CFloat x => Some x | _ => None end.

Definition np_isfinite (c : cell) : bool :=
  from_option Double.isfinite true (cell_float c).
Definition np_isnan (c : cell) : bool :=
  from_option Double.isnan false (cell_float c).
Definition np_isposinf (c : cell) : bool :=
  from_option Double.isposinf false (cell_float c).
Definition np_isneginf (c : cell) : bool :=
  from_option Double.isneginf false (cell_float c).

(** [pd.isnull] on one cell of an object array: [None], a float NaN and
    the not-a-time values. *)
Definition pd_isnull (c : cell) : bool :=
  match c with
  | CObj PyNone | CObj PdNaT | CObj (NpDatetime64 None _) | CObj (NpTimedelta64 None _) => true
  | CObj (PyFloat x) | CObj (NpFloat64 x) => Double.isnan x
  | _ => false
  end.

(** [mask & ~where]: the mask with the positions of [where_] cleared. *)
Fixpoint clear_where (where_ mask : list bool) : list bool :=
  match mask, where_ with
  | b :: mask', w :: where' => (b && negb w) :: clear_where where' mask'
  | mask, _ => mask
  end.

(** [(test(array)).any()] for an element-wise test of NumPy: on a masked
    array the test is masked where the array is, and [any] looks at the
    cells that are not masked. *)
Definition ma_any (test : cell -> bool) (a : array) : bool :=
  existsb id (clear_where (getmaskarray a) (map test (nd_data (base a)))).

(** [a.astype('object')] on any array: the class and the mask kept. *)
Definition array_astype_object (a : array) : array :=
  with_base a (astype_object (base a)).

(** [transformed[test(a)] = text]: the cells of [transformed] at the
    positions where [test] holds in the payload of [a] become the string
    [text]; in a masked array the assignment clears the mask at these
    positions, so a cell that was masked shows the text as well. *)
Definition assign_where (test : cell -> bool) (text : string)
    (a transformed : array) : array :=
  let where_ := map test (nd_data (base a)) in
  let nd := base transformed in
  let assigned :=
    mk_ndarray (nd_dtype nd) (nd_shape nd)
               (fill_where where_ (CObj (PyStr text)) (nd_data nd)) (nd_layout nd) in
  match transformed with
  | NDArray _ => NDArray assigned
  | MaskedArray _ None => MaskedArray assigned None
  | MaskedArray _ (Some m) => MaskedArray assigned (Some (clear_where where_ m))
  end.

(** [transform_array_to_list].  [pd.isnull] looks at the payload of a
    masked array, mask or not, and answers with a base array. *)
Definition transform_array_to_list (pd : bool) (array : array) : value :=
  if bool_decide (kind (nd_dtype (base array)) ∈ ["u"; "i"; "f"]%char)
     && ma_any (fun c => negb (np_isfinite c)) array
  then
    let transformed := array_astype_object array in
    let transformed := assign_where np_isnan "NaN" array transformed in
    let transformed := assign_where np_isposinf "Infinity" array transformed in
    let transformed := assign_where np_isneginf "-Infinity" array transformed in
    array_tolist transformed
  else if Ascii.eqb (kind (nd_dtype (base array))) "O" && pd
          && existsb pd_isnull (nd_data (base array))
  then
    let transformed := array_astype_object array in
    let transformed := assign_where pd_isnull "NaN" array transformed in
    array_tolist transformed
  else array_tolist array.

(* ===================================================================== *)
(** * Buffers *)
(* ===================================================================== *)

Inductive ByteOrder := little | big.

(** [Ref | str]: the [array] entry of a buffer is a reference to a
    buffer sent apart, or base64 text. *)
Inductive buffer_data :=
| ByRef (id : ID)
| Base64 (text : string).

(** [BufferJson]. *)
Record BufferJson := mk_BufferJson {
  buf_array : buffer_data;
  buf_shape : list Z;
  buf_dtype : string;
  buf_order : ByteOrder
}.

Definition code (c : ascii) : Z := Z.of_N (N_of_ascii c).

Definition byte_of_Z (n : Z) : byte :=
  default Byte.x00 (Byte.of_N (Z.to_N (n mod 256))).

(** The six bits a character of the base64 alphabet stands for. *)
Definition b64_value (c : ascii) : option Z :=
  let n := code c in
  if (65 <=? n) && (n <=? 90) then Some (n - 65)
  else if (97 <=? n) && (n <=? 122) then Some (n - 71)
  else if (48 <=? n) && (n <=? 57) then Some (n + 4)
  else if n =? 43 then Some 62
  else if n =? 47 then Some 63
  else None.

(** The loop of [binascii.a2b_base64] without strict mode.  [quad_pos]
    counts the characters of the current group of four, [leftchar] holds
    the bits not yet written, [pads] the padding characters seen since the
    last data character; characters outside the alphabet are skipped, a
    padding that completes a group ends the decoding, and text that ends
    inside a group is an error. *)
Fixpoint a2b_base64_loop (s : list ascii) (quad_pos leftchar pads : Z) (out : list byte)
  : result (list byte) :=
  match s with
  | [] => if quad_pos =? 0 then Ok out else Raise binascii_Error
  | c :: rest =>
      if Ascii.eqb c "=" then
        if 2 <=? quad_pos then
          if 4 <=? quad_pos + (pads + 1) then Ok out
          else a2b_base64_loop rest quad_pos leftchar (pads + 1) out
        else a2b_base64_loop rest quad_pos leftchar pads out
      else
        match b64_value c with
        | None => a2b_base64_loop rest quad_pos leftchar pads out
        | Some this_ch =>
            if quad_pos =? 0 then a2b_base64_loop rest 1 this_ch 0 out
            else if quad_pos =? 1 then
              a2b_base64_loop rest 2 (Z.land this_ch 15) 0
                (out ++ [byte_of_Z (Z.lor (Z.shiftl leftchar 2) (Z.shiftr this_ch 4))])
            else if quad_pos =? 2 then
              a2b_base64_loop rest 3 (Z.land this_ch 3) 0
                (out ++ [byte_of_Z (Z.lor (Z.shiftl leftchar 4) (Z.shiftr this_ch 2))])
            else
              a2b_base64_loop rest 0 0 0
                (out ++ [byte_of_Z (Z.lor (Z.shiftl leftchar 6) this_ch)])
        end
  end.

(** [base64.b64decode(s)] on a [str]: the text must be ASCII
    ([ValueError] otherwise) and is then decoded. *)
Definition b64decode (s : string) : result (list byte) :=
  let chars := list_ascii_of_string s in
  if forallb (fun c => code c <? 128) chars
  then a2b_base64_loop chars 0 0 0 []
  else Raise ValueError.

Definition unit_names : list (string * tunit) :=
  [("Y", u_Y); ("M", u_M); ("W", u_lin l_W); ("D", u_lin l_D); ("h", u_lin l_h);
   ("m", u_lin l_m); ("s", u_lin l_s); ("ms", u_lin l_ms); ("us", u_lin l_us);
   ("ns", u_lin l_ns); ("ps", u_lin l_ps); ("fs", u_lin l_fs); ("as", u_lin l_as)]%string.

(** The tags that [dtype.name] gives to the dtypes of the model, which
    are the ones an encoder writes. *)
Definition dtype_names : list (string * dtype) :=
  [("bool", np_bool); ("int8", np_int8); ("uint8", np_uint8);
   ("int16", np_int16); ("uint16", np_uint16); ("int32", np_int32);
   ("uint32", np_uint32); ("int64", np_int64); ("uint64", np_uint64);
   ("float16", np_float16); ("float32", np_float32); ("float64", np_float64);
   ("object", np_object);
   ("datetime64", dt_datetime64 u_generic native);
   ("timedelta64", dt_timedelta64 u_generic native)]%string
  ++ map (fun nu => ("datetime64[" ++ fst nu ++ "]", dt_datetime64 (snd nu) native)%string)
         unit_names
  ++ map (fun nu => ("timedelta64[" ++ fst nu ++ "]", dt_timedelta64 (snd nu) native)%string)
         unit_names.

(** A reader of dtype tags that knows the names of [dtype_names] and
    nothing else, for the examples: on these names it answers as
    [np.dtype] does. *)
Definition dtype_of_name (tag : string) : result dtype :=
  match list_find (fun nd => String.eqb (fst nd) tag) dtype_names with
  | Some (_, (_, d)) => Ok d
  | None => Raise TypeError
  end.

(** The integer written in the bytes [bs], least significant first. *)
Definition le_value (bs : list byte) : Z :=
  foldr (fun b acc => Z.of_N (Byte.to_N b) + 256 * acc) 0 bs.

Definition to_signed (bits v : Z) : Z :=
  if v <? 2 ^ (bits - 1) then v else v - 2 ^ bits.

(** The float of [ebits] exponent bits and [mbits] fraction bits whose
    bit pattern is [bits], as a double of the same value. *)
Definition float_of_bits (ebits mbits bits : Z) : float :=
  let sign := Z.testbit bits (ebits + mbits) in
  let e := Z.land (Z.shiftr bits mbits) (2 ^ ebits - 1) in
  let m := Z.land bits (2 ^ mbits - 1) in
  let bias := 2 ^ (ebits - 1) - 1 in
  if e =? 2 ^ ebits - 1 then
    if m =? 0 then S754_infinity sign else S754_nan
  else if e =? 0 then
    binary_normalize Double.prec Double.emax (cond_Zopp sign m) (1 - bias - mbits) sign
  else
    binary_normalize Double.prec Double.emax (cond_Zopp sign (m + 2 ^ mbits))
                     (e - bias - mbits) sign.

(** The byte order of a dtype on a machine of byte order [sys]. *)
Definition dtype_order (sys : ByteOrder) (d : dtype) : ByteOrder :=
  let other := match sys with little => big | big => little end in
  match d with
  | dt_int _ swapped | dt_uint _ swapped | dt_float _ swapped
  | dt_datetime64 _ swapped | dt_timedelta64 _ swapped => other
  | _ => sys
  end.

(** The cell that the [itemsize d] bytes [bs] hold. *)
Definition decode_cell (sys : ByteOrder) (d : dtype) (bs : list byte) : cell :=
  let v := le_value (match dtype_order sys d with little => bs | big => rev bs end) in
  match d with
  | dt_bool => CBool (negb (v =? 0))
  | dt_int8 | dt_int _ _ => CInt (to_signed (8 * itemsize d) v)
  | dt_uint8 | dt_uint _ _ => CInt v
  | dt_float w16 _ => CFloat (float_of_bits 5 10 v)
  | dt_float w32 _ => CFloat (float_of_bits 8 23 v)
  | dt_float w64 _ => CFloat (float_of_bits 11 52 v)
  | dt_datetime64 _ _ | dt_timedelta64 _ _ =>
      let n := to_signed 64 v in
      CTime (if n =? INT64_MIN then None else Some n)
  | dt_object => CObj PyNone
  end.

(** The cells that a buffer holds when it is read as items of dtype
    [d], one after the other. *)
Definition buffer_cells (sys : ByteOrder) (d : dtype) (bs : list byte) : list cell :=
  let size := Z.to_nat (itemsize d) in
  map (decode_cell sys d) (chunks size (length bs / size) bs).

(** [np.copy(a)]: the same cells in an array of its own, the order of
    the axes kept. *)
Definition np_copy (a : ndarray) : ndarray :=
  mk_ndarray (nd_dtype a) (nd_shape a) (nd_data a) (keep_order (nd_layout a)).

(** The loop of NumPy's [_fix_unknown_dimension]: the product of the
    dimensions that are given, the negative ones left out, as long as it
    fits a signed 64-bit integer. *)
Fixpoint known_size (shape : list Z) (s_known : Z) : option Z :=
  match shape with
  | [] => Some s_known
  | d :: rest =>
      if d <? 0 then known_size rest s_known
      else if INT64_MAX <? s_known * d then None
      else known_size rest (s_known * d)
  end.

(** The check that NumPy makes when it creates an array, a view
    included: the item size times the dimensions that are not zero must
    fit a signed 64-bit integer. *)
Definition creatable (item_size : Z) (shape : list Z) : bool :=
  item_size * prod_shape (filter (fun d => d ≠ 0) shape) <=? INT64_MAX.

Section Buffers.

(** [np.dtype(tag)]: how NumPy reads the text of a dtype (names,
    array-protocol strings with their byte order, one-letter codes) is
    left open; a text it does not understand raises.  The dtypes it can
    name are taken to be those of the model. *)
Variable np_dtype : string -> result dtype.

(** The number of dimensions NumPy allows an array: 32 before NumPy 2,
    64 since. *)
Variable NPY_MAXDIMS : nat.

(** [np.frombuffer(bs, dtype=tag)]: a one-dimensional array over the
    bytes.  Object arrays cannot be made from a buffer, and the length of
    the buffer must be a multiple of the item size ([ValueError]). *)
Definition frombuffer (sys : ByteOrder) (bs : list byte) (tag : string) : result ndarray :=
  rbind (np_dtype tag) (fun d =>
    if bool_decide (d = dt_object) then Raise ValueError
    else if negb (Z.of_nat (length bs) mod itemsize d =? 0) then Raise ValueError
    else
      Ok (mk_ndarray d [Z.of_nat (length bs) / itemsize d] (buffer_cells sys d bs)
                     C_contiguous)).

(** The shape [reshape] gives for [shape] on [size] elements of
    [item_size] bytes.  The shape may have [NPY_MAXDIMS] dimensions at
    most, each a signed 64-bit integer; one dimension may be negative
    and is then inferred; the product of the others must not overflow
    and must agree with the number of elements; and the array of the
    new shape must pass the check of array creation.  Every failure is a
    [ValueError]. *)
Definition resolve_shape (item_size size : Z) (shape : list Z) : result (list Z) :=
  if (NPY_MAXDIMS <? length shape)%nat then Raise ValueError
  else if negb (forallb (fun d => (INT64_MIN <=? d) && (d <=? INT64_MAX)) shape)
  then Raise ValueError
  else
    match known_size shape 1 with
    | None => Raise ValueError
    | Some s_known =>
        rbind
          match filter (fun d => d < 0) shape with
          | [] => if s_known =? size then Ok shape else Raise ValueError
          | [_] =>
              if (s_known =? 0) || negb (size mod s_known =? 0) then Raise ValueError
              else Ok (map (fun d => if d <? 0 then size / s_known else d) shape)
          | _ => Raise ValueError
          end
          (fun shape' =>
             if creatable item_size shape' then Ok shape' else Raise ValueError)
    end.

(** [a.reshape(shape)] on a C-contiguous one-dimensional array: a view
    of the new shape over the same cells. *)
Definition reshape (a : ndarray) (shape : list Z) : result ndarray :=
  rbind (resolve_shape (itemsize (nd_dtype a)) (Z.of_nat (length (nd_data a))) shape)
        (fun shape' => Ok (mk_ndarray (nd_dtype a) shape' (nd_data a) (nd_layout a))).

(** [decode_base64_dict] on a machine of byte order [sys]. *)
Definition decode_base64_dict (sys : ByteOrder) (buffer : BufferJson) : result array :=
  let data := buf_array buffer in
  let dtype := buf_dtype buffer in
  let shape := buf_shape buffer in
  rbind (match data with
         | Base64 data => b64decode data
         | ByRef _ => Raise NotImplementedError
         end) (fun bytes =>
  rbind (frombuffer sys bytes dtype) (fun flat =>
  let array := np_copy flat in
  rbind (if (1 <? length shape)%nat then reshape array shape else Ok array) (fun array =>
  Ok (NDArray array)))).

End Buffers.

(* ===================================================================== *)
(** * Reference definitions for the statements *)
(* ===================================================================== *)

(** The datetime-like classes as the specification lists them: native
    date, time and datetime, the fixed-precision timestamp, and the class
    of the not-a-time sentinel. *)
Definition spec_datetime_like (c : pyclass) : bool :=
  bool_decide (c ∈ [c_date; c_time; c_datetime; c_pd_Timestamp; c_pd_NaTType]).


(** Whether a dtype is stored in the byte order of the machine. *)
Definition native_order (d : dtype) : bool :=
  match d with
  | dt_int _ swapped | dt_uint _ swapped | dt_float _ swapped
  | dt_datetime64 _ swapped | dt_timedelta64 _ swapped => false
  | _ => true
  end.

(** Milliseconds in one unit, for the units of a millisecond or longer,
    and units in one millisecond, for the shorter ones. *)
Definition ms_in_unit (l : lunit) : Z :=
  match l with
  | l_W => 604800000 | l_D => 86400000 | l_h => 3600000 | l_m => 60000 | l_s => 1000
  | _ => 1
  end.

Definition units_in_ms (l : lunit) : Z :=
  match l with
  | l_us => 10 ^ 3 | l_ns => 10 ^ 6 | l_ps => 10 ^ 9 | l_fs => 10 ^ 12 | l_as => 10 ^ 15
  | _ => 1
  end.

(** How many of the calls of a run are made in simple-ID mode. *)
Definition simple_calls (calls : list (bool * Z)) : Z :=
  Z.of_nat (length (filter (fun c => fst c = true) calls)).

(** The JSON-safe object of a cell: the three strings for the non-finite
    floats, the item itself otherwise. *)
Definition json_safe (d : dtype) (c : cell) : value :=
  VObj (if np_isnan c then PyStr "NaN"
        else if np_isposinf c then PyStr "Infinity"
        else if np_isneginf c then PyStr "-Infinity"
        else item d c).

(** The same for a cell of a masked array, [masked] telling whether the
    cell is masked: the strings for the non-finite floats, masked or
    not, [None] for what else is masked, the item itself otherwise. *)
Definition ma_json_safe (d : dtype) (masked : bool) (c : cell) : value :=
  VObj (if np_isnan c then PyStr "NaN"
        else if np_isposinf c then PyStr "Infinity"
        else if np_isneginf c then PyStr "-Infinity"
        else if masked then PyNone
        else item d c).

(** The element of a masked array as [tolist()] shows it. *)
Definition ma_item (d : dtype) (masked : bool) (c : cell) : value :=
  VObj (if masked then PyNone else item d c).

(** A conversion of objects to datetime64 counts that covers the objects
    of plain value: a date, a naive datetime and [None]; every other
    object is refused. *)
Definition plain_datetime64_us (o : pyobj) : result (option Z) :=
  match o with
  | PyDate days => Ok (Some (wrap64 (days * 86400 * 10 ^ 6)))
  | PyDatetime wall None => Ok (Some wall)
  | PyNone => Ok None
  | _ => Raise ValueError
  end.

(** Sample data for the statements below: the eight bytes of the double
    1.0 as base64 text, read as four 16-bit integers, in an envelope
    whose shape is two by two and in one whose shape announces seven
    elements. *)
Definition sample_text : string := "AAAAAAAA8D8=".
Definition sample_bytes : list byte :=
  [Byte.x00; Byte.x00; Byte.x00; Byte.x00; Byte.x00; Byte.x00; Byte.xf0; Byte.x3f].
Definition sample_flat : ndarray :=
  mk_ndarray np_int16 [4] [CInt 0; CInt 0; CInt 0; CInt 16368] C_contiguous.
Definition sample_square : BufferJson :=
  mk_BufferJson (Base64 sample_text) [2; 2] "int16" little.
Definition sample_seven : BufferJson :=
  mk_BufferJson (Base64 sample_text) [7] "int16" little.

(** The array [[1.0, NaN, inf, -inf]]. *)
Definition sample_nonfinite : ndarray :=
  mk_ndarray np_float64 [4]
    [CFloat (Double.of_Z 1); CFloat Double.nan; CFloat Double.inf; CFloat Double.neg_inf]
    C_contiguous.

(** The masked array [[1.0, NaN]] whose first element is masked. *)
Definition sample_masked_nan : array :=
  MaskedArray (mk_ndarray np_float64 [2] [CFloat (Double.of_Z 1); CFloat Double.nan]
                          C_contiguous)
              (Some [true; false]).

(** Two masked arrays [[1, 2, 3]] with the middle element masked, one of
    int32 and one of float64 that is a slice with a step and so not
    C-contiguous, and a store that holds them. *)
Definition sample_masked_int : array :=
  MaskedArray (mk_ndarray np_int32 [3] [CInt 1; CInt 2; CInt 3] C_contiguous)
              (Some [false; true; false]).
Definition sample_masked_float : array :=
  MaskedArray (mk_ndarray np_float64 [3]
                 [CFloat (Double.of_Z 1); CFloat (Double.of_Z 2); CFloat (Double.of_Z 3)]
                 C_strided)
              (Some [false; true; false]).
Definition sample_store : heap := [VArr sample_masked_int; VArr sample_masked_float].

(** A store with one array of two millisecond timestamps, the second
    being NaT. *)
Definition sample_datetimes : array :=
  NDArray (mk_ndarray (dt_datetime64 (u_lin l_ms) native) [2]
                      [CTime (Some 1500); CTime None] C_contiguous).
Definition sample_datetime_store : heap := [VArr sample_datetimes].

(** A store with one C-contiguous float64 array without mask. *)
Definition sample_plain_store : heap := [VArr (NDArray sample_nonfinite)].

(** A store with one millisecond timestamp in an array without
    dimension. *)
Definition sample_instant : array :=
  NDArray (mk_ndarray (dt_datetime64 (u_lin l_ms) native) [] [CTime (Some 1500)]
                      C_contiguous).
Definition sample_instant_store : heap := [VArr sample_instant].


(** Whether a cell is of the sort that its dtype stores. *)
Definition cell_typed (d : dtype) (c : cell) : bool :=
  match d, c with
  | dt_bool, CBool _ => true
  | (dt_int8 | dt_uint8 | dt_int _ _ | dt_uint _ _), CInt _ => true
  | dt_float _ _, CFloat _ => true
  | (dt_datetime64 _ _ | dt_timedelta64 _ _), CTime _ => true
  | dt_object, CObj _ => true
  | _, _ => false
  end.

(** Whether a value can be written as strict JSON as far as floats go:
    no float in it, at any depth of nesting, is NaN or an infinity, and
    no array is left in it. *)
Fixpoint json_clean (v : value) : bool :=
  match v with
  | VObj (PyFloat x) | VObj (NpFloat64 x) => Double.isfinite x
  | VObj _ => true
  | VList l => forallb json_clean l
  | VArr _ => false
  end.

(** The characters of a UUID: lower case hexadecimal digits. *)
Definition is_hex (c : ascii) : bool :=
  bool_decide (c ∈ ["0"; "1"; "2"; "3"; "4"; "5"; "6"; "7"; "8"; "9";
                    "a"; "b"; "c"; "d"; "e"; "f"]%char).

(** Python's [int(s)] on the decimal text of an identifier. *)
Definition py_int_str (s : string) : option Z :=
  option_map Z.of_int (DecimalString.NilZero.int_of_string s).

(* ===================================================================== *)
(** * Properties *)
(* ===================================================================== *)

(** ** Binary transfer eligibility *)

(** C1. An array is eligible for binary transfer, that is
    [array_encoding_disabled] answers false, exactly when its dtype is one
    of float32, float64, uint8, int8, uint16, int16, uint32 and int32 in
    native byte order; put by kind: a native float of 4 or 8 bytes or a
    native integer of 1, 2 or 4 bytes.  So uint8, int32 and float64
    arrays are eligible, and float16, int64, bool, object and temporal
    arrays are not. *)
Theorem binary_eligibility_whitelist (a : array) :
  let d := nd_dtype (base a) in
  (array_encoding_disabled a = false <->
     d ∈ [np_float32; np_float64; np_uint8; np_int8; np_uint16; np_int16; np_uint32; np_int32])
  /\ (array_encoding_disabled a = false <->
        native_order d = true
        /\ ((kind d = "f"%char /\ (itemsize d = 4 \/ itemsize d = 8))
            \/ ((kind d = "i"%char \/ kind d = "u"%char)
                /\ (itemsize d = 1 \/ itemsize d = 2 \/ itemsize d = 4))))
  /\ (d = np_uint8 \/ d = np_int32 \/ d = np_float64 -> array_encoding_disabled a = false)
  /\ (d = np_float16 \/ d = np_int64 \/ d = np_bool \/ d = np_object
      \/ kind d = "M"%char \/ kind d = "m"%char -> array_encoding_disabled a = true).
Proof.
  intros d. subst d. unfold array_encoding_disabled.
  destruct (nd_dtype (base a)) as [| | |w o|w o|w o|u o|u o|];
    try destruct w; try destruct o; vm_compute bool_decide; cbn;
    repeat split; intros; try reflexivity; try discriminate;
    repeat match goal with
           | H : _ /\ _ |- _ => destruct H
           | H : _ \/ _ |- _ => destruct H
           | H : _ ∈ _ |- _ => apply list_elem_of_In in H; cbn in H
           end;
    try discriminate; try contradiction; try congruence;
    try (apply list_elem_of_In; cbn; tauto);
    try tauto.
Qed.

(** ** Identifiers *)

Lemma make_id_simple (rnd n : Z) :
  make_id true rnd n = (py_str_int (n + 1), n + 1).
Proof. reflexivity. Qed.

Lemma make_id_global (rnd n : Z) :
  make_id false rnd n = (make_globally_unique_id rnd, n).
Proof. reflexivity. Qed.

Lemma make_ids_cons (c : bool * Z) (rest : list (bool * Z)) (n : Z) :
  make_ids (c :: rest) n =
  (fst (make_id (fst c) (snd c) n) :: fst (make_ids rest (snd (make_id (fst c) (snd c) n))),
   snd (make_ids rest (snd (make_id (fst c) (snd c) n)))).
Proof.
  destruct c as [s rnd]. cbn [make_ids fst snd].
  destruct (make_id s rnd n) as [i n'].
  cbn [fst snd]. destruct (make_ids rest n') as [ids final]. reflexivity.
Qed.

Lemma simple_calls_cons (c : bool * Z) (rest : list (bool * Z)) :
  simple_calls (c :: rest) = (if fst c then 1 else 0) + simple_calls rest.
Proof.
  unfold simple_calls. destruct c as [[] rnd]; cbn [fst].
  - rewrite filter_cons_True by reflexivity. cbn [length]. lia.
  - rewrite filter_cons_False by discriminate. lia.
Qed.

(** The counter after a run is the counter before plus the number of
    simple-mode calls. *)
Lemma make_ids_counter (calls : list (bool * Z)) (n : Z) :
  snd (make_ids calls n) = n + simple_calls calls.
Proof.
  revert n. induction calls as [|c rest IH]; intros n.
  - unfold simple_calls. cbn. lia.
  - rewrite make_ids_cons, simple_calls_cons. cbn [snd].
    rewrite IH. destruct c as [[] rnd]; cbn [fst snd make_id]; lia.
Qed.

(** The identifier a run hands out at a position depends on the calls
    before it only through the counter they leave. *)
Lemma make_ids_lookup (before after : list (bool * Z)) (c : bool * Z) (n : Z) :
  fst (make_ids (before ++ c :: after) n) !! length before
  = Some (fst (make_id (fst c) (snd c) (n + simple_calls before))).
Proof.
  revert n. induction before as [|b before IH]; intros n.
  - cbn [app length]. rewrite make_ids_cons. cbn [fst]. unfold simple_calls. cbn.
    now rewrite Z.add_0_r.
  - cbn [app length]. rewrite make_ids_cons. cbn [fst]. cbn [lookup list_lookup].
    rewrite IH, simple_calls_cons. do 3 f_equal.
    destruct b as [[] rnd]; cbn [fst snd make_id]; lia.
Qed.

(** The decimal text of an int reads back as that int. *)
Lemma py_int_str_py_str_int (n : Z) : py_int_str (py_str_int n) = Some n.
Proof.
  unfold py_int_str, py_str_int. rewrite DecimalString.NilZero.isi.
  - cbn [option_map]. now rewrite DecimalZ.of_to.
  - destruct n; cbn; try discriminate.
    intros E. inversion E as [E']. now apply DecimalPos.Unsigned.to_uint_nonnil in E'.
  - destruct n; cbn; try discriminate.
    intros E. inversion E as [E']. now apply DecimalPos.Unsigned.to_uint_nonnil in E'.
Qed.

(** C10. The counter is seeded at 999.  In simple-ID mode the first call
    returns "1000"; every simple-mode call returns the decimal string of
    the counter it finds plus one, a text that [int] reads back as that
    number, and leaves that value in the counter; a call in the other
    mode leaves the counter alone.  Hence in any run of calls from a
    fresh process, the simple-mode call that comes after [k] earlier
    simple-mode calls returns the decimal string of [1000 + k], which
    reads back as [1000 + k]. *)
Theorem make_id_simple_counter :
  _simple_id = 999
  /\ (forall rnd, make_id true rnd _simple_id = ("1000"%string, 1000))
  /\ (forall rnd n, make_id true rnd n = (py_str_int (n + 1), n + 1))
  /\ (forall rnd n, snd (make_id false rnd n) = n)
  /\ (forall before rnd after,
        fst (make_ids (before ++ (true, rnd) :: after) _simple_id) !! length before
        = Some (py_str_int (1000 + simple_calls before)))
  /\ (forall calls, snd (make_ids calls _simple_id) = 999 + simple_calls calls)
  /\ (forall rnd n, py_int_str (fst (make_id true rnd n)) = Some (n + 1))
  /\ (forall before rnd after id,
        fst (make_ids (before ++ (true, rnd) :: after) _simple_id) !! length before = Some id ->
        py_int_str id = Some (1000 + simple_calls before)).
Proof.
  assert (Hrun : forall before rnd after,
             fst (make_ids (before ++ (true, rnd) :: after) _simple_id) !! length before
             = Some (py_str_int (1000 + simple_calls before))).
  { intros before rnd after. rewrite make_ids_lookup. cbn [fst snd].
    rewrite make_id_simple. cbn [fst]. do 2 f_equal. unfold _simple_id. lia. }
  split; [reflexivity|].
  split; [intros rnd; reflexivity|].
  split; [intros rnd n; apply make_id_simple|].
  split; [intros rnd n; reflexivity|].
  split; [exact Hrun|].
  split; [intros calls; apply make_ids_counter|].
  split.
  - intros rnd n. rewrite make_id_simple. cbn [fst]. apply py_int_str_py_str_int.
  - intros before rnd after id Hid. rewrite Hrun in Hid. inversion Hid.
    apply py_int_str_py_str_int.
Qed.

(** ** Temporal scalars *)

(** Float arithmetic is kept folded in the proofs: the statements relate
    the operations, they do not evaluate them on unknown operands. *)
#[local] Opaque Double.add Double.mul Double.div Double.of_Z Double.int_truediv.

(** Evaluation of the class tests that occur in a goal. *)
Ltac eval_isinstance :=
  repeat match goal with
         | |- context [isinstance ?v ?cs] =>
             let b := eval vm_compute in (isinstance v cs) in
             change (isinstance v cs) with b
         end.

Lemma nan_not_equal_to_itself (x : float) :
  Double.isnan x = true -> Double.eqb x x = false.
Proof. destruct x; cbn; intros H; try discriminate H; reflexivity. Qed.

(** C6. [convert_datetime_type] maps the pandas not-a-time sentinel to
    NaN, whether or not the pandas branch is the one that answers, and
    NaN is not equal to itself under float equality. *)
Theorem convert_datetime_type_NaT (pd_total_seconds : Z -> float) (pd : bool) :
  exists x : float,
    convert_datetime_type pd_total_seconds pd (VObj PdNaT) = Ok x
    /\ x = Double.nan
    /\ Double.isnan x = true
    /\ Double.eqb x x = false.
Proof.
  exists Double.nan. destruct pd; repeat split; reflexivity.
Qed.

(** C8 fails as stated: a [dt.date] that is no datetime is datetime-like
    for the specification, and [is_datetime_type] rejects it, with or
    without pandas; a [pd.Timedelta] is not datetime-like for the
    specification, and [is_datetime_type] accepts it. *)
Lemma is_datetime_type_rejects_date :
  spec_datetime_like (class_of (VObj (PyDate 0))) = true
  /\ is_datetime_type true (VObj (PyDate 0)) = false
  /\ is_datetime_type false (VObj (PyDate 0)) = false
  /\ spec_datetime_like (class_of (VObj (PdTimedelta 0))) = false
  /\ is_datetime_type true (VObj (PdTimedelta 0)) = true.
Proof. repeat split; reflexivity. Qed.

(** C8, amended. [is_datetime_type] answers true exactly for the
    instances of [dt.time], [dt.datetime] (which [pd.Timestamp] and the
    class of [pd.NaT] inherit from) and [np.datetime64] and, when pandas
    can be imported, of [pd.Timedelta] and [pd.Period]. *)
Theorem is_datetime_type_recognized (pd : bool) (obj : value) :
  is_datetime_type pd obj = true <->
    class_of obj ∈ [c_time; c_datetime; c_np_datetime64; c_pd_Timestamp; c_pd_NaTType]
    \/ (pd = true /\ class_of obj ∈ [c_pd_Timedelta; c_pd_Period]).
Proof.
  unfold is_datetime_type, isinstance.
  destruct pd, (class_of obj); vm_compute existsb; split; intros H;
    try reflexivity; try discriminate H;
    try (left; apply list_elem_of_In; cbn; tauto);
    try (right; split; [reflexivity|]; apply list_elem_of_In; cbn; tauto);
    exfalso;
    (destruct H as [H | [Hpd H]];
     [| try discriminate Hpd];
     apply list_elem_of_In in H; cbn in H;
     repeat (destruct H as [H | H]; try discriminate H); try contradiction).
Qed.

(** C7. The code at the input where it leaves the claim: a
    [np.timedelta64] counted in years or in months is a timedelta for
    [is_timedelta_type], and [convert_timedelta_type] returns no float
    for it, whatever its count: the division by [NP_MS_DELTA] raises
    [TypeError], which is not the [ValueError] of an unrecognized input
    either. *)
Theorem convert_timedelta_type_years (pd_total_seconds : Z -> float) (v : option Z) :
  is_timedelta_type (VObj (NpTimedelta64 v u_Y)) = true
  /\ is_timedelta_type (VObj (NpTimedelta64 v u_M)) = true
  /\ convert_timedelta_type pd_total_seconds (VObj (NpTimedelta64 v u_Y)) = Raise TypeError
  /\ convert_timedelta_type pd_total_seconds (VObj (NpTimedelta64 v u_M)) = Raise TypeError
  /\ convert_timedelta_type pd_total_seconds (VObj (NpTimedelta64 (Some 1) u_Y))
     = Raise TypeError.
Proof. repeat split; reflexivity. Qed.

(** ** Arrays *)

(** C9. On an input that is not a NumPy array, [convert_datetime_array]
    returns the reference it was given and leaves the store as it is: the
    very same object, no copy and no error. *)
Theorem convert_datetime_array_identity
    (conv : pyobj -> result (option Z)) (h : heap) (r : ref) (v : value) :
  h !! r = Some v ->
  isinstance v [c_ndarray] = false ->
  convert_datetime_array conv r h = Ok (r, h).
Proof.
  intros Hr Hv. unfold convert_datetime_array, mbind, M_bind, deref.
  rewrite Hr. destruct v as [o | l | a]; try reflexivity.
  destruct a; discriminate Hv.
Qed.

Lemma convert_datetime_array_identity_witness :
  convert_datetime_array plain_datetime64_us 1%nat
    [VObj (PyDate 3); VList [VObj (PyInt 1); VObj (PyFloat Double.nan)]]
  = Ok (1%nat, [VObj (PyDate 3); VList [VObj (PyInt 1); VObj (PyFloat Double.nan)]]).
Proof.
  apply (convert_datetime_array_identity plain_datetime64_us _ 1%nat
           (VList [VObj (PyInt 1); VObj (PyFloat Double.nan)])); reflexivity.
Defined.

(** *** The store *)

Lemma lookup_alloc (h : heap) (v : value) : (h ++ [v]) !! length h = Some v.
Proof. now apply list_lookup_middle. Qed.


(** *** Conversion of temporal arrays *)

Lemma base_with_base (a : array) (nd : ndarray) : base (with_base a nd) = nd.
Proof. now destruct a. Qed.

Lemma length_map_result {A B} (f : A -> result B) (l : list A) (l' : list B) :
  map_result f l = Ok l' -> length l' = length l.
Proof.
  revert l'. induction l as [|x l IH]; intros l'; cbn [map_result].
  - intros E. now inversion E.
  - destruct (f x) as [y|e]; cbn [rbind]; [|intros E; discriminate E].
    destruct (map_result f l) as [ys|e]; cbn [rbind]; [|intros E; discriminate E].
    intros E. inversion E. cbn [length]. f_equal. now apply IH.
Qed.

Lemma length_ma_put_back (mask : list bool) (dividend quotient : list cell) :
  length (ma_put_back mask dividend quotient) = length quotient.
Proof.
  revert dividend quotient. induction mask as [|b mask IH]; intros dividend quotient.
  - reflexivity.
  - cbn [ma_put_back]. destruct dividend as [|n dividend]; try reflexivity.
    destruct quotient as [|q quotient]; try reflexivity.
    cbn [length]. now rewrite IH.
Qed.

Lemma getmaskarray_with_base (a : array) (nd : ndarray) :
  length (nd_data nd) = length (nd_data (base a)) ->
  getmaskarray (with_base a nd) = getmaskarray a.
Proof. intros Hl. destruct a as [nd0|nd0 [m|]]; cbn; now rewrite ?Hl. Qed.

(** What the division by 1000.0 makes of an int64 array: an array of
    float64 of the same class, shape, mask and number of cells, or, of
    an array without dimension, a float64 scalar or the constant
    [masked]. *)
Lemma array_truediv_1000_array (a : array) :
  nd_shape (base a) <> [] ->
  exists nd,
    array_truediv_1000 a
    = VArr (match a with
            | NDArray _ => NDArray nd
            | MaskedArray _ _ => MaskedArray nd (Some (getmaskarray a))
            end)
    /\ nd_dtype nd = np_float64
    /\ nd_shape nd = nd_shape (base a)
    /\ length (nd_data nd) = length (nd_data (base a))
    /\ nd_layout nd = keep_order (nd_layout (base a)).
Proof.
  intros Hs. unfold array_truediv_1000.
  destruct a as [nd0|nd0 mask]; cbn [base] in *.
  - destruct (nd_shape nd0) eqn:E; [contradiction|].
    eexists. split; [reflexivity|]. cbn. rewrite length_map. auto.
  - destruct (nd_shape nd0) eqn:E; [contradiction|].
    eexists. split; [reflexivity|]. cbn.
    rewrite length_ma_put_back, length_map. auto.
Qed.

Lemma array_truediv_1000_scalar (a : array) :
  nd_shape (base a) = [] ->
  (exists x, array_truediv_1000 a = VObj (NpFloat64 x))
  \/ (array_truediv_1000 a = VArr ma_masked
      /\ hd false (getmaskarray a) = true
      /\ exists nd mask, a = MaskedArray nd mask).
Proof.
  intros Hs. unfold array_truediv_1000, float64_scalar.
  destruct a as [nd0|nd0 mask]; cbn [base] in *; rewrite Hs.
  - left. destruct (nd_data _) as [|[] ?]; eauto.
  - destruct (hd false _) eqn:Hm.
    + right. eauto.
    + left. destruct (nd_data _) as [|[] ?]; eauto.
Qed.

(** What [convert_datetime_array] returns on an array: either the
    reference it was given, when the kind is not temporal, or a
    reference to a new object at the end of the store, the quotient by
    1000.0 of an int64 array of the class, mask, shape and number of
    cells of the argument. *)
Lemma convert_datetime_array_array
    (conv : pyobj -> result (option Z)) (h h' : heap) (r r' : ref) (a : array) :
  h !! r = Some (VArr a) ->
  convert_datetime_array conv r h = Ok (r', h') ->
  (r' = r /\ h' = h
   /\ kind (nd_dtype (base a)) <> "M"%char /\ kind (nd_dtype (base a)) <> "m"%char)
  \/ (exists nd, r' = length h /\ h' = h ++ [array_truediv_1000 (with_base a nd)]
                 /\ nd_shape nd = nd_shape (base a)
                 /\ length (nd_data nd) = length (nd_data (base a))
                 /\ nd_layout nd = keep_order (nd_layout (base a))
                 /\ kind (nd_dtype (base a)) ∈ ["M"; "m"; "O"]%char
                 /\ (kind (nd_dtype (base a)) = "O"%char -> nd_shape (base a) <> [])).
Proof.
  intros Hr. unfold convert_datetime_array, mbind, M_bind, deref. rewrite Hr.
  destruct (Ascii.eqb_spec (kind (nd_dtype (base a))) "M") as [HM|HM].
  { intros E. inversion E. right. eexists. split; [reflexivity|]. split; [reflexivity|].
    cbn. rewrite !length_map, HM. destruct (nd_layout (base a)); repeat split;
      try (apply list_elem_of_In; cbn; tauto); discriminate. }
  destruct (Ascii.eqb_spec (kind (nd_dtype (base a))) "m") as [Hm|Hm].
  { intros E. inversion E. right. eexists. split; [reflexivity|]. split; [reflexivity|].
    cbn. rewrite !length_map, Hm. destruct (nd_layout (base a)); repeat split;
      try (apply list_elem_of_In; cbn; tauto); discriminate. }
  destruct (Ascii.eqb_spec (kind (nd_dtype (base a))) "O") as [HO|HO].
  2:{ intros E. inversion E. left. auto. }
  unfold lift. destruct (len (base a)) as [n|e] eqn:Hlen; [|intros E; discriminate E].
  destruct (_ && _).
  2:{ intros E. inversion E. left. auto. }
  destruct (astype_us_object conv (base a)) as [nd'|e] eqn:Hobj.
  2:{ intros E. inversion E. left. auto. }
  unfold astype_us_object in Hobj.
  destruct (map_result _ _) as [cells|e] eqn:Hcells; cbn [rbind] in Hobj; [|discriminate Hobj].
  inversion Hobj; subst nd'.
  intros E. inversion E. right. eexists. split; [reflexivity|]. split; [reflexivity|].
  cbn. rewrite !length_map, HO.
  split; [reflexivity|]. split; [eapply length_map_result, Hcells|].
  split; [now destruct (nd_layout (base a))|].
  split; [apply list_elem_of_In; cbn; tauto|].
  intros _ Hs. unfold len in Hlen. rewrite Hs in Hlen. discriminate Hlen.
Qed.

(** *** Masks and layout *)

Lemma fill_where_lookup (mask : list bool) (fill : cell) (cells : list cell) (i : nat) :
  mask !! i = Some true -> (i < length cells)%nat ->
  fill_where mask fill cells !! i = Some fill.
Proof.
  revert mask i. induction cells as [|c cells IH]; intros mask i Hm Hi.
  - cbn [length] in Hi. lia.
  - destruct mask as [|b mask]; [discriminate Hm|].
    destruct i as [|i]; cbn [fill_where].
    + inversion Hm. reflexivity.
    + cbn [length] in Hi. apply (IH mask i Hm). lia.
Qed.

Lemma length_fill_where (mask : list bool) (fill : cell) (cells : list cell) :
  length (fill_where mask fill cells) = length cells.
Proof.
  revert mask. induction cells as [|c cells IH]; intros mask; [now destruct mask|].
  destruct mask as [|b mask]; [reflexivity|]. cbn [fill_where length]. now rewrite IH.
Qed.

Lemma filled_nan_dtype (nd filled : ndarray) (mask : option (list bool)) :
  filled_nan nd mask = Ok filled -> nd_dtype filled = nd_dtype nd.
Proof.
  unfold filled_nan. destruct mask as [m|]; [|intros E; now inversion E].
  destruct (nan_as (nd_dtype nd)) as [fill|e]; cbn [rbind]; [|intros E; discriminate E].
  destruct (existsb id m); intros E; now inversion E.
Qed.

Lemma filled_nan_shape (nd filled : ndarray) (mask : option (list bool)) :
  filled_nan nd mask = Ok filled ->
  nd_shape filled = nd_shape nd /\ length (nd_data filled) = length (nd_data nd).
Proof.
  unfold filled_nan. destruct mask as [m|]; [|intros E; now inversion E].
  destruct (nan_as (nd_dtype nd)) as [fill|e]; cbn [rbind]; [|intros E; discriminate E].
  destruct (existsb id m); intros E; inversion E; cbn; [|auto].
  now rewrite length_fill_where.
Qed.

(** Where NaN can be the fill value, [filled(np.nan)] returns with the
    fill value at every masked cell. *)
Lemma filled_nan_fill (nd : ndarray) (mask : list bool) (fill : cell) :
  nan_as (nd_dtype nd) = Ok fill ->
  exists filled,
    filled_nan nd (Some mask) = Ok filled
    /\ forall i, mask !! i = Some true -> (i < length (nd_data nd))%nat ->
                 nd_data filled !! i = Some fill.
Proof.
  intros Hfill. unfold filled_nan. rewrite Hfill. cbn [rbind].
  destruct (existsb id mask) eqn:Hany.
  - eexists. split; [reflexivity|]. intros i Hm Hi. cbn [nd_data].
    now apply fill_where_lookup.
  - eexists. split; [reflexivity|]. intros i Hm _. exfalso.
    apply not_true_iff_false in Hany. apply Hany, existsb_exists.
    exists true. split; [|reflexivity]. eapply list_elem_of_In, list_elem_of_lookup_2, Hm.
Qed.

(** On a float array [filled(np.nan)] returns, with NaN at every masked
    cell. *)
Lemma filled_nan_float (nd : ndarray) (mask : list bool) :
  kind (nd_dtype nd) = "f"%char ->
  exists filled,
    filled_nan nd (Some mask) = Ok filled
    /\ forall i, mask !! i = Some true -> (i < length (nd_data nd))%nat ->
                 nd_data filled !! i = Some (CFloat Double.nan).
Proof.
  intros Hk. apply filled_nan_fill.
  destruct (nd_dtype nd) as [| | |w o|w o|w o|u o|u o|]; try discriminate Hk. reflexivity.
Qed.

(** [transform_array] once [convert_datetime_array] has returned: a
    masked array is filled, what is not C-contiguous by then is copied,
    and a scalar of NumPy passes. *)
Lemma transform_array_after
    (conv : pyobj -> result (option Z)) (h h1 : heap) (r r1 : ref) (v1 : value) :
  convert_datetime_array conv r h = Ok (r1, h1) ->
  h1 !! r1 = Some v1 ->
  transform_array conv r h =
  match v1 with
  | VArr (NDArray nd) =>
      if nd_c_contiguous nd then Ok (r1, h1)
      else Ok (length h1, h1 ++ [VArr (ascontiguousarray (NDArray nd))])
  | VArr (MaskedArray nd mask) =>
      match filled_nan nd mask with
      | Ok filled =>
          let h2 := h1 ++ [VArr (NDArray filled)] in
          if nd_c_contiguous filled then Ok (length h1, h2)
          else Ok (length h2, h2 ++ [VArr (ascontiguousarray (NDArray filled))])
      | Raise e => Raise e
      end
  | VObj o => if is_np_generic o then Ok (r1, h1) else Raise AttributeError
  | VList _ => Raise AttributeError
  end.
Proof.
  intros Hc H1. unfold transform_array, mbind, M_bind. rewrite Hc.
  unfold deref at 1. rewrite H1. destruct v1 as [o|l|[nd|nd mask]].
  - unfold mret, M_ret, deref. rewrite H1. now destruct (is_np_generic o).
  - unfold mret, M_ret, deref. now rewrite H1.
  - unfold mret, M_ret, deref. rewrite H1. cbn [base].
    now destruct (nd_c_contiguous nd).
  - unfold lift. destruct (filled_nan nd mask) as [filled|e]; [|reflexivity].
    unfold alloc, deref. rewrite lookup_alloc. cbn [base].
    now destruct (nd_c_contiguous filled).
Qed.

Lemma convert_datetime_array_skip
    (conv : pyobj -> result (option Z)) (h : heap) (r : ref) (a : array) :
  h !! r = Some (VArr a) ->
  kind (nd_dtype (base a)) <> "M"%char ->
  kind (nd_dtype (base a)) <> "m"%char ->
  kind (nd_dtype (base a)) <> "O"%char ->
  convert_datetime_array conv r h = Ok (r, h).
Proof.
  intros Hr HM Hm HO. unfold convert_datetime_array, mbind, M_bind, deref. rewrite Hr.
  destruct (Ascii.eqb_spec (kind (nd_dtype (base a))) "M"); [contradiction|].
  destruct (Ascii.eqb_spec (kind (nd_dtype (base a))) "m"); [contradiction|].
  destruct (Ascii.eqb_spec (kind (nd_dtype (base a))) "O"); [contradiction|].
  reflexivity.
Qed.

Lemma convert_datetime_array_float
    (conv : pyobj -> result (option Z)) (h : heap) (r : ref) (a : array) :
  h !! r = Some (VArr a) ->
  kind (nd_dtype (base a)) = "f"%char ->
  convert_datetime_array conv r h = Ok (r, h).
Proof.
  intros Hr Hk. apply (convert_datetime_array_skip conv h r a Hr); rewrite Hk; discriminate.
Qed.

Lemma convert_datetime_array_temporal
    (conv : pyobj -> result (option Z)) (h : heap) (r : ref) (a : array) :
  h !! r = Some (VArr a) ->
  kind (nd_dtype (base a)) = "M"%char \/ kind (nd_dtype (base a)) = "m"%char ->
  convert_datetime_array conv r h
  = Ok (length h,
        h ++ [array_truediv_1000 (with_base a (astype_int64 (astype_us (base a))))]).
Proof.
  intros Hr Hk. unfold convert_datetime_array, mbind, M_bind, deref.
  rewrite Hr. destruct Hk as [-> | ->]; reflexivity.
Qed.


(** *** The result of [transform_array] *)








(** ** Buffers *)

Lemma a2b_base64_loop_raises (s : list ascii) (quad_pos leftchar pads : Z)
    (out : list byte) (e : exn) :
  a2b_base64_loop s quad_pos leftchar pads out = Raise e -> e = binascii_Error.
Proof.
  revert quad_pos leftchar pads out.
  induction s as [|c rest IH]; intros quad_pos leftchar pads out; cbn [a2b_base64_loop].
  - destruct (quad_pos =? 0); intros H; [discriminate H | now inversion H].
  - repeat match goal with
           | |- context [if ?b then _ else _] => destruct b
           | |- context [match b64_value ?c with _ => _ end] => destruct (b64_value c)
           end;
      try (intros H; discriminate H); apply IH.
Qed.

Lemma b64decode_raises (s : string) (e : exn) :
  b64decode s = Raise e -> e = ValueError \/ e = binascii_Error.
Proof.
  unfold b64decode. destruct (forallb _ _).
  - intros H. right. eapply a2b_base64_loop_raises, H.
  - intros H. left. now inversion H.
Qed.

Lemma length_chunks {A} (size count : nat) (xs : list A) :
  length (chunks size count xs) = count.
Proof. unfold chunks. now rewrite length_map, length_seq. Qed.

Lemma itemsize_pos (d : dtype) : 0 < itemsize d.
Proof. destruct d as [| | |w o|w o|w o|u o|u o|]; try destruct w; reflexivity. Qed.

(** A buffer of whole items holds as many cells as its length divided by
    the item size. *)
Lemma length_buffer_cells (sys : ByteOrder) (d : dtype) (bs : list byte) :
  Z.of_nat (length (buffer_cells sys d bs)) = Z.of_nat (length bs) / itemsize d.
Proof.
  unfold buffer_cells. rewrite length_map, length_chunks.
  rewrite Nat2Z.inj_div, Z2Nat.id; [reflexivity|]. pose proof (itemsize_pos d). lia.
Qed.

(** What [frombuffer] needs to return, and what it returns then. *)
Lemma frombuffer_Ok (np_dtype : string -> result dtype) (sys : ByteOrder)
    (bs : list byte) (tag : string) (flat : ndarray) :
  frombuffer np_dtype sys bs tag = Ok flat <->
    exists d, np_dtype tag = Ok d /\ d <> dt_object
              /\ Z.of_nat (length bs) mod itemsize d = 0
              /\ flat = mk_ndarray d [Z.of_nat (length bs) / itemsize d]
                          (buffer_cells sys d bs) C_contiguous.
Proof.
  unfold frombuffer. destruct (np_dtype tag) as [d|e]; cbn [rbind].
  - case_bool_decide as Hobj.
    { split; [intros H; discriminate H|]. intros (d' & Hd & Hne & _).
      inversion Hd; subst d'. contradiction. }
    destruct (Z.eqb_spec (Z.of_nat (length bs) mod itemsize d) 0) as [Hm|Hm]; cbn [negb].
    + split.
      * intros H. inversion H. exists d. auto.
      * intros (d' & Hd & _ & _ & ->). now inversion Hd.
    + split; [intros H; discriminate H|]. intros (d' & Hd & _ & Hm' & _).
      inversion Hd; subst d'. contradiction.
  - split; [intros H; discriminate H|]. intros (d & Hd & _). discriminate Hd.
Qed.

(** *** Shapes *)

Lemma prod_shape_cons (d : Z) (shape : list Z) :
  prod_shape (d :: shape) = d * prod_shape shape.
Proof. reflexivity. Qed.

Lemma prod_nonzero_pos (shape : list Z) :
  Forall (fun d => 0 <= d) shape -> 1 <= prod_shape (filter (fun d => d ≠ 0) shape).
Proof.
  induction 1 as [|d shape Hd Hshape IH]; [cbn; lia|].
  destruct (decide (d = 0)) as [E|E].
  - rewrite filter_cons_False by (intros H; now apply H). exact IH.
  - rewrite filter_cons_True by exact E. rewrite prod_shape_cons. nia.
Qed.

(** The product that the loop over the dimensions arrives at. *)
Lemma known_size_Some (shape : list Z) (s k : Z) :
  known_size shape s = Some k ->
  k = s * prod_shape (filter (fun d => 0 <= d) shape).
Proof.
  revert s. induction shape as [|d shape IH]; intros s; cbn [known_size].
  - intros E. inversion E. cbn. lia.
  - destruct (Z.ltb_spec d 0) as [Hd|Hd].
    + rewrite filter_cons_False by lia. apply IH.
    + rewrite filter_cons_True by lia. destruct (_ <? _); [intros E; discriminate E|].
      intros E. apply IH in E. rewrite prod_shape_cons. lia.
Qed.

Lemma filter_nonneg_all (shape : list Z) :
  Forall (fun d => 0 <= d) shape -> filter (fun d => 0 <= d) shape = shape.
Proof.
  induction 1 as [|d shape Hd Hshape IH]; [reflexivity|].
  rewrite filter_cons_True by exact Hd. now rewrite IH.
Qed.

Lemma filter_negative_none (shape : list Z) :
  Forall (fun d => 0 <= d) shape -> filter (fun d => d < 0) shape = [].
Proof.
  induction 1 as [|d shape Hd Hshape IH]; [reflexivity|].
  rewrite filter_cons_False by lia. exact IH.
Qed.

(** On a shape without negative dimension that passes the check of
    array creation, the loop does not overflow. *)
Lemma known_size_nonneg (shape : list Z) (s : Z) :
  Forall (fun d => 0 <= d) shape ->
  0 <= s ->
  s * prod_shape (filter (fun d => d ≠ 0) shape) <= INT64_MAX ->
  known_size shape s = Some (s * prod_shape shape).
Proof.
  intros Hpos. revert s. induction Hpos as [|d shape Hd Hshape IH]; intros s Hs Hmax.
  - cbn. f_equal. lia.
  - cbn [known_size]. destruct (Z.ltb_spec d 0) as [Hneg|_]; [lia|].
    pose proof (prod_nonzero_pos shape Hshape) as Hp.
    assert (H0 : 0 <= INT64_MAX) by (change INT64_MAX with 9223372036854775807; lia).
    destruct (decide (d = 0)) as [E|E].
    + subst d. rewrite Z.mul_0_r.
      destruct (Z.ltb_spec INT64_MAX 0) as [Hlt|_]; [lia|].
      rewrite IH by lia. rewrite prod_shape_cons. f_equal. lia.
    + rewrite filter_cons_True in Hmax by exact E. rewrite prod_shape_cons in Hmax.
      set (p := prod_shape (filter _ shape)) in *.
      assert (Hsd : s * d <= s * (d * p)) by nia.
      destruct (Z.ltb_spec INT64_MAX (s * d)) as [Hlt|_]; [lia|].
      rewrite IH; [|nia|].
      * rewrite prod_shape_cons. f_equal. lia.
      * fold p. lia.
Qed.

(** The dimensions of such a shape are 64-bit integers. *)
Lemma creatable_fits (item_size : Z) (shape : list Z) :
  0 < item_size ->
  Forall (fun d => 0 <= d) shape ->
  creatable item_size shape = true ->
  forallb (fun d => (INT64_MIN <=? d) && (d <=? INT64_MAX)) shape = true.
Proof.
  intros Hi Hpos Hc. unfold creatable in Hc. apply Z.leb_le in Hc.
  revert Hc. generalize item_size Hi. clear item_size Hi.
  induction Hpos as [|d shape Hd Hshape IH]; intros s Hs Hc; [reflexivity|].
  pose proof (prod_nonzero_pos shape Hshape) as Hp.
  assert (H0 : 0 <= INT64_MAX) by (change INT64_MAX with 9223372036854775807; lia).
  assert (Hmin : INT64_MIN <= 0) by (change INT64_MIN with (-9223372036854775808); lia).
  cbn [forallb]. apply andb_true_intro. split.
  - apply andb_true_intro. split; [apply Z.leb_le; lia|]. apply Z.leb_le.
    destruct (decide (d = 0)) as [E|E]; [lia|].
    rewrite filter_cons_True in Hc by exact E. rewrite prod_shape_cons in Hc.
    set (p := prod_shape _) in *.
    assert (d <= d * p) by nia. assert (d * p <= s * (d * p)) by nia. lia.
  - destruct (decide (d = 0)) as [E|E].
    + rewrite filter_cons_False in Hc by (intros H; now apply H). now apply (IH s).
    + rewrite filter_cons_True in Hc by exact E. rewrite prod_shape_cons in Hc.
      apply (IH s Hs). set (p := prod_shape _) in *.
      assert (p <= d * p) by nia. assert (s * p <= s * (d * p)) by nia. lia.
Qed.

Lemma resolve_shape_raises (maxdims : nat) (item_size size : Z) (shape : list Z) (e : exn) :
  resolve_shape maxdims item_size size shape = Raise e -> e = ValueError.
Proof.
  unfold resolve_shape.
  destruct (_ <? _)%nat; [intros H; now inversion H|].
  destruct (negb _); [intros H; now inversion H|].
  destruct (known_size shape 1) as [k|]; [|intros H; now inversion H].
  destruct (filter _ shape) as [|x [|y l]]; cbn [rbind].
  - destruct (_ =? _); cbn [rbind]; [|intros H; now inversion H].
    destruct (creatable _ _); intros H; [discriminate H | now inversion H].
  - destruct (_ || _); cbn [rbind]; [intros H; now inversion H|].
    destruct (creatable _ _); intros H; [discriminate H | now inversion H].
  - intros H. now inversion H.
Qed.

(** A shape without negative dimension that is the shape of an array is
    kept as it is when it holds the right number of elements, and
    refused otherwise. *)
Lemma resolve_shape_nonneg (maxdims : nat) (item_size size : Z) (shape : list Z) :
  0 < item_size ->
  Forall (fun d => 0 <= d) shape ->
  (length shape <= maxdims)%nat ->
  creatable item_size shape = true ->
  resolve_shape maxdims item_size size shape
  = if prod_shape shape =? size then Ok shape else Raise ValueError.
Proof.
  intros Hi Hpos Hdims Hc. unfold resolve_shape.
  destruct (Nat.ltb_spec maxdims (length shape)); [lia|].
  rewrite (creatable_fits item_size shape Hi Hpos Hc). cbn [negb].
  rewrite (known_size_nonneg shape 1 Hpos).
  - rewrite (filter_negative_none shape Hpos), Z.mul_1_l.
    destruct (prod_shape shape =? size); cbn [rbind]; [|reflexivity]. now rewrite Hc.
  - lia.
  - pose proof (prod_nonzero_pos shape Hpos). unfold creatable in Hc.
    apply Z.leb_le in Hc. nia.
Qed.

(** A shape without negative dimension that does not hold the number of
    elements there are is refused, whatever else holds of it. *)
Lemma resolve_shape_mismatch (maxdims : nat) (item_size size : Z) (shape : list Z) :
  Forall (fun d => 0 <= d) shape ->
  prod_shape shape <> size ->
  resolve_shape maxdims item_size size shape = Raise ValueError.
Proof.
  intros Hpos Hne. unfold resolve_shape.
  destruct (_ <? _)%nat; [reflexivity|].
  destruct (negb _); [reflexivity|].
  destruct (known_size shape 1) as [k|] eqn:Hk; [|reflexivity].
  apply known_size_Some in Hk. rewrite (filter_nonneg_all shape Hpos) in Hk.
  rewrite (filter_negative_none shape Hpos).
  destruct (Z.eqb_spec k size); [lia|reflexivity].
Qed.

Lemma prod_shape_inferred (q : Z) (shape : list Z) :
  prod_shape (map (fun d => if d <? 0 then q else d) shape)
  = prod_shape (filter (fun d => 0 <= d) shape)
    * q ^ Z.of_nat (length (filter (fun d => d < 0) shape)).
Proof.
  induction shape as [|d shape IH]; [reflexivity|].
  cbn [map]. rewrite prod_shape_cons, IH.
  destruct (Z.ltb_spec d 0) as [E|E].
  - rewrite (filter_cons_True (fun d => d < 0)) by exact E.
    rewrite (filter_cons_False (fun d => 0 <= d)) by lia.
    cbn [length]. rewrite Nat2Z.inj_succ, Z.pow_succ_r by lia. lia.
  - rewrite (filter_cons_False (fun d => d < 0)) by lia.
    rewrite (filter_cons_True (fun d => 0 <= d)) by exact E.
    rewrite prod_shape_cons. lia.
Qed.

(** A shape that [reshape] accepts: it has the dimensions that were
    given, the negative one inferred, and holds exactly the elements
    there are. *)
Lemma resolve_shape_Ok (maxdims : nat) (item_size size : Z) (shape shape' : list Z) :
  resolve_shape maxdims item_size size shape = Ok shape' ->
  shape' = map (fun d => if d <? 0 then size / prod_shape (filter (fun d => 0 <= d) shape)
                         else d) shape
  /\ prod_shape shape' = size
  /\ (length shape <= maxdims)%nat
  /\ (length (filter (fun d => (d < 0)%Z) shape) <= 1)%nat.
Proof.
  unfold resolve_shape.
  destruct (Nat.ltb_spec maxdims (length shape)) as [|Hdims]; [intros E; discriminate E|].
  destruct (negb _); [intros E; discriminate E|].
  destruct (known_size shape 1) as [k|] eqn:Hk; [|intros E; discriminate E].
  apply known_size_Some in Hk. rewrite Z.mul_1_l in Hk. subst k.
  destruct (filter (fun d => d < 0) shape) as [|x [|y l]] eqn:Hf; cbn [rbind].
  - destruct (Z.eqb_spec (prod_shape (filter (fun d => 0 <= d) shape)) size) as [Es|Es];
      cbn [rbind]; [|intros E; discriminate E].
    destruct (creatable _ _); intros E; inversion E; subst shape'.
    assert (Hall : Forall (fun d => 0 <= d) shape).
    { apply Forall_forall. intros d Hd. destruct (Z.ltb_spec d 0) as [Hneg|]; [|lia].
      exfalso. assert (Hin : d ∈ filter (fun d => d < 0) shape)
        by (apply list_elem_of_filter; auto).
      rewrite Hf in Hin. inversion Hin. }
    rewrite (filter_nonneg_all shape Hall) in Es.
    split; [|split; [exact Es|split; [exact Hdims|cbn; lia]]].
    generalize (size / prod_shape (filter (fun d => 0 <= d) shape)). intros q.
    clear -Hall. induction Hall as [|d shape Hd Hshape IH]; [reflexivity|].
    cbn [map]. destruct (Z.ltb_spec d 0); [lia|]. now rewrite <- IH.
  - destruct (Z.eqb_spec (prod_shape (filter (fun d => 0 <= d) shape)) 0) as [E0|E0];
      cbn [orb]; [intros E; discriminate E|].
    destruct (Z.eqb_spec (size mod prod_shape (filter (fun d => 0 <= d) shape)) 0) as [Em|Em];
      cbn [negb rbind]; [|intros E; discriminate E].
    destruct (creatable _ _); intros E; inversion E.
    split; [reflexivity|]. split; [|split; [exact Hdims|cbn; lia]].
    rewrite prod_shape_inferred, Hf. cbn [length].
    change (Z.of_nat 1) with 1. rewrite Z.pow_1_r.
    symmetry. apply Z.div_exact; assumption.
  - intros E. discriminate E.
Qed.

(** The decoding of an envelope once the text has decoded and the tag
    names a dtype that fits the bytes. *)
Lemma decode_base64_dict_steps (np_dtype : string -> result dtype) (maxdims : nat)
    (sys : ByteOrder) (buffer : BufferJson) (text : string) (bs : list byte) (d : dtype) :
  buf_array buffer = Base64 text ->
  b64decode text = Ok bs ->
  np_dtype (buf_dtype buffer) = Ok d ->
  d <> dt_object ->
  Z.of_nat (length bs) mod itemsize d = 0 ->
  decode_base64_dict np_dtype maxdims sys buffer
  = if (1 <? length (buf_shape buffer))%nat
    then rbind (resolve_shape maxdims (itemsize d) (Z.of_nat (length bs) / itemsize d)
                              (buf_shape buffer))
               (fun shape' => Ok (NDArray (mk_ndarray d shape' (buffer_cells sys d bs)
                                                       C_contiguous)))
    else Ok (NDArray (mk_ndarray d [Z.of_nat (length bs) / itemsize d]
                                 (buffer_cells sys d bs) C_contiguous)).
Proof.
  intros Ha Hb Hd Hne Hm. unfold decode_base64_dict. rewrite Ha, Hb. cbn [rbind].
  assert (Hf : frombuffer np_dtype sys bs (buf_dtype buffer)
               = Ok (mk_ndarray d [Z.of_nat (length bs) / itemsize d]
                                (buffer_cells sys d bs) C_contiguous)).
  { apply frombuffer_Ok. exists d. auto. }
  rewrite Hf. cbn [rbind]. destruct (_ <? _)%nat; [|reflexivity].
  unfold reshape, np_copy. cbn [nd_dtype nd_data nd_layout nd_shape keep_order].
  rewrite length_buffer_cells. now destruct (resolve_shape _ _ _ _).
Qed.



(** C4. For an envelope with base64 text that decodes to bytes [bs] and
    a tag that names a dtype whose items these bytes are, the decoded
    flat array has the one dimension that the number of bytes and the
    item size imply.  A shape of no or one dimension is not looked at:
    the result is the flat array.  A shape of more dimensions is applied
    to the same cells: whatever is returned has the dimensions of the
    envelope, a negative one inferred, and holds exactly the cells there
    are; the shape of an array that holds that many elements is taken
    as it is, and a shape without negative dimension that does not hold
    that many makes [reshape] raise [ValueError]. *)
Theorem decode_base64_dict_shape (np_dtype : string -> result dtype) (maxdims : nat)
    (sys : ByteOrder) (buffer : BufferJson) (text : string) (bs : list byte) (d : dtype) :
  buf_array buffer = Base64 text ->
  b64decode text = Ok bs ->
  np_dtype (buf_dtype buffer) = Ok d ->
  d <> dt_object ->
  Z.of_nat (length bs) mod itemsize d = 0 ->
  let n := Z.of_nat (length bs) / itemsize d in
  let shape := buf_shape buffer in
  let shaped s := NDArray (mk_ndarray d s (buffer_cells sys d bs) C_contiguous) in
  let decoded := decode_base64_dict np_dtype maxdims sys buffer in
  Z.of_nat (length (buffer_cells sys d bs)) = n
  /\ ((length shape <= 1)%nat -> decoded = Ok (shaped [n]))
  /\ ((1 < length shape)%nat ->
      (forall a, decoded = Ok a ->
         exists shape',
           a = shaped shape'
           /\ length shape' = length shape
           /\ prod_shape shape' = n
           /\ forall i k, shape !! i = Some k -> 0 <= k -> shape' !! i = Some k)
      /\ (forall e, decoded = Raise e -> e = ValueError)
      /\ (Forall (fun k => 0 <= k) shape ->
          (length shape <= maxdims)%nat ->
          creatable (itemsize d) shape = true ->
          prod_shape shape = n ->
          decoded = Ok (shaped shape))
      /\ (Forall (fun k => 0 <= k) shape -> prod_shape shape <> n ->
          decoded = Raise ValueError)).
Proof.
  intros Ha Hb Hd Hne Hm n shape shaped decoded. subst n shape shaped decoded.
  rewrite (decode_base64_dict_steps np_dtype maxdims sys buffer text bs d) by assumption.
  split; [apply length_buffer_cells|]. split.
  - intros Hlen. destruct (Nat.ltb_spec 1 (length (buf_shape buffer))); [lia|reflexivity].
  - intros Hlen. destruct (Nat.ltb_spec 1 (length (buf_shape buffer))); [|lia].
    split; [|split; [|split]].
    + intros a. destruct (resolve_shape _ _ _ _) as [shape'|e] eqn:Hs; cbn [rbind];
        [|intros E; discriminate E].
      intros E. inversion E. exists shape'. split; [reflexivity|].
      apply resolve_shape_Ok in Hs as (Hshape' & Hprod & _ & _).
      split; [rewrite Hshape'; apply length_map|]. split; [exact Hprod|].
      intros i k Hi Hk. rewrite Hshape', list_lookup_fmap, Hi. cbn.
      destruct (Z.ltb_spec k 0); [lia|reflexivity].
    + intros e. destruct (resolve_shape _ _ _ _) as [shape'|e'] eqn:Hs; cbn [rbind];
        [intros E; discriminate E|].
      intros E. inversion E; subst e'. eapply resolve_shape_raises, Hs.
    + intros Hpos Hdims Hc Hprod.
      rewrite (resolve_shape_nonneg maxdims _ _ _ (itemsize_pos d) Hpos Hdims Hc).
      rewrite Hprod, Z.eqb_refl. reflexivity.
    + intros Hpos Hprod. now rewrite (resolve_shape_mismatch maxdims _ _ _ Hpos Hprod).
Qed.

(** The envelope whose shape announces seven elements over four: its
    shape has one dimension, so the four decoded elements come back as
    they are; the envelope of shape two by two gets that shape. *)
Lemma decode_base64_dict_shape_witness :
  decode_base64_dict dtype_of_name 32 little sample_seven = Ok (NDArray sample_flat)
  /\ decode_base64_dict dtype_of_name 32 little sample_square
     = Ok (NDArray (mk_ndarray np_int16 [2; 2] [CInt 0; CInt 0; CInt 0; CInt 16368]
                               C_contiguous)).
Proof.
  destruct (decode_base64_dict_shape dtype_of_name 32 little sample_seven sample_text
              sample_bytes np_int16)
    as (_ & Hflat & _); try reflexivity; try discriminate.
  destruct (decode_base64_dict_shape dtype_of_name 32 little sample_square sample_text
              sample_bytes np_int16)
    as (_ & _ & Hshaped); try reflexivity; try discriminate.
  split.
  - apply Hflat. vm_compute. lia.
  - destruct Hshaped as (_ & _ & Hfit & _); [vm_compute; lia|].
    apply Hfit; [repeat constructor; discriminate | cbn; lia | reflexivity | reflexivity].
Defined.

(** ** Lists *)

Lemma fill_where_map {A} (test : A -> bool) (f : A -> cell) (fill : cell) (xs : list A) :
  fill_where (map test xs) fill (map f xs)
  = map (fun x => if test x then fill else f x) xs.
Proof.
  induction xs as [|x xs IH]; [reflexivity|].
  cbn [map fill_where]. now rewrite IH.
Qed.

(** The three assignments of the non-finite branch, cell by cell. *)
Lemma nonfinite_cells (d : dtype) (cells : list cell) :
  map (fun c => VObj (item dt_object c))
      (fill_where (map np_isneginf cells) (CObj (PyStr "-Infinity"))
         (fill_where (map np_isposinf cells) (CObj (PyStr "Infinity"))
            (fill_where (map np_isnan cells) (CObj (PyStr "NaN"))
               (map (fun c => CObj (item d c)) cells))))
  = map (json_safe d) cells.
Proof.
  rewrite !fill_where_map, map_map. apply map_ext. intros c.
  unfold json_safe, np_isnan, np_isposinf, np_isneginf, cell_float.
  destruct c as [b|n|x|t|o]; try reflexivity.
  destruct x as [sg|[]| |sg m e]; reflexivity.
Qed.

Lemma clear_where_nowhere (n : nat) (bits : list bool) :
  clear_where (replicate n false) bits = bits.
Proof.
  revert n. induction bits as [|b bits IH]; intros n; [now destruct n|].
  destruct n as [|n]; [reflexivity|]. cbn [replicate clear_where negb].
  now rewrite IH, andb_true_r.
Qed.

Lemma existsb_id_map {A} (test : A -> bool) (xs : list A) :
  existsb id (map test xs) = existsb test xs.
Proof. induction xs as [|x xs IH]; [reflexivity|]. cbn. now rewrite IH. Qed.

(** Without a mask, [any] looks at every cell. *)
Lemma ma_any_nomask (test : cell -> bool) (a : array) :
  (forall nd m, a <> MaskedArray nd (Some m)) ->
  ma_any test a = existsb test (nd_data (base a)).
Proof.
  intros Ha. unfold ma_any.
  assert (Hm : getmaskarray a = replicate (length (nd_data (base a))) false).
  { destruct a as [nd|nd [m|]]; try reflexivity. now destruct (Ha nd m). }
  now rewrite Hm, clear_where_nowhere, existsb_id_map.
Qed.

(** [transform_array_to_list] on an array that has no mask, branch by
    branch. *)
Lemma transform_array_to_list_nomask (pd : bool) (a : array) :
  (forall nd m, a <> MaskedArray nd (Some m)) ->
  let nd := base a in
  transform_array_to_list pd a
  = if bool_decide (kind (nd_dtype nd) ∈ ["u"; "i"; "f"]%char)
       && existsb (fun c => negb (np_isfinite c)) (nd_data nd)
    then nest (nd_shape nd) (map (json_safe (nd_dtype nd)) (nd_data nd))
    else if Ascii.eqb (kind (nd_dtype nd)) "O" && pd && existsb pd_isnull (nd_data nd)
    then nest (nd_shape nd)
              (map (fun c => VObj (if pd_isnull c then PyStr "NaN" else item (nd_dtype nd) c))
                   (nd_data nd))
    else tolist nd.
Proof.
  intros Ha nd. subst nd. unfold transform_array_to_list.
  rewrite (ma_any_nomask _ a Ha).
  destruct (bool_decide _ && existsb _ _).
  - destruct a as [nd|nd [m|]]; [| now destruct (Ha nd m) |];
      unfold array_tolist, tolist, assign_where, array_astype_object, astype_object,
        map_cells;
      cbn [base with_base nd_dtype nd_shape nd_data];
      now rewrite nonfinite_cells.
  - destruct (_ && _ && _); [|now destruct a as [nd|nd [m|]]; [| destruct (Ha nd m) |]].
    destruct a as [nd|nd [m|]]; [| now destruct (Ha nd m) |];
      unfold array_tolist, tolist, assign_where, array_astype_object, astype_object,
        map_cells;
      cbn [base with_base nd_dtype nd_shape nd_data];
      rewrite fill_where_map, map_map; f_equal; apply map_ext; intros c;
      now destruct (pd_isnull c).
Qed.

(** The cells of a masked array after the three assignments, as
    [tolist()] lists them. *)
Lemma ma_nonfinite_cells (d : dtype) (mask : list bool) (cells : list cell) :
  length mask = length cells ->
  ma_items dt_object
    (clear_where (map np_isneginf cells)
       (clear_where (map np_isposinf cells)
          (clear_where (map np_isnan cells) mask)))
    (fill_where (map np_isneginf cells) (CObj (PyStr "-Infinity"))
       (fill_where (map np_isposinf cells) (CObj (PyStr "Infinity"))
          (fill_where (map np_isnan cells) (CObj (PyStr "NaN"))
             (map (fun c => CObj (item d c)) cells))))
  = zip_with (ma_json_safe d) mask cells.
Proof.
  revert mask. induction cells as [|c cells IH]; intros mask Hl.
  - destruct mask; [reflexivity|discriminate Hl].
  - destruct mask as [|b mask]; [discriminate Hl|]. cbn [length] in Hl.
    cbn [map fill_where clear_where ma_items zip_with]. rewrite IH by lia. f_equal.
    unfold ma_json_safe, np_isnan, np_isposinf, np_isneginf, cell_float.
    destruct c as [b0|n|x|t|o]; cbn; try (now destruct b).
    destruct x as [sg|[]| |sg m e]; cbn; now destruct b.
Qed.

Lemma ma_items_zip (d : dtype) (mask : list bool) (cells : list cell) :
  length mask = length cells ->
  ma_items d mask cells = zip_with (ma_item d) mask cells.
Proof.
  revert mask. induction cells as [|c cells IH]; intros mask Hl.
  - destruct mask; [reflexivity|discriminate Hl].
  - destruct mask as [|b mask]; [discriminate Hl|]. cbn [length] in Hl.
    cbn [ma_items zip_with]. now rewrite IH by lia.
Qed.

(** [any] on a masked array finds what is not finite among the cells
    that are not masked. *)
Lemma ma_any_masked (test : cell -> bool) (nd : ndarray) (mask : list bool) :
  ma_any test (MaskedArray nd (Some mask)) = true
  <-> exists i c, nd_data nd !! i = Some c /\ test c = true /\ mask !! i <> Some true.
Proof.
  unfold ma_any. cbn [getmaskarray base]. generalize (nd_data nd). intros cells.
  revert mask. induction cells as [|c cells IH]; intros mask.
  - destruct mask; cbn; (split; [intros H; discriminate H|]);
      intros (i & c & Hi & _); discriminate Hi.
  - destruct mask as [|b mask].
    + cbn [map clear_where].
      rewrite <- (map_cons test), existsb_id_map. cbn [existsb]. split.
      * intros H. apply orb_prop in H as [H | H].
        -- exists 0%nat, c. repeat split; auto; discriminate.
        -- apply existsb_exists in H as (c' & Hin & Hc').
           apply list_elem_of_In, list_elem_of_lookup_1 in Hin as [i Hi].
           exists (S i), c'. repeat split; auto; discriminate.
      * intros ([|i] & c' & Hi & Hc' & _); cbn in Hi.
        -- inversion Hi; subst c'. now rewrite Hc'.
        -- apply orb_true_intro. right. apply existsb_exists. exists c'.
           split; [|exact Hc']. eapply list_elem_of_In, list_elem_of_lookup_2, Hi.
    + cbn [map clear_where existsb id]. rewrite orb_true_iff, IH. split.
      * intros [H | (i & c' & Hi & Hc' & Hm)].
        -- apply andb_prop in H as [Hc Hb]. exists 0%nat, c.
           repeat split; auto. cbn. destruct b; [discriminate Hb|discriminate].
        -- exists (S i), c'. auto.
      * intros ([|i] & c' & Hi & Hc' & Hm); cbn in Hi, Hm.
        -- inversion Hi; subst c'. left. rewrite Hc'. destruct b; [now destruct Hm|reflexivity].
        -- right. exists i, c'. auto.
Qed.

(** The nested list of a one-dimensional shape is the list of the
    elements. *)
Lemma hd_take_drop {A} (d x : A) (xs : list A) (i : nat) :
  xs !! i = Some x -> hd d (take 1 (drop (i * 1) xs)) = x.
Proof.
  rewrite Nat.mul_1_r. revert i. induction xs as [|y xs IH]; intros i Hi; [discriminate Hi|].
  destruct i as [|i]; [now inversion Hi|]. cbn [drop]. now apply IH.
Qed.

Lemma nest_1d (xs : list value) :
  nest [Z.of_nat (length xs)] xs = VList xs.
Proof.
  cbn [nest prod_shape foldr]. f_equal. rewrite Nat2Z.id.
  change (Z.to_nat 1) with 1%nat. unfold chunks. rewrite map_map.
  apply list_eq. intros i. rewrite list_lookup_fmap.
  destruct (xs !! i) as [x|] eqn:Hi.
  - rewrite lookup_seq_lt by (eapply lookup_lt_Some; eauto).
    cbn. f_equal. cbn [nest]. now apply hd_take_drop.
  - rewrite lookup_seq_ge; [reflexivity|]. now apply lookup_ge_None.
Qed.

(** C5 fails as stated: in the masked array [[1.0, NaN]] whose first
    element is masked there is a non-finite element, and the finite
    element does not come out unchanged: it is masked, and the list shows
    [None] for it. *)
Lemma transform_array_to_list_masked :
  kind (nd_dtype (base sample_masked_nan)) = "f"%char
  /\ Exists (fun c => np_isfinite c = false) (nd_data (base sample_masked_nan))
  /\ transform_array_to_list false sample_masked_nan
     = VList [VObj PyNone; VObj (PyStr "NaN")]
  /\ transform_array_to_list false sample_masked_nan
     <> VList [VObj (PyFloat (Double.of_Z 1)); VObj (PyStr "NaN")].
Proof.
  split; [reflexivity|]. split; [apply Exists_cons_tl, Exists_cons_hd; reflexivity|].
  split; [reflexivity|]. intros E. vm_compute in E. discriminate E.
Qed.

(** C5, amended. On an array without mask of kind [u], [i] or [f] with
    at least one non-finite element, [transform_array_to_list] returns
    the nested list of the shape in which NaN is the string "NaN",
    positive infinity "Infinity", negative infinity "-Infinity", and
    every other element the Python value of the cell; for one dimension
    that is the plain list of these.  On a masked array the strings are
    put in when a non-finite element is not masked, and then a masked
    element that is finite shows as [None]; when every non-finite
    element is masked nothing is replaced, and every masked element
    shows as [None]. *)
Theorem transform_array_to_list_nonfinite (pd : bool) (a : array) :
  kind (nd_dtype (base a)) ∈ ["u"; "i"; "f"]%char ->
  let nd := base a in
  ((forall nd' m, a <> MaskedArray nd' (Some m)) ->
   Exists (fun c => np_isfinite c = false) (nd_data nd) ->
   transform_array_to_list pd a = nest (nd_shape nd) (map (json_safe (nd_dtype nd)) (nd_data nd))
   /\ (nd_shape nd = [Z.of_nat (length (nd_data nd))] ->
       transform_array_to_list pd a = VList (map (json_safe (nd_dtype nd)) (nd_data nd))))
  /\ (forall mask,
        a = MaskedArray nd (Some mask) ->
        length mask = length (nd_data nd) ->
        ((exists i c, nd_data nd !! i = Some c /\ np_isfinite c = false
                      /\ mask !! i = Some false) ->
         transform_array_to_list pd a
         = nest (nd_shape nd) (zip_with (ma_json_safe (nd_dtype nd)) mask (nd_data nd)))
        /\ ((forall i c, nd_data nd !! i = Some c -> np_isfinite c = false ->
                         mask !! i = Some true) ->
            transform_array_to_list pd a
            = nest (nd_shape nd) (zip_with (ma_item (nd_dtype nd)) mask (nd_data nd)))).
Proof.
  intros Hkind nd. subst nd. split.
  - intros Ha Hnf.
    assert (Hlist : transform_array_to_list pd a
                    = nest (nd_shape (base a))
                           (map (json_safe (nd_dtype (base a))) (nd_data (base a)))).
    { rewrite (transform_array_to_list_nomask pd a Ha). cbv zeta.
      rewrite bool_decide_eq_true_2 by exact Hkind.
      assert (Hex : existsb (fun c => negb (np_isfinite c)) (nd_data (base a)) = true).
      { apply existsb_exists. apply Exists_exists in Hnf as (c & Hc & Hf).
        exists c. split; [now apply list_elem_of_In|]. now rewrite Hf. }
      now rewrite Hex. }
    split; [exact Hlist|]. intros Hs. rewrite Hlist, Hs.
    rewrite <- (length_map (json_safe (nd_dtype (base a)))). apply nest_1d.
  - intros mask Ha Hl.
    assert (HO : Ascii.eqb (kind (nd_dtype (base a))) "O" = false).
    { apply list_elem_of_In in Hkind. cbn in Hkind.
      destruct Hkind as [E | [E | [E | []]]]; rewrite <- E; reflexivity. }
    split.
    + intros (i & c & Hi & Hc & Hm). unfold transform_array_to_list.
      rewrite bool_decide_eq_true_2 by exact Hkind.
      assert (Hany : ma_any (fun c => negb (np_isfinite c)) a = true).
      { rewrite Ha. apply ma_any_masked. exists i, c.
        repeat split; auto; [now rewrite Hc | rewrite Hm; discriminate]. }
      rewrite Hany. cbn [andb]. rewrite Ha.
      unfold array_tolist, assign_where, array_astype_object, astype_object, map_cells.
      cbn [base with_base nd_dtype nd_shape nd_data].
      now rewrite ma_nonfinite_cells.
    + intros Hall. unfold transform_array_to_list.
      assert (Hany : ma_any (fun c => negb (np_isfinite c)) a = false).
      { apply not_true_is_false. rewrite Ha. intros H.
        apply ma_any_masked in H as (i & c & Hi & Hc & Hm). apply Hm.
        apply (Hall i c Hi). now destruct (np_isfinite c). }
      rewrite Hany, andb_false_r, HO. cbn [andb]. rewrite Ha.
      cbn [array_tolist base]. now rewrite ma_items_zip.
Qed.

(** The example of the specification: [[1.0, NaN, inf, -inf]] becomes
    [[1.0, "NaN", "Infinity", "-Infinity"]]. *)
Lemma transform_array_to_list_nonfinite_witness :
  transform_array_to_list false (NDArray sample_nonfinite)
  = VList [VObj (PyFloat (Double.of_Z 1)); VObj (PyStr "NaN");
           VObj (PyStr "Infinity"); VObj (PyStr "-Infinity")].
Proof.
  destruct (transform_array_to_list_nonfinite false (NDArray sample_nonfinite))
    as [Hbase _].
  - vm_compute. apply list_elem_of_In. cbn. tauto.
  - destruct Hbase as [_ Hlist].
    + discriminate.
    + apply Exists_cons_tl, Exists_cons_hd. reflexivity.
    + now rewrite Hlist.
Defined.

(* ===================================================================== *)
(** * Further properties of the module *)
(* ===================================================================== *)

(** ** Temporal scalars *)

(** Outside the calendar units the division of two timedelta64 values
    returns. *)
Lemma timedelta64_truediv_returns (v : option Z) (u : tunit) (b : option Z * lunit) :
  u <> u_Y -> u <> u_M -> exists x, timedelta64_truediv v u b = Ok x.
Proof.
  intros HY HM. unfold timedelta64_truediv.
  destruct u; try contradiction; cbn [promote_timedelta rbind];
    repeat case_match; eauto.
Qed.

(** X1. [convert_timedelta_type] raises [ValueError] exactly on the
    values that [is_timedelta_type] rejects; on a value it accepts, the
    conversion returns a float unless the value is a [np.timedelta64]
    counted in years or months. *)
Theorem convert_timedelta_type_recognized (pd_total_seconds : Z -> float) (obj : value) :
  (convert_timedelta_type pd_total_seconds obj = Raise ValueError
   <-> is_timedelta_type obj = false)
  /\ (is_timedelta_type obj = true ->
      returns (convert_timedelta_type pd_total_seconds obj) = true
      \/ exists v u, obj = VObj (NpTimedelta64 v u) /\ (u = u_Y \/ u = u_M)).
Proof.
  unfold convert_timedelta_type, is_timedelta_type.
  destruct obj as [o | l | a]; [destruct o | | destruct a]; eval_isinstance; cbv iota;
    cbn [total_seconds rbind returns];
    try (split; [split; intros H; (reflexivity || discriminate H) | intros H; (discriminate H || (left; reflexivity))]).
  destruct u as [| |l|]; cbn [timedelta64_truediv promote_timedelta rbind].
  - split; [split; intros H; discriminate H|]. intros _. right. eauto.
  - split; [split; intros H; discriminate H|]. intros _. right. eauto.
  - destruct (timedelta64_truediv_returns v (u_lin l) NP_MS_DELTA) as [x Hx];
      [discriminate | discriminate |].
    unfold timedelta64_truediv in Hx. cbn [promote_timedelta rbind] in Hx. rewrite Hx.
    split; [split; intros H; discriminate H|]. now left.
  - destruct (timedelta64_truediv_returns v u_generic NP_MS_DELTA) as [x Hx];
      [discriminate | discriminate |].
    unfold timedelta64_truediv in Hx. cbn [promote_timedelta rbind] in Hx. rewrite Hx.
    split; [split; intros H; discriminate H|]. now left.
Qed.

(** X2. [convert_datetime_type] raises its [ValueError] exactly on the
    values that [is_datetime_type] does not recognize and that are no
    [dt.date] either.  On every other value it returns a float, unless
    the value is a pandas object whose nanoseconds do not fit 64 bits:
    there [to_timestamp] of a [pd.Period] raises [OutOfBoundsDatetime]
    and [value] of a [pd.Timestamp] or [pd.Timedelta] raises
    [OverflowError]. *)
Theorem convert_datetime_type_recognized
    (pd_total_seconds : Z -> float) (pd : bool) (obj : value) :
  let converted := convert_datetime_type pd_total_seconds pd obj in
  (converted = Raise ValueError
   <-> is_datetime_type pd obj = false /\ isinstance obj [c_date] = false)
  /\ (is_datetime_type pd obj = true \/ isinstance obj [c_date] = true ->
      returns converted = true
      \/ (pd = true
          /\ exists ns,
               in_ns_bounds ns = false
               /\ ((obj = VObj (PdPeriod ns) /\ converted = Raise OutOfBoundsDatetime)
                   \/ ((obj = VObj (PdTimedelta ns) \/ exists off, obj = VObj (PdTimestamp ns off))
                       /\ converted = Raise OverflowError))))
  /\ (forall ns off,
        pd = true ->
        in_ns_bounds ns = true ->
        obj = VObj (PdPeriod ns) \/ obj = VObj (PdTimedelta ns) \/ obj = VObj (PdTimestamp ns off) ->
        returns converted = true).
Proof.
  intros converted. subst converted.
  unfold convert_datetime_type, is_datetime_type.
  destruct pd, obj as [o | l | a]; [destruct o | | destruct a | destruct o | | destruct a];
    eval_isinstance;
    cbn [andb is_pd_NaT seconds_since_epoch convert_date_to_datetime total_seconds
         rbind returns];
    try (split; [split; [intros H; (discriminate H || (split; reflexivity))
                        | intros [H1 H2]; (reflexivity || discriminate H1 || discriminate H2)]
                | split; [intros [H | H]; ((left; reflexivity) || discriminate H)
                         | intros ns0 off0 Hpd _ [H | [H | H]];
                           (reflexivity || discriminate H || discriminate Hpd)]]).
  all: try (destruct (timedelta64_truediv_returns
                   (fst (datetime64_sub v u NP_EPOCH))
                   (u_lin (snd (datetime64_sub v u NP_EPOCH))) NP_MS_DELTA) as [x Hx];
    [discriminate | discriminate |]; rewrite Hx; cbn [returns];
    (split; [split; [intros H; discriminate H | intros [H1 H2]; discriminate H1]
            | split; [intros _; left; reflexivity
                     | intros ns0 off0 _ _ [H | [H | H]]; discriminate H]])).
  all: unfold pd_value, period_to_timestamp_value;
    match goal with
    | |- context [in_ns_bounds ?n] => destruct (in_ns_bounds n) eqn:Hb
    end;
    cbn [rbind returns];
    (split; [split; [intros H; discriminate H | intros [H1 H2]; discriminate H1]|]);
    (split; [intros _; first [left; reflexivity
                             | right; split; [reflexivity|]; eexists;
                               split; [exact Hb|]; eauto 6]
            | intros ns0 off0 _ Hb0 [H | [H | H]]; inversion H; subst;
              congruence || reflexivity]).
Qed.

(** X3. [convert_datetime_type] converts the wall clock of a datetime:
    the [tzinfo] of an aware datetime is dropped, not applied, so an
    aware and a naive datetime with the same wall clock give the same
    milliseconds; and a [dt.date] gives the milliseconds of the naive
    datetime at its midnight. *)
Theorem convert_datetime_type_wall_clock
    (pd_total_seconds : Z -> float) (pd : bool) (wall days : Z) (off : option Z) :
  convert_datetime_type pd_total_seconds pd (VObj (PyDatetime wall off))
  = convert_datetime_type pd_total_seconds pd (VObj (PyDatetime wall None))
  /\ convert_datetime_type pd_total_seconds pd (VObj (PyDate days))
     = convert_datetime_type pd_total_seconds pd
         (VObj (PyDatetime (days * 86400 * 10 ^ 6) None)).
Proof.
  unfold convert_datetime_type. eval_isinstance.
  destruct pd; cbn [andb is_pd_NaT seconds_since_epoch convert_date_to_datetime];
    split; reflexivity.
Qed.

(** ** Arrays *)

Lemma not_in_kinds (k : ascii) :
  k ∉ ["M"; "m"; "O"]%char <-> k <> "M"%char /\ k <> "m"%char /\ k <> "O"%char.
Proof.
  rewrite list_elem_of_In. cbn. split.
  - intros H. repeat split; intros ->; apply H; tauto.
  - intros (HM & Hm & HO) [E | [E | [E | []]]]; congruence.
Qed.

Lemma in_temporal_kinds (k : ascii) :
  k ∈ ["M"; "m"]%char <-> k = "M"%char \/ k = "m"%char.
Proof.
  rewrite list_elem_of_In. cbn. split.
  - intros [E | [E | []]]; auto.
  - intros [E | E]; auto.
Qed.

(** X4. An array whose kind is neither datetime, timedelta nor object
    passes through [convert_datetime_array] untouched: the same
    reference comes back and the store is as before. *)
Theorem convert_datetime_array_other_kinds
    (conv : pyobj -> result (option Z)) (h : heap) (r : ref) (a : array) :
  h !! r = Some (VArr a) ->
  kind (nd_dtype (base a)) ∉ ["M"; "m"; "O"]%char ->
  convert_datetime_array conv r h = Ok (r, h).
Proof.
  intros Hr Hk. apply not_in_kinds in Hk as (HM & Hm & HO).
  now apply (convert_datetime_array_skip conv h r a).
Qed.

Lemma convert_datetime_array_other_kinds_witness :
  convert_datetime_array plain_datetime64_us 0%nat sample_store = Ok (0%nat, sample_store).
Proof.
  apply (convert_datetime_array_other_kinds plain_datetime64_us sample_store 0%nat
           sample_masked_int); [reflexivity|].
  intros H. apply list_elem_of_In in H. cbn in H.
  repeat (destruct H as [H | H]; [discriminate H|]). exact H.
Defined.

(** *** The cells of the quotient *)

(** The quotient by 1000.0 of an array that has a dimension, written
    out. *)
Lemma array_truediv_1000_cells (a : array) :
  nd_shape (base a) <> [] ->
  array_truediv_1000 a
  = VArr (match a with
          | NDArray _ => NDArray (truediv_1000 (base a))
          | MaskedArray _ _ =>
              MaskedArray
                (mk_ndarray np_float64 (nd_shape (base a))
                   (ma_put_back (getmaskarray a) (nd_data (base a))
                      (map div_1000_cell (nd_data (base a))))
                   (keep_order (nd_layout (base a))))
                (Some (getmaskarray a))
          end).
Proof.
  intros Hs. unfold array_truediv_1000, truediv_1000, map_cells.
  destruct a as [nd0|nd0 mask]; cbn [base nd_shape nd_data nd_layout nd_dtype] in *;
    (destruct (nd_shape nd0) eqn:E; [contradiction|]); reflexivity.
Qed.

(** Whatever the division by 1000.0 returns is settled: a float64
    scalar, or an array of float64. *)
Lemma array_truediv_1000_settled (a : array) :
  (exists x, array_truediv_1000 a = VObj (NpFloat64 x))
  \/ (exists a', array_truediv_1000 a = VArr a' /\ nd_dtype (base a') = np_float64).
Proof.
  destruct (nd_shape (base a)) as [|d rest] eqn:Hs.
  - destruct (array_truediv_1000_scalar a Hs) as [Hx | (Hx & _)]; [now left|].
    right. exists ma_masked. now split.
  - right. rewrite array_truediv_1000_cells by (rewrite Hs; discriminate).
    eexists. split; [reflexivity|]. now destruct a.
Qed.

Lemma ma_put_back_lookup (mask : list bool) (dividend quotient : list cell)
    (i : nat) (n q : cell) :
  dividend !! i = Some n ->
  quotient !! i = Some q ->
  ma_put_back mask dividend quotient !! i
  = Some (match mask !! i with
          | Some b => put_back_cell b n q
          | None => q
          end).
Proof.
  revert dividend quotient i.
  induction mask as [|b mask IH]; intros dividend quotient i Hn Hq; [exact Hq|].
  destruct dividend as [|n0 dividend]; [now destruct i|].
  destruct quotient as [|q0 quotient]; [now destruct i|].
  destruct i as [|i]; cbn [ma_put_back].
  - cbn in Hn, Hq |- *. congruence.
  - cbn in Hn, Hq. cbn [lookup list_lookup]. now apply IH.
Qed.

Lemma put_back_typed (mask : list bool) (dividend quotient : list cell) :
  Forall (fun c => cell_typed np_float64 c = true) quotient ->
  Forall (fun c => cell_typed np_float64 c = true) (ma_put_back mask dividend quotient).
Proof.
  revert dividend quotient. induction mask as [|b mask IH]; intros dividend quotient Hq;
    [exact Hq|].
  destruct dividend as [|n dividend]; [exact Hq|].
  destruct quotient as [|q quotient]; [exact Hq|].
  cbn [ma_put_back]. inversion Hq as [|? ? Hq1 Hq2]; subst. constructor; [|now apply IH].
  destruct n, q; try discriminate Hq1; reflexivity.
Qed.

(** The cast to microseconds, the raw count and the division make a
    float of every temporal cell. *)
Lemma temporal_cells_typed (d : dtype) (cells : list cell) :
  kind d = "M"%char \/ kind d = "m"%char ->
  Forall (fun c => cell_typed d c = true) cells ->
  Forall (fun c => cell_typed np_float64 c = true)
         (map div_1000_cell (map astype_int64_cell (map (astype_us_cell d) cells))).
Proof.
  intros Hk Htyped. rewrite !map_map. apply Forall_fmap.
  eapply Forall_impl; [exact Htyped|]. intros c Hc. cbn.
  destruct d; destruct Hk as [E | E]; try discriminate E;
    destruct c; try discriminate Hc; reflexivity.
Qed.

(** X5. On a datetime or timedelta array, [convert_datetime_array]
    leaves the argument where it is and returns a reference to one new
    object at the end of the store.  When the argument has a dimension,
    the new object is a float64 array of the class, the shape and the
    number of cells of the argument, a masked array carrying the mask
    of the argument cell by cell, and all its cells are floats when the
    cells of the argument are temporal counts.  When the argument has no
    dimension, the new object is no array of that sort: it is a float64
    scalar of NumPy or, the one cell of a masked array being masked, the
    constant [masked]. *)
Theorem convert_datetime_array_temporal_fresh
    (conv : pyobj -> result (option Z)) (h : heap) (r : ref) (a : array) :
  h !! r = Some (VArr a) ->
  kind (nd_dtype (base a)) ∈ ["M"; "m"]%char ->
  exists v,
    convert_datetime_array conv r h = Ok (length h, h ++ [v])
    /\ (h ++ [v]) !! r = Some (VArr a)
    /\ (nd_shape (base a) <> [] ->
        exists nd,
          v = VArr (match a with
                    | NDArray _ => NDArray nd
                    | MaskedArray _ _ => MaskedArray nd (Some (getmaskarray a))
                    end)
          /\ nd_dtype nd = np_float64
          /\ nd_shape nd = nd_shape (base a)
          /\ length (nd_data nd) = length (nd_data (base a))
          /\ (Forall (fun c => cell_typed (nd_dtype (base a)) c = true) (nd_data (base a)) ->
              Forall (fun c => cell_typed np_float64 c = true) (nd_data nd)))
    /\ (nd_shape (base a) = [] ->
        (exists x, v = VObj (NpFloat64 x))
        \/ (v = VArr ma_masked
            /\ hd false (getmaskarray a) = true
            /\ exists nd mask, a = MaskedArray nd mask)).
Proof.
  intros Hr Hk. apply in_temporal_kinds in Hk.
  eexists. split; [apply (convert_datetime_array_temporal conv h r a Hr Hk)|].
  split; [now apply lookup_app_l_Some|].
  set (nd64 := astype_int64 (astype_us (base a))).
  assert (Hl : length (nd_data nd64) = length (nd_data (base a)))
    by (unfold nd64; cbn; now rewrite !length_map).
  split.
  - intros Hs. rewrite array_truediv_1000_cells by now rewrite base_with_base.
    rewrite base_with_base, (getmaskarray_with_base a nd64 Hl).
    destruct a as [nd0|nd0 mask]; cbn [with_base base] in *.
    + eexists. split; [reflexivity|]. split; [reflexivity|]. split; [reflexivity|].
      split; [cbn; now rewrite !length_map|].
      intros Htyped. now apply temporal_cells_typed.
    + eexists. split; [reflexivity|]. split; [reflexivity|]. split; [reflexivity|].
      split; [cbn; now rewrite length_ma_put_back, !length_map|].
      intros Htyped. cbn [nd_data]. apply put_back_typed.
      now apply temporal_cells_typed.
  - intros Hs.
    destruct (array_truediv_1000_scalar (with_base a nd64)) as [Hx | (Hx & Hm & _)].
    + now rewrite base_with_base.
    + now left.
    + right. split; [exact Hx|]. rewrite (getmaskarray_with_base a nd64 Hl) in Hm.
      split; [exact Hm|]. destruct a as [nd0|nd0 mask]; [|eauto].
      exfalso. unfold array_truediv_1000 in Hx. cbn [with_base base] in Hx.
      destruct (nd_shape nd64); discriminate Hx.
Qed.

(** Two timestamps in an array of one dimension give an array of
    floats; one timestamp in an array without dimension gives a
    scalar. *)
Lemma convert_datetime_array_temporal_fresh_witness :
  (exists nd,
     convert_datetime_array plain_datetime64_us 0%nat sample_datetime_store
     = Ok (1%nat, sample_datetime_store ++ [VArr (NDArray nd)])
     /\ nd_dtype nd = np_float64
     /\ nd_shape nd = [2])
  /\ (exists x,
        convert_datetime_array plain_datetime64_us 0%nat sample_instant_store
        = Ok (1%nat, sample_instant_store ++ [VObj (NpFloat64 x)])).
Proof.
  split.
  - destruct (convert_datetime_array_temporal_fresh plain_datetime64_us sample_datetime_store
                0%nat sample_datetimes) as (v & Hc & _ & Harr & _).
    + reflexivity.
    + vm_compute. apply list_elem_of_In. cbn. tauto.
    + destruct Harr as (nd & -> & Hd & Hs & _); [discriminate|].
      exists nd. auto.
  - destruct (convert_datetime_array_temporal_fresh plain_datetime64_us sample_instant_store
                0%nat sample_instant) as (v & Hc & _ & _ & Hscalar).
    + reflexivity.
    + vm_compute. apply list_elem_of_In. cbn. tauto.
    + destruct (Hscalar eq_refl) as [[x ->] | (_ & Hm & _)].
      * exists x. exact Hc.
      * vm_compute in Hm. discriminate Hm.
Defined.

(** X6. [convert_datetime_array] is idempotent: applied to the
    reference it returned, in the store it left, it returns that
    reference again and allocates nothing. *)
Theorem convert_datetime_array_idempotent
    (conv : pyobj -> result (option Z)) (h h' : heap) (r r' : ref) :
  convert_datetime_array conv r h = Ok (r', h') ->
  convert_datetime_array conv r' h' = Ok (r', h').
Proof.
  intros Hc. destruct (h !! r) as [v|] eqn:Hr.
  2:{ unfold convert_datetime_array, mbind, M_bind, deref in Hc.
      rewrite Hr in Hc. discriminate Hc. }
  pose proof Hc as Hsame.
  destruct v as [o | l | a].
  - unfold convert_datetime_array, mbind, M_bind, deref in Hc. rewrite Hr in Hc.
    inversion Hc; subst r' h'. exact Hsame.
  - unfold convert_datetime_array, mbind, M_bind, deref in Hc. rewrite Hr in Hc.
    inversion Hc; subst r' h'. exact Hsame.
  - destruct (convert_datetime_array_array conv h h' r r' a Hr Hc)
      as [(-> & -> & _) | (nd & -> & -> & _)]; [exact Hc|].
    destruct (array_truediv_1000_settled (with_base a nd)) as [[x Hx] | (a' & Hx & Hd)];
      rewrite Hx.
    + unfold convert_datetime_array, mbind, M_bind, deref. now rewrite lookup_alloc.
    + apply (convert_datetime_array_float conv _ _ a').
      * apply lookup_alloc.
      * now rewrite Hd.
Qed.

Lemma convert_datetime_array_idempotent_witness :
  exists r' h',
    convert_datetime_array plain_datetime64_us 0%nat sample_datetime_store = Ok (r', h')
    /\ convert_datetime_array plain_datetime64_us r' h' = Ok (r', h')
    /\ r' = 1%nat.
Proof.
  pose proof (convert_datetime_array_temporal plain_datetime64_us sample_datetime_store
                0%nat sample_datetimes eq_refl (or_introl eq_refl)) as Hc.
  do 2 eexists. split; [exact Hc|]. split; [|reflexivity].
  apply (convert_datetime_array_idempotent plain_datetime64_us sample_datetime_store _ 0%nat).
  exact Hc.
Defined.

Lemma astype_us_cell_NaT (d : dtype) :
  kind d = "M"%char \/ kind d = "m"%char ->
  astype_int64_cell (astype_us_cell d (CTime None)) = CInt INT64_MIN.
Proof.
  intros Hk. destruct d as [| | |w o|w o|w o|u o|u o|];
    destruct Hk as [E | E]; try discriminate E; now destruct u.
Qed.

(** X7. In a datetime or timedelta array a not-a-time cell does not
    become NaN.  In an array with a dimension [convert_datetime_array]
    turns it into the least 64-bit integer divided by 1000, a finite
    float, and under the mask of a masked array into the least 64-bit
    integer itself, which the division of [numpy.ma] puts back
    undivided.  Of a base array without dimension the result is that
    quotient as a float64 scalar.  The scalar conversion
    [convert_datetime_type] of a not-a-time [np.datetime64] is NaN. *)
Theorem convert_datetime_array_NaT
    (conv : pyobj -> result (option Z)) (h : heap) (r : ref) (a : array) (i : nat) :
  h !! r = Some (VArr a) ->
  kind (nd_dtype (base a)) ∈ ["M"; "m"]%char ->
  nd_data (base a) !! i = Some (CTime None) ->
  let x := Double.div (Double.of_Z INT64_MIN) (Double.of_Z 1000) in
  (nd_shape (base a) <> [] ->
   exists nd,
     convert_datetime_array conv r h
     = Ok (length h,
           h ++ [VArr (match a with
                       | NDArray _ => NDArray nd
                       | MaskedArray _ _ => MaskedArray nd (Some (getmaskarray a))
                       end)])
     /\ nd_data nd !! i
        = Some (CFloat (match a with
                        | NDArray _ => x
                        | MaskedArray _ _ =>
                            if default false (getmaskarray a !! i)
                            then Double.of_Z INT64_MIN else x
                        end)))
  /\ (forall nd, a = NDArray nd -> nd_shape nd = [] -> i = 0%nat ->
      convert_datetime_array conv r h = Ok (length h, h ++ [VObj (NpFloat64 x)]))
  /\ Double.isfinite x = true
  /\ Double.isnan x = false
  /\ Double.isfinite (Double.of_Z INT64_MIN) = true
  /\ forall pd_total_seconds pd u,
       convert_datetime_type pd_total_seconds pd (VObj (NpDatetime64 None u))
       = Ok Double.nan.
Proof.
  intros Hr Hk Hi x. subst x. apply in_temporal_kinds in Hk.
  pose proof (convert_datetime_array_temporal conv h r a Hr Hk) as Hc.
  set (nd64 := astype_int64 (astype_us (base a))) in Hc.
  assert (Hl : length (nd_data nd64) = length (nd_data (base a)))
    by (unfold nd64; cbn; now rewrite !length_map).
  assert (Hn : nd_data nd64 !! i = Some (CInt INT64_MIN)).
  { unfold nd64. cbn. rewrite !list_lookup_fmap, Hi. cbn [fmap option_fmap option_map].
    f_equal. now apply astype_us_cell_NaT. }
  split; [|split; [|split; [|split; [|split]]]].
  - intros Hs. rewrite array_truediv_1000_cells in Hc by now rewrite base_with_base.
    rewrite base_with_base, (getmaskarray_with_base a nd64 Hl) in Hc.
    destruct a as [nd0|nd0 mask]; cbn [with_base base] in *.
    + eexists. split; [exact Hc|]. cbn [truediv_1000 map_cells nd_data].
      rewrite list_lookup_fmap, Hn. reflexivity.
    + eexists. split; [exact Hc|]. cbn [nd_data].
      rewrite (ma_put_back_lookup _ _ _ i (CInt INT64_MIN)
                 (CFloat (Double.div (Double.of_Z INT64_MIN) (Double.of_Z 1000))) Hn)
        by (rewrite list_lookup_fmap, Hn; reflexivity).
      destruct (getmaskarray _ !! i) as [[|]|]; cbn [default put_back_cell];
        try reflexivity; do 2 f_equal; vm_compute; reflexivity.
  - intros nd -> Hs ->. rewrite Hc. unfold array_truediv_1000. cbn [with_base base].
    change (nd_shape nd64) with (nd_shape nd). rewrite Hs.
    unfold float64_scalar. cbn [truediv_1000 map_cells nd_data].
    destruct (nd_data nd64) as [|c cells]; [discriminate Hn|].
    cbn in Hn. inversion Hn; subst c. reflexivity.
  - vm_compute. reflexivity.
  - vm_compute. reflexivity.
  - vm_compute. reflexivity.
  - intros pd_total_seconds pd u. unfold convert_datetime_type. eval_isinstance.
    destruct pd, u; reflexivity.
Qed.

Lemma convert_datetime_array_NaT_witness :
  exists nd,
    convert_datetime_array plain_datetime64_us 0%nat sample_datetime_store
    = Ok (1%nat, sample_datetime_store ++ [VArr (NDArray nd)])
    /\ nd_data nd !! 1%nat
       = Some (CFloat (Double.div (Double.of_Z INT64_MIN) (Double.of_Z 1000))).
Proof.
  destruct (convert_datetime_array_NaT plain_datetime64_us sample_datetime_store 0%nat
              sample_datetimes 1%nat) as (Harr & _).
  - reflexivity.
  - vm_compute. apply list_elem_of_In. cbn. tauto.
  - reflexivity.
  - destruct Harr as (nd & Hc & Hn); [discriminate|]. exists nd. auto.
Defined.

(** X8. A datetime or timedelta array is not eligible for binary
    transfer, and what [convert_datetime_array] makes of it always is. *)
Theorem convert_datetime_array_eligible
    (conv : pyobj -> result (option Z)) (h h' : heap) (r r' : ref) (a a' : array) :
  h !! r = Some (VArr a) ->
  kind (nd_dtype (base a)) ∈ ["M"; "m"]%char ->
  convert_datetime_array conv r h = Ok (r', h') ->
  h' !! r' = Some (VArr a') ->
  array_encoding_disabled a = true /\ array_encoding_disabled a' = false.
Proof.
  intros Hr Hk Hc Hr'. apply in_temporal_kinds in Hk. split.
  - unfold array_encoding_disabled.
    destruct (nd_dtype (base a)); destruct Hk as [E | E]; try discriminate E; reflexivity.
  - rewrite (convert_datetime_array_temporal conv h r a Hr Hk) in Hc.
    inversion Hc; subst r' h'. rewrite lookup_alloc in Hr'.
    destruct (array_truediv_1000_settled
                (with_base a (astype_int64 (astype_us (base a)))))
      as [[x Hx] | (a1 & Hx & Hd)]; rewrite Hx in Hr'; inversion Hr'; subst a'.
    unfold array_encoding_disabled. now rewrite Hd.
Qed.

Lemma convert_datetime_array_eligible_witness :
  array_encoding_disabled sample_datetimes = true
  /\ array_encoding_disabled
       (NDArray (truediv_1000 (astype_int64 (astype_us (base sample_datetimes))))) = false.
Proof.
  apply (convert_datetime_array_eligible plain_datetime64_us sample_datetime_store
           (sample_datetime_store ++ [VArr (NDArray (truediv_1000 (astype_int64
              (astype_us (base sample_datetimes)))))])
           0%nat 1%nat).
  - reflexivity.
  - vm_compute. apply list_elem_of_In. cbn. tauto.
  - apply (convert_datetime_array_temporal plain_datetime64_us sample_datetime_store 0%nat
             sample_datetimes); [reflexivity | left; reflexivity].
  - reflexivity.
Defined.

(** *** More on [transform_array] *)

(** A scalar of NumPy passes through [transform_array]. *)
Lemma transform_array_scalar
    (conv : pyobj -> result (option Z)) (h : heap) (r : ref) (x : float) :
  h !! r = Some (VObj (NpFloat64 x)) ->
  transform_array conv r h = Ok (r, h).
Proof.
  intros Hr. apply (transform_array_after conv h h r r (VObj (NpFloat64 x))); [|exact Hr].
  unfold convert_datetime_array, mbind, M_bind, deref. now rewrite Hr.
Qed.

(** What a result of [transform_array] on an array looks like. *)
Lemma transform_array_inv
    (conv : pyobj -> result (option Z)) (h h' : heap) (r r' : ref) (a : array) :
  h !! r = Some (VArr a) ->
  transform_array conv r h = Ok (r', h') ->
  (exists nd,
     h' !! r' = Some (VArr (NDArray nd))
     /\ nd_c_contiguous nd = true
     /\ ((nd_dtype nd = nd_dtype (base a)
          /\ kind (nd_dtype (base a)) <> "M"%char /\ kind (nd_dtype (base a)) <> "m"%char)
         \/ (nd_dtype nd = np_float64
             /\ kind (nd_dtype (base a)) ∈ ["M"; "m"; "O"]%char))
     /\ (nd_shape (base a) <> [] ->
         nd_shape nd = nd_shape (base a)
         /\ length (nd_data nd) = length (nd_data (base a))))
  \/ (exists x, h' !! r' = Some (VObj (NpFloat64 x)) /\ nd_shape (base a) = []).
Proof.
  intros Hr Ht.
  destruct (convert_datetime_array conv r h) as [[r1 h1]|e] eqn:Hc.
  2:{ unfold transform_array, mbind, M_bind in Ht. rewrite Hc in Ht. discriminate Ht. }
  assert (Hfin : forall a1, h1 !! r1 = Some (VArr a1) ->
            exists nd,
              h' !! r' = Some (VArr (NDArray nd))
              /\ nd_c_contiguous nd = true
              /\ nd_dtype nd = nd_dtype (base a1)
              /\ (nd_shape (base a1) <> [] ->
                  nd_shape nd = nd_shape (base a1)
                  /\ length (nd_data nd) = length (nd_data (base a1)))).
  { intros a1 H1. rewrite (transform_array_after conv h h1 r r1 _ Hc H1) in Ht.
    destruct a1 as [nd|nd mask]; cbn [base].
    - destruct (nd_c_contiguous nd) eqn:Hcont; inversion Ht; subst r' h'.
      + exists nd. repeat split; auto.
      + eexists. split; [apply lookup_alloc|]. cbn.
        repeat split; auto; destruct (nd_shape nd); auto; contradiction.
    - destruct (filled_nan nd mask) as [filled|e] eqn:Hf; [|discriminate Ht].
      pose proof (filled_nan_dtype _ _ _ Hf) as Hd.
      destruct (filled_nan_shape _ _ _ Hf) as [Hs Hl]. cbv zeta in Ht.
      destruct (nd_c_contiguous filled) eqn:Hcont; inversion Ht; subst r' h'.
      + exists filled. split; [apply lookup_alloc|]. repeat split; auto.
      + eexists. split; [apply lookup_alloc|]. cbn. rewrite Hd, Hl, Hs.
        repeat split; auto; destruct (nd_shape nd); auto; contradiction. }
  destruct (convert_datetime_array_array conv h h1 r r1 a Hr Hc)
    as [(-> & -> & HM & Hm) | (nd & -> & -> & Hs & Hl & _ & Hk & _)].
  - destruct (Hfin a Hr) as (nd & H1 & H2 & H3 & H4).
    left. exists nd. repeat split; auto; now apply H4.
  - assert (Hs' : nd_shape (base (with_base a nd)) = nd_shape (base a))
      by now rewrite base_with_base.
    destruct (nd_shape (base a)) as [|d rest] eqn:Hshape.
    + destruct (array_truediv_1000_scalar (with_base a nd) Hs') as [[x Hx] | (Hx & _)];
        rewrite Hx in *.
      * rewrite (transform_array_after conv h _ r _ _ Hc (lookup_alloc _ _)) in Ht.
        cbn [is_np_generic] in Ht. inversion Ht; subst r' h'.
        right. exists x. split; [apply lookup_alloc | reflexivity].
      * destruct (Hfin ma_masked (lookup_alloc _ _)) as (nd' & H1 & H2 & H3 & _).
        left. exists nd'. split; [exact H1|]. split; [exact H2|].
        split; [right; split; [exact H3 | exact Hk]|]. intros Hne. contradiction.
    + destruct (array_truediv_1000_array (with_base a nd)) as (nd' & Hx & Hd & Hs1 & Hl1 & _).
      { rewrite Hs'. discriminate. }
      rewrite Hx in *. rewrite base_with_base in Hs1, Hl1.
      match type of Hc with
      | _ = Ok (_, _ ++ [VArr ?a1]) =>
          destruct (Hfin a1 (lookup_alloc _ _)) as (nd1 & H1 & H2 & H3 & H4);
          assert (Hb : base a1 = nd') by (now destruct (with_base a nd))
      end.
      rewrite Hb in H3, H4.
      left. exists nd1. split; [exact H1|]. split; [exact H2|].
      split; [right; split; [congruence | exact Hk]|].
      intros _. destruct H4 as [H4 H5]; [rewrite Hs1, Hs; discriminate|].
      split; congruence.
Qed.

Lemma transform_array_settled
    (conv : pyobj -> result (option Z)) (h : heap) (r : ref) (nd : ndarray) :
  h !! r = Some (VArr (NDArray nd)) ->
  kind (nd_dtype nd) <> "M"%char ->
  kind (nd_dtype nd) <> "m"%char ->
  kind (nd_dtype nd) <> "O"%char ->
  nd_c_contiguous nd = true ->
  transform_array conv r h = Ok (r, h).
Proof.
  intros Hr HM Hm HO Hcont.
  rewrite (transform_array_after conv h h r r (VArr (NDArray nd)));
    [now rewrite Hcont| |exact Hr].
  now apply (convert_datetime_array_skip conv h r (NDArray nd)).
Qed.

(** X9. [transform_array] has nothing to do on a C-contiguous base array
    whose kind is neither datetime, timedelta nor object: it returns the
    reference it was given and allocates nothing. *)
Theorem transform_array_nothing_to_do
    (conv : pyobj -> result (option Z)) (h : heap) (r : ref) (nd : ndarray) :
  h !! r = Some (VArr (NDArray nd)) ->
  kind (nd_dtype nd) ∉ ["M"; "m"; "O"]%char ->
  nd_c_contiguous nd = true ->
  transform_array conv r h = Ok (r, h).
Proof.
  intros Hr Hk Hcont. apply not_in_kinds in Hk as (HM & Hm & HO).
  now apply (transform_array_settled conv h r nd).
Qed.

Lemma transform_array_nothing_to_do_witness :
  transform_array plain_datetime64_us 0%nat sample_plain_store = Ok (0%nat, sample_plain_store).
Proof.
  apply (transform_array_nothing_to_do plain_datetime64_us sample_plain_store 0%nat
           sample_nonfinite); [reflexivity| |reflexivity].
  intros H. apply list_elem_of_In in H. cbn in H.
  repeat (destruct H as [H | H]; [discriminate H|]). exact H.
Defined.

(** X10. On an array that has a dimension, the result of
    [transform_array] is a base array with as many cells as the
    argument, in the same shape; its dtype is that of the argument, or
    float64 when the argument was converted from a datetime, timedelta
    or object array. *)
Theorem transform_array_shape
    (conv : pyobj -> result (option Z)) (h h' : heap) (r r' : ref) (a : array) :
  h !! r = Some (VArr a) ->
  nd_shape (base a) <> [] ->
  transform_array conv r h = Ok (r', h') ->
  exists nd,
    h' !! r' = Some (VArr (NDArray nd))
    /\ nd_shape nd = nd_shape (base a)
    /\ length (nd_data nd) = length (nd_data (base a))
    /\ (nd_dtype nd = nd_dtype (base a)
        \/ (nd_dtype nd = np_float64
            /\ kind (nd_dtype (base a)) ∈ ["M"; "m"; "O"]%char)).
Proof.
  intros Hr Hs Ht.
  destruct (transform_array_inv conv h h' r r' a Hr Ht)
    as [(nd & H1 & _ & H3 & H4) | (x & _ & Hnil)]; [|contradiction].
  destruct (H4 Hs) as [H5 H6].
  exists nd. repeat split; auto. destruct H3 as [(E & _) | E]; auto.
Qed.

Lemma transform_array_shape_witness :
  exists r' h' nd,
    transform_array plain_datetime64_us 1%nat sample_store = Ok (r', h')
    /\ r' = 2%nat
    /\ h' !! r' = Some (VArr (NDArray nd))
    /\ nd_shape nd = [3]
    /\ length (nd_data nd) = 3%nat.
Proof.
  assert (Ht : transform_array plain_datetime64_us 1%nat sample_store
               = Ok (2%nat,
                     sample_store
                     ++ [VArr (NDArray (mk_ndarray np_float64 [3]
                            [CFloat (Double.of_Z 1); CFloat Double.nan; CFloat (Double.of_Z 3)]
                            C_contiguous))])) by reflexivity.
  destruct (transform_array_shape plain_datetime64_us sample_store _ 1%nat _
              sample_masked_float eq_refl ltac:(discriminate) Ht) as (nd & Hnd & Hs & Hlen & _).
  do 3 eexists. split; [exact Ht|]. split; [reflexivity|].
  split; [exact Hnd|]. split; [exact Hs | exact Hlen].
Defined.

(** X11. On an array that is not an object array, [transform_array] is
    idempotent: applied to the reference it returned, in the store it
    left, it returns that reference again and allocates nothing. *)
Theorem transform_array_idempotent
    (conv : pyobj -> result (option Z)) (h h' : heap) (r r' : ref) (a : array) :
  h !! r = Some (VArr a) ->
  kind (nd_dtype (base a)) <> "O"%char ->
  transform_array conv r h = Ok (r', h') ->
  transform_array conv r' h' = Ok (r', h').
Proof.
  intros Hr HO Ht.
  destruct (transform_array_inv conv h h' r r' a Hr Ht)
    as [(nd & H1 & H2 & H3 & _) | (x & H1 & _)].
  - destruct H3 as [(E & HM & Hm) | [E _]].
    + apply (transform_array_settled conv h' r' nd); auto; now rewrite E.
    + apply (transform_array_settled conv h' r' nd); auto; rewrite E; discriminate.
  - now apply (transform_array_scalar conv h' r' x).
Qed.

Lemma transform_array_idempotent_witness :
  exists r' h',
    transform_array plain_datetime64_us 1%nat sample_store = Ok (r', h')
    /\ transform_array plain_datetime64_us r' h' = Ok (r', h')
    /\ r' = 2%nat.
Proof.
  assert (Ht : transform_array plain_datetime64_us 1%nat sample_store
               = Ok (2%nat,
                     sample_store
                     ++ [VArr (NDArray (mk_ndarray np_float64 [3]
                            [CFloat (Double.of_Z 1); CFloat Double.nan; CFloat (Double.of_Z 3)]
                            C_contiguous))])) by reflexivity.
  do 2 eexists. split; [exact Ht|]. split; [|reflexivity].
  apply (transform_array_idempotent plain_datetime64_us sample_store _ 1%nat _
           sample_masked_float); [reflexivity | discriminate | exact Ht].
Defined.
(** ** More on lists *)

(** The nested list over clean elements is clean. *)
Lemma json_clean_nest (shape : list Z) (xs : list value) :
  Forall (fun x => json_clean x = true) xs -> json_clean (nest shape xs) = true.
Proof.
  revert xs. induction shape as [|d rest IH]; intros xs Hxs; cbn [nest].
  - destruct Hxs as [|x xs Hx _]; [reflexivity|exact Hx].
  - cbn [json_clean]. apply forallb_forall. intros v Hv.
    apply in_map_iff in Hv as (chunk & <- & Hchunk). apply IH.
    unfold chunks in Hchunk. apply in_map_iff in Hchunk as (i & <- & _).
    now apply Forall_take, Forall_drop.
Qed.

Lemma numeric_not_object (k : ascii) :
  k ∈ ["u"; "i"; "f"]%char -> Ascii.eqb k "O" = false.
Proof.
  intros H. apply list_elem_of_In in H. cbn in H.
  destruct H as [E | [E | [E | []]]]; rewrite <- E; reflexivity.
Qed.

(** The result of [transform_array_to_list] on a numeric array without
    mask, with or without a non-finite element. *)
Lemma transform_array_to_list_numeric (pd : bool) (a : ndarray) :
  kind (nd_dtype a) ∈ ["u"; "i"; "f"]%char ->
  transform_array_to_list pd (NDArray a)
  = nest (nd_shape a) (map (json_safe (nd_dtype a)) (nd_data a)).
Proof.
  intros Hkind. rewrite transform_array_to_list_nomask by discriminate.
  cbv zeta. cbn [base]. rewrite bool_decide_eq_true_2 by exact Hkind.
  destruct (existsb (fun c => negb (np_isfinite c)) (nd_data a)) eqn:Hex; cbn [andb];
    [reflexivity|].
  rewrite (numeric_not_object _ Hkind). cbn [andb]. unfold tolist. f_equal.
  apply map_ext_in. intros c Hc. unfold json_safe.
  assert (Hfin : np_isfinite c = true).
  { destruct (np_isfinite c) eqn:E; [reflexivity|]. exfalso.
    apply not_true_iff_false in Hex. apply Hex, existsb_exists.
    exists c. split; [exact Hc|]. now rewrite E. }
  unfold np_isfinite, np_isnan, np_isposinf, np_isneginf, cell_float in *.
  destruct c as [b|n|x|t|o]; try reflexivity.
  destruct x as [sg|[]| |sg m e]; try reflexivity; discriminate Hfin.
Qed.

(** The result of [transform_array_to_list] on a masked array that is no
    object array: the strings are put in when a cell that is not finite
    is not masked. *)
Lemma transform_array_to_list_ma (pd : bool) (nd : ndarray) (mask : list bool) :
  Ascii.eqb (kind (nd_dtype nd)) "O" = false ->
  length mask = length (nd_data nd) ->
  transform_array_to_list pd (MaskedArray nd (Some mask))
  = nest (nd_shape nd)
      (zip_with
         (if bool_decide (kind (nd_dtype nd) ∈ ["u"; "i"; "f"]%char)
             && ma_any (fun c => negb (np_isfinite c)) (MaskedArray nd (Some mask))
          then ma_json_safe (nd_dtype nd) else ma_item (nd_dtype nd))
         mask (nd_data nd)).
Proof.
  intros HO Hl. unfold transform_array_to_list. cbn [base].
  destruct (bool_decide _ && ma_any _ _).
  - unfold array_tolist, assign_where, array_astype_object, astype_object, map_cells.
    cbn [base with_base nd_dtype nd_shape nd_data].
    now rewrite ma_nonfinite_cells.
  - rewrite HO. cbn [andb array_tolist]. now rewrite ma_items_zip.
Qed.

Lemma json_safe_clean (d : dtype) (c : cell) :
  kind d ∈ ["u"; "i"; "f"]%char ->
  cell_typed d c = true ->
  json_clean (json_safe d c) = true.
Proof.
  intros Hnum Hc. unfold json_safe, np_isnan, np_isposinf, np_isneginf, cell_float. cbn.
  destruct d as [| | |w bo|w bo|w bo|u bo|u bo|];
    destruct c as [b|n|x|t|ob]; try discriminate Hc; try reflexivity;
    try (apply list_elem_of_In in Hnum; cbn in Hnum;
         repeat (destruct Hnum as [Hnum | Hnum]; [discriminate Hnum|]); contradiction);
    destruct x as [sg|[]| |sg m e]; reflexivity.
Qed.

Lemma ma_json_safe_clean (d : dtype) (b : bool) (c : cell) :
  kind d ∈ ["u"; "i"; "f"]%char ->
  cell_typed d c = true ->
  json_clean (ma_json_safe d b c) = true.
Proof.
  intros Hnum Hc. unfold ma_json_safe, np_isnan, np_isposinf, np_isneginf, cell_float. cbn.
  destruct d as [| | |w bo|w bo|w bo|u bo|u bo|];
    destruct c as [b0|n|x|t|ob]; try discriminate Hc; try (now destruct b);
    try (apply list_elem_of_In in Hnum; cbn in Hnum;
         repeat (destruct Hnum as [Hnum | Hnum]; [discriminate Hnum|]); contradiction);
    destruct x as [sg|[]| |sg m e]; now destruct b.
Qed.

(** X12. The list that [transform_array_to_list] makes of a boolean,
    integer or float array whose cells are of its dtype holds no NaN and
    no infinity, at any depth: every float left in it is finite.  This
    holds of a masked array as well, whose mask has one boolean per
    cell. *)
Theorem transform_array_to_list_json_clean (pd : bool) (a : array) :
  kind (nd_dtype (base a)) ∈ ["b"; "u"; "i"; "f"]%char ->
  Forall (fun c => cell_typed (nd_dtype (base a)) c = true) (nd_data (base a)) ->
  length (getmaskarray a) = length (nd_data (base a)) ->
  json_clean (transform_array_to_list pd a) = true.
Proof.
  intros Hkind Htyped Hmask.
  assert (Hcases : kind (nd_dtype (base a)) = "b"%char
                   \/ kind (nd_dtype (base a)) ∈ ["u"; "i"; "f"]%char).
  { apply list_elem_of_In in Hkind. cbn in Hkind.
    destruct Hkind as [E | H]; [now left|right; now apply list_elem_of_In]. }
  assert (Hnomask : (forall nd m, a <> MaskedArray nd (Some m)) ->
                    json_clean (transform_array_to_list pd a) = true).
  { intros Ha. rewrite (transform_array_to_list_nomask pd a Ha). cbv zeta.
    destruct Hcases as [Hb | Hnum].
    - (* booleans take the last branch *)
      rewrite bool_decide_eq_false_2.
      2:{ rewrite Hb. intros H. apply list_elem_of_In in H. cbn in H.
          repeat (destruct H as [H | H]; [discriminate H|]). exact H. }
      rewrite Hb. cbn [andb]. change (("b" =? "O")%char) with false. cbn [andb].
      apply json_clean_nest, Forall_fmap. eapply Forall_impl; [exact Htyped|].
      intros c Hc. cbn.
      destruct (nd_dtype (base a)); try discriminate Hb; destruct c; try discriminate Hc;
        reflexivity.
    - rewrite bool_decide_eq_true_2 by exact Hnum.
      rewrite (numeric_not_object _ Hnum).
      destruct (existsb _ _) eqn:Hex; cbn [andb].
      + apply json_clean_nest, Forall_fmap. eapply Forall_impl; [exact Htyped|].
        intros c Hc. now apply json_safe_clean.
      + apply json_clean_nest, Forall_fmap. apply Forall_forall. intros c Hin.
        pose proof (proj1 (Forall_forall _ _) Htyped c Hin) as Hc. cbn in Hc |- *.
        assert (Hfin : np_isfinite c = true).
        { destruct (np_isfinite c) eqn:E; [reflexivity|]. exfalso.
          apply not_true_iff_false in Hex. apply Hex, existsb_exists.
          exists c. split; [now apply list_elem_of_In|]. now rewrite E. }
        destruct c as [b|n|x|t|o]; try reflexivity; [exact Hfin| |].
        all: destruct (nd_dtype (base a)); try discriminate Hc;
          apply list_elem_of_In in Hnum; cbn in Hnum;
          repeat (destruct Hnum as [Hnum | Hnum]; [discriminate Hnum|]); contradiction. }
  destruct a as [nd|nd [mask|]]; [apply Hnomask; discriminate | | apply Hnomask; discriminate].
  cbn [base getmaskarray] in *.
  assert (HO : Ascii.eqb (kind (nd_dtype nd)) "O" = false).
  { destruct Hcases as [Hb | Hnum]; [now rewrite Hb | now apply numeric_not_object]. }
  rewrite (transform_array_to_list_ma pd nd mask HO Hmask).
  apply json_clean_nest, Forall_lookup_2. intros i v Hv.
  apply lookup_zip_with_Some in Hv as (b & c & -> & Hb & Hc).
  pose proof (Forall_lookup_1 _ _ _ _ Htyped Hc) as Hty. cbn in Hty.
  destruct (bool_decide _ && ma_any _ _) eqn:Htest.
  - apply andb_prop in Htest as [Hnum _]. apply bool_decide_eq_true_1 in Hnum.
    now apply ma_json_safe_clean.
  - unfold ma_item. destruct b; [reflexivity|].
    destruct c as [b0|n|x|t|o]; try reflexivity.
    + cbn. destruct (Double.isfinite x) eqn:Hfin; [reflexivity|]. exfalso.
      assert (Hnum : kind (nd_dtype nd) ∈ ["u"; "i"; "f"]%char).
      { destruct (nd_dtype nd); try discriminate Hty. apply list_elem_of_In. cbn. tauto. }
      rewrite bool_decide_eq_true_2 in Htest by exact Hnum. cbn [andb] in Htest.
      apply not_true_iff_false in Htest. apply Htest, ma_any_masked.
      exists i, (CFloat x). split; [exact Hc|]. split; [|rewrite Hb; discriminate].
      unfold np_isfinite. cbn. now rewrite Hfin.
    + destruct (nd_dtype nd); try discriminate Hty;
        destruct Hcases as [E | E]; try discriminate E;
        apply list_elem_of_In in E; cbn in E;
        repeat (destruct E as [E | E]; [discriminate E|]); contradiction.
    + destruct (nd_dtype nd); try discriminate Hty;
        destruct Hcases as [E | E]; try discriminate E;
        apply list_elem_of_In in E; cbn in E;
        repeat (destruct E as [E | E]; [discriminate E|]); contradiction.
Qed.

Lemma transform_array_to_list_json_clean_witness :
  json_clean (transform_array_to_list false (NDArray sample_nonfinite)) = true
  /\ json_clean (tolist sample_nonfinite) = false
  /\ json_clean (transform_array_to_list false sample_masked_nan) = true.
Proof.
  split; [|split; [reflexivity|]].
  - apply (transform_array_to_list_json_clean false (NDArray sample_nonfinite)).
    + vm_compute. apply list_elem_of_In. cbn. tauto.
    + repeat constructor.
    + reflexivity.
  - apply (transform_array_to_list_json_clean false sample_masked_nan).
    + vm_compute. apply list_elem_of_In. cbn. tauto.
    + repeat constructor.
    + reflexivity.
Defined.

Lemma fill_where_lookup_false (mask : list bool) (fill : cell) (cells : list cell) (i : nat) :
  mask !! i = Some false -> fill_where mask fill cells !! i = cells !! i.
Proof.
  revert mask i. induction cells as [|c cells IH]; intros mask i Hm.
  - now destruct mask.
  - destruct mask as [|b mask]; [discriminate Hm|].
    destruct i as [|i]; cbn [fill_where].
    + inversion Hm. reflexivity.
    + apply (IH mask i Hm).
Qed.

(** [transform_array] on a masked float array, in full. *)
Lemma transform_array_masked_float
    (conv : pyobj -> result (option Z)) (h : heap) (r : ref) (nd : ndarray) (mask : list bool) :
  h !! r = Some (VArr (MaskedArray nd (Some mask))) ->
  kind (nd_dtype nd) = "f"%char ->
  exists r' h' nd',
    transform_array conv r h = Ok (r', h')
    /\ h' !! r' = Some (VArr (NDArray nd'))
    /\ nd_dtype nd' = nd_dtype nd
    /\ (nd_shape nd <> [] -> nd_shape nd' = nd_shape nd)
    /\ length (nd_data nd') = length (nd_data nd)
    /\ (forall i, mask !! i = Some true -> (i < length (nd_data nd))%nat ->
                  nd_data nd' !! i = Some (CFloat Double.nan))
    /\ (forall i, mask !! i = Some false -> nd_data nd' !! i = nd_data nd !! i).
Proof.
  intros Hr Hk.
  rewrite (transform_array_after conv h h r r _
             (convert_datetime_array_float conv h r _ Hr Hk) Hr).
  assert (Hf : exists filled,
             filled_nan nd (Some mask) = Ok filled
             /\ nd_dtype filled = nd_dtype nd
             /\ nd_shape filled = nd_shape nd
             /\ length (nd_data filled) = length (nd_data nd)
             /\ (forall i, mask !! i = Some true -> (i < length (nd_data nd))%nat ->
                           nd_data filled !! i = Some (CFloat Double.nan))
             /\ (forall i, mask !! i = Some false -> nd_data filled !! i = nd_data nd !! i)).
  { destruct (filled_nan_float nd mask Hk) as (filled & Hfill & Hnan).
    exists filled. split; [exact Hfill|].
    split; [eapply filled_nan_dtype, Hfill|].
    destruct (filled_nan_shape _ _ _ Hfill) as [Hs Hl].
    repeat split; auto.
    intros i Hi. unfold filled_nan in Hfill.
    destruct (nd_dtype nd) as [| | |w bo|w bo|w bo|u bo|u bo|]; try discriminate Hk.
    cbn [nan_as rbind] in Hfill.
    destruct (existsb id mask); inversion Hfill; [|reflexivity].
    cbn [nd_data]. now apply fill_where_lookup_false. }
  destruct Hf as (filled & -> & Hd & Hs & Hl & Hnan & Hkeep). cbv zeta.
  destruct (nd_c_contiguous filled).
  - do 3 eexists. split; [reflexivity|]. split; [apply lookup_alloc|].
    repeat split; auto.
  - do 3 eexists. split; [reflexivity|]. split; [apply lookup_alloc|]. cbn.
    repeat split; auto. intros Hne. rewrite Hs. now destruct (nd_shape nd).
Qed.

(** X13. A one-dimensional masked float array that goes through
    [transform_array] and then [transform_array_to_list] comes out as a
    list of as many elements, in which every masked position is the
    string "NaN" and every unmasked finite cell its float. *)
Theorem masked_array_to_list
    (conv : pyobj -> result (option Z)) (pd : bool) (h : heap) (r : ref)
    (nd : ndarray) (mask : list bool) :
  h !! r = Some (VArr (MaskedArray nd (Some mask))) ->
  kind (nd_dtype nd) = "f"%char ->
  nd_shape nd = [Z.of_nat (length (nd_data nd))] ->
  exists r' h' nd' l,
    transform_array conv r h = Ok (r', h')
    /\ h' !! r' = Some (VArr (NDArray nd'))
    /\ transform_array_to_list pd (NDArray nd') = VList l
    /\ length l = length (nd_data nd)
    /\ (forall i, mask !! i = Some true -> (i < length (nd_data nd))%nat ->
                  l !! i = Some (VObj (PyStr "NaN")))
    /\ (forall i x, mask !! i = Some false -> nd_data nd !! i = Some (CFloat x) ->
                    Double.isfinite x = true -> l !! i = Some (VObj (PyFloat x))).
Proof.
  intros Hr Hk Hshape.
  destruct (transform_array_masked_float conv h r nd mask Hr Hk)
    as (r' & h' & nd' & Ht & Hr' & Hd & Hs & Hl & Hnan & Hkeep).
  exists r', h', nd', (map (json_safe (nd_dtype nd')) (nd_data nd')).
  split; [exact Ht|]. split; [exact Hr'|]. split.
  - rewrite transform_array_to_list_numeric.
    + rewrite Hs by (rewrite Hshape; discriminate).
      rewrite Hshape, <- Hl, <- (length_map (json_safe (nd_dtype nd'))). apply nest_1d.
    + rewrite Hd, Hk. apply list_elem_of_In. cbn. tauto.
  - split; [now rewrite length_map|]. split.
    + intros i Hm Hi. rewrite list_lookup_fmap, (Hnan i Hm Hi). reflexivity.
    + intros i x Hm Hx Hfin. rewrite list_lookup_fmap, (Hkeep i Hm), Hx. cbn.
      unfold json_safe, np_isnan, np_isposinf, np_isneginf, cell_float. cbn.
      destruct x as [sg|[]| |sg m e]; try discriminate Hfin; reflexivity.
Qed.

Lemma masked_array_to_list_witness :
  exists r' h' nd' l,
    transform_array plain_datetime64_us 1%nat sample_store = Ok (r', h')
    /\ h' !! r' = Some (VArr (NDArray nd'))
    /\ transform_array_to_list false (NDArray nd') = VList l
    /\ l !! 1%nat = Some (VObj (PyStr "NaN")).
Proof.
  destruct (masked_array_to_list plain_datetime64_us false sample_store 1%nat
              (base sample_masked_float) [false; true; false])
    as (r' & h' & nd' & l & Ht & Hr' & Hl & _ & Hnan & _); try reflexivity.
  exists r', h', nd', l. repeat split; auto. apply Hnan; [reflexivity|cbn; lia].
Defined.

(** X14. On an object array, [transform_array_to_list] replaces the
    null cells ([None], a float NaN, not-a-time) by the string "NaN"
    only when pandas can be imported; without pandas the list is the
    plain [tolist()] and a float NaN stays in it. *)
Theorem transform_array_to_list_object (pd : bool) (a : ndarray) :
  kind (nd_dtype a) = "O"%char ->
  transform_array_to_list pd (NDArray a)
  = nest (nd_shape a)
         (map (fun c => VObj (if pd && pd_isnull c then PyStr "NaN" else item (nd_dtype a) c))
              (nd_data a))
  /\ (pd = false -> transform_array_to_list pd (NDArray a) = tolist a).
Proof.
  intros Hk. rewrite transform_array_to_list_nomask by discriminate.
  cbv zeta. cbn [base].
  rewrite bool_decide_eq_false_2.
  2:{ rewrite Hk. intros H. apply list_elem_of_In in H. cbn in H.
      repeat (destruct H as [H | H]; [discriminate H|]). exact H. }
  rewrite Hk. cbn [andb]. change (("O" =? "O")%char) with true. cbn [andb].
  destruct pd; cbn [andb].
  - split; [|intros E; discriminate E].
    destruct (existsb pd_isnull (nd_data a)) eqn:Hex; [reflexivity|].
    unfold tolist. f_equal. apply map_ext_in. intros c Hc.
    destruct (pd_isnull c) eqn:E; [|reflexivity]. exfalso.
    apply not_true_iff_false in Hex. apply Hex, existsb_exists. eauto.
  - split; reflexivity.
Qed.

Lemma transform_array_to_list_object_witness :
  transform_array_to_list true
    (NDArray (mk_ndarray np_object [2] [CObj PyNone; CObj (PyInt 2)] C_contiguous))
  = VList [VObj (PyStr "NaN"); VObj (PyInt 2)]
  /\ transform_array_to_list false
       (NDArray (mk_ndarray np_object [2] [CObj PyNone; CObj (PyInt 2)] C_contiguous))
     = VList [VObj PyNone; VObj (PyInt 2)].
Proof.
  split.
  - destruct (transform_array_to_list_object true
                (mk_ndarray np_object [2] [CObj PyNone; CObj (PyInt 2)] C_contiguous) eq_refl)
      as [-> _]. reflexivity.
  - destruct (transform_array_to_list_object false
                (mk_ndarray np_object [2] [CObj PyNone; CObj (PyInt 2)] C_contiguous) eq_refl)
      as [_ ->]; reflexivity.
Defined.
(** ** Buffers *)

Lemma decode_cell_typed (sys : ByteOrder) (d : dtype) (bs : list byte) :
  d <> dt_object -> cell_typed d (decode_cell sys d bs) = true.
Proof.
  intros Hne. destruct d as [| | |w bo|w bo|w bo|u bo|u bo|];
    try contradiction; try destruct w; reflexivity.
Qed.

Lemma buffer_cells_typed (sys : ByteOrder) (d : dtype) (bs : list byte) :
  d <> dt_object ->
  Forall (fun c => cell_typed d c = true) (buffer_cells sys d bs).
Proof.
  intros Hne. unfold buffer_cells. apply Forall_fmap, Forall_forall.
  intros chunk _. now apply decode_cell_typed.
Qed.

(** What [decode_base64_dict] needs to return. *)
Lemma decode_base64_dict_Ok (np_dtype : string -> result dtype) (maxdims : nat)
    (sys : ByteOrder) (buffer : BufferJson) (a : array) :
  decode_base64_dict np_dtype maxdims sys buffer = Ok a ->
  exists text bs d,
    buf_array buffer = Base64 text
    /\ b64decode text = Ok bs
    /\ np_dtype (buf_dtype buffer) = Ok d
    /\ d <> dt_object
    /\ Z.of_nat (length bs) mod itemsize d = 0.
Proof.
  unfold decode_base64_dict. destruct (buf_array buffer) as [id|text] eqn:Ha;
    [intros E; discriminate E|].
  destruct (b64decode text) as [bs|e] eqn:Hb; cbn [rbind]; [|intros E; discriminate E].
  destruct (frombuffer np_dtype sys bs (buf_dtype buffer)) as [flat|e] eqn:Hf;
    cbn [rbind]; [|intros E; discriminate E].
  intros _. apply frombuffer_Ok in Hf as (d & Hd & Hne & Hm & _).
  exists text, bs, d. repeat split; auto.
Qed.

(** X15. Whatever [decode_base64_dict] returns is a well-formed array:
    a base array, C-contiguous, of the dtype that NumPy reads from the
    tag, never of object dtype, whose cells are the items of the decoded
    bytes, cells of that dtype, in a shape that holds exactly the cells
    there are. *)
Theorem decode_base64_dict_well_formed (np_dtype : string -> result dtype) (maxdims : nat)
    (sys : ByteOrder) (buffer : BufferJson) (a : array) :
  decode_base64_dict np_dtype maxdims sys buffer = Ok a ->
  exists nd text bs,
    a = NDArray nd
    /\ buf_array buffer = Base64 text
    /\ b64decode text = Ok bs
    /\ np_dtype (buf_dtype buffer) = Ok (nd_dtype nd)
    /\ nd_dtype nd <> dt_object
    /\ nd_c_contiguous nd = true
    /\ nd_data nd = buffer_cells sys (nd_dtype nd) bs
    /\ prod_shape (nd_shape nd) = Z.of_nat (length (nd_data nd))
    /\ Forall (fun c => cell_typed (nd_dtype nd) c = true) (nd_data nd).
Proof.
  intros Hdec.
  destruct (decode_base64_dict_Ok np_dtype maxdims sys buffer a Hdec)
    as (text & bs & d & Ha & Hb & Hd & Hne & Hm).
  rewrite (decode_base64_dict_steps np_dtype maxdims sys buffer text bs d) in Hdec
    by assumption.
  pose proof (buffer_cells_typed sys d bs Hne) as Htyped.
  pose proof (length_buffer_cells sys d bs) as Hlen.
  destruct (1 <? length (buf_shape buffer))%nat.
  - destruct (resolve_shape _ _ _ _) as [shape'|e] eqn:Hs; cbn [rbind] in Hdec;
      [|discriminate Hdec].
    apply resolve_shape_Ok in Hs as (_ & Hprod & _).
    inversion Hdec. eexists _, text, bs. split; [reflexivity|].
    cbn [nd_dtype nd_shape nd_data nd_layout nd_c_contiguous].
    repeat split; auto. congruence.
  - inversion Hdec. eexists _, text, bs. split; [reflexivity|].
    cbn [nd_dtype nd_shape nd_data nd_layout nd_c_contiguous].
    repeat split; auto. rewrite prod_shape_cons. change (prod_shape []) with 1. lia.
Qed.

Lemma decode_base64_dict_well_formed_witness :
  exists nd,
    decode_base64_dict dtype_of_name 32 little sample_square = Ok (NDArray nd)
    /\ prod_shape (nd_shape nd) = Z.of_nat (length (nd_data nd))
    /\ nd_c_contiguous nd = true.
Proof.
  destruct (decode_base64_dict_well_formed dtype_of_name 32 little sample_square
              (NDArray (mk_ndarray np_int16 [2; 2] [CInt 0; CInt 0; CInt 0; CInt 16368]
                                   C_contiguous)))
    as (nd & text & bs & Ha & _ & _ & _ & _ & Hc & _ & Hp & _); [reflexivity|].
  exists nd. rewrite <- Ha. auto.
Defined.

(** ** Identifiers *)

Lemma simple_calls_app (l1 l2 : list (bool * Z)) :
  simple_calls (l1 ++ l2) = simple_calls l1 + simple_calls l2.
Proof.
  unfold simple_calls. rewrite filter_app, length_app. lia.
Qed.

Lemma simple_calls_nonneg (l : list (bool * Z)) : 0 <= simple_calls l.
Proof. unfold simple_calls. lia. Qed.

(** The identifier that a run hands out at a simple-mode position. *)
Lemma make_ids_simple_at (calls : list (bool * Z)) (n : Z) (i : nat) (rnd : Z) :
  calls !! i = Some (true, rnd) ->
  fst (make_ids calls n) !! i = Some (py_str_int (n + simple_calls (take i calls) + 1)).
Proof.
  intros Hi. pose proof (lookup_lt_Some _ _ _ Hi) as Hlt.
  pose proof (make_ids_lookup (take i calls) (drop (S i) calls) (true, rnd) n) as H.
  rewrite (take_drop_middle calls i (true, rnd) Hi) in H.
  rewrite length_take, Nat.min_l in H by lia. exact H.
Qed.

(** X16. Within one run of calls the simple identifiers increase: two
    calls in simple-ID mode return the decimal strings of two integers,
    the later call the greater one, so the two identifiers differ. *)
Theorem make_id_simple_increasing
    (calls : list (bool * Z)) (n : Z) (i j : nat) (rnd_i rnd_j : Z) :
  (i < j)%nat ->
  calls !! i = Some (true, rnd_i) ->
  calls !! j = Some (true, rnd_j) ->
  exists id_i id_j k_i k_j,
    fst (make_ids calls n) !! i = Some id_i
    /\ fst (make_ids calls n) !! j = Some id_j
    /\ py_int_str id_i = Some k_i
    /\ py_int_str id_j = Some k_j
    /\ n < k_i < k_j
    /\ id_i <> id_j.
Proof.
  intros Hij Hi Hj.
  assert (Hgrow : simple_calls (take i calls) + 1 <= simple_calls (take j calls)).
  { replace j with (i + (j - i))%nat by lia.
    rewrite <- take_take_drop, simple_calls_app, (drop_S _ _ _ Hi).
    destruct (j - i)%nat as [|k] eqn:Hk; [lia|].
    cbn [take]. rewrite simple_calls_cons. cbn [fst].
    pose proof (simple_calls_nonneg (take k (drop (S i) calls))). lia. }
  pose proof (simple_calls_nonneg (take i calls)) as Hpos.
  do 4 eexists.
  split; [apply (make_ids_simple_at calls n i rnd_i Hi)|].
  split; [apply (make_ids_simple_at calls n j rnd_j Hj)|].
  split; [apply py_int_str_py_str_int|].
  split; [apply py_int_str_py_str_int|].
  split; [lia|].
  intros E. apply (f_equal py_int_str) in E.
  rewrite !py_int_str_py_str_int in E. inversion E. lia.
Qed.

Lemma make_id_simple_increasing_witness :
  exists id_i id_j,
    fst (make_ids [(true, 0); (false, 7); (true, 0)] _simple_id) !! 0%nat = Some id_i
    /\ fst (make_ids [(true, 0); (false, 7); (true, 0)] _simple_id) !! 2%nat = Some id_j
    /\ id_i <> id_j.
Proof.
  destruct (make_id_simple_increasing [(true, 0); (false, 7); (true, 0)] _simple_id
              0%nat 2%nat 0 0) as (id_i & id_j & k_i & k_j & H1 & H2 & _ & _ & _ & Hne);
    [lia | reflexivity | reflexivity |].
  exists id_i, id_j. auto.
Defined.

(** *** The text of a globally unique identifier *)

Lemma land_15_range (x : Z) : 0 <= Z.land x 15 < 16.
Proof.
  change 15 with (Z.ones 4). rewrite Z.land_ones by lia.
  apply Z.mod_pos_bound. reflexivity.
Qed.

Lemma hex_digit_is_hex (x : Z) : is_hex (hex_digit (Z.land x 15)) = true.
Proof.
  pose proof (land_15_range x) as Hr. remember (Z.land x 15) as v eqn:Hv. clear Hv.
  assert (Hcases : v = 0 \/ v = 1 \/ v = 2 \/ v = 3 \/ v = 4 \/ v = 5 \/ v = 6 \/ v = 7
                   \/ v = 8 \/ v = 9 \/ v = 10 \/ v = 11 \/ v = 12 \/ v = 13 \/ v = 14
                   \/ v = 15) by lia.
  repeat (destruct Hcases as [-> | Hcases]; [reflexivity|]). subst v. reflexivity.
Qed.

(** Bit by bit view of the operations that [uuid4] is made of. *)
Ltac bits_of_uuid4 :=
  unfold uuid4; cbv zeta;
  repeat first [ rewrite Z.lor_spec | rewrite Z.land_spec
               | rewrite Z.lnot_spec by lia | rewrite Z.shiftl_spec by lia
               | rewrite Z.shiftr_spec by lia ].

(** The thirteenth digit is the version, 4. *)
Lemma uuid4_version (rnd : Z) : Z.land (Z.shiftr (uuid4 rnd) 76) 15 = 4.
Proof.
  apply Z.bits_inj'. intros n Hn. rewrite Z.land_spec, Z.shiftr_spec by lia.
  destruct (Z.lt_ge_cases n 4) as [Hlt|Hge].
  - assert (Hcases : n = 0 \/ n = 1 \/ n = 2 \/ n = 3) by lia.
    destruct Hcases as [-> | [-> | [-> | ->]]]; bits_of_uuid4;
      match goal with
      | |- context [Z.testbit (rnd mod _) ?k] => generalize (Z.testbit (rnd mod 2 ^ 128) k)
      end; intros b; destruct b; reflexivity.
  - rewrite (Z.bits_above_log2 15 n), (Z.bits_above_log2 4 n), andb_false_r;
      [reflexivity | lia | cbn; lia | lia | cbn; lia].
Qed.

(** The seventeenth digit carries the variant: its two high bits are 1
    and 0. *)
Lemma uuid4_variant (rnd : Z) : 8 <= Z.land (Z.shiftr (uuid4 rnd) 60) 15 <= 11.
Proof.
  pose proof (land_15_range (Z.shiftr (uuid4 rnd) 60)) as Hr.
  assert (H3 : Z.testbit (Z.land (Z.shiftr (uuid4 rnd) 60) 15) 3 = true).
  { rewrite Z.land_spec, Z.shiftr_spec by lia. bits_of_uuid4.
    match goal with
    | |- context [Z.testbit (rnd mod _) ?k] => generalize (Z.testbit (rnd mod 2 ^ 128) k)
    end. intros b; destruct b; reflexivity. }
  assert (H2 : Z.testbit (Z.land (Z.shiftr (uuid4 rnd) 60) 15) 2 = false).
  { rewrite Z.land_spec, Z.shiftr_spec by lia. bits_of_uuid4.
    match goal with
    | |- context [Z.testbit (rnd mod _) ?k] => generalize (Z.testbit (rnd mod 2 ^ 128) k)
    end. intros b; destruct b; reflexivity. }
  remember (Z.land (Z.shiftr (uuid4 rnd) 60) 15) as v eqn:Hv. clear Hv.
  assert (Hcases : v = 0 \/ v = 1 \/ v = 2 \/ v = 3 \/ v = 4 \/ v = 5 \/ v = 6 \/ v = 7
                   \/ v = 8 \/ v = 9 \/ v = 10 \/ v = 11 \/ v = 12 \/ v = 13 \/ v = 14
                   \/ v = 15) by lia.
  repeat (destruct Hcases as [-> | Hcases];
          [first [discriminate H3 | discriminate H2 | lia]|]).
  subst v. discriminate H2.
Qed.

(** Decision of where a position of the text lies. *)
Ltac eval_dash_position :=
  lazymatch goal with
  | |- context [bool_decide ?P] =>
      let b := eval vm_compute in (bool_decide P) in
      change (bool_decide P) with b; cbv iota
  end.

(** X17. Whatever the operating system delivers as random bytes,
    [make_globally_unique_id] returns a text of 36 characters with
    hyphens at positions 8, 13, 18 and 23 and lower case hexadecimal
    digits everywhere else, whose digit at position 14 is the version 4
    and whose digit at position 19 is 8, 9, a or b, the RFC 4122
    variant. *)
Theorem make_globally_unique_id_format (rnd : Z) :
  let text := list_ascii_of_string (make_globally_unique_id rnd) in
  length text = 36%nat
  /\ (forall i c, text !! i = Some c ->
       if bool_decide (i ∈ [8; 13; 18; 23]%nat) then c = "-"%char else is_hex c = true)
  /\ text !! 14%nat = Some "4"%char
  /\ exists c, text !! 19%nat = Some c /\ c ∈ ["8"; "9"; "a"; "b"]%char.
Proof.
  cbv zeta. unfold make_globally_unique_id, uuid_str.
  rewrite list_ascii_of_string_of_list_ascii. unfold hex32.
  cbn [seq map firstn skipn app].
  split; [reflexivity|]. split; [|split].
  - intros i c Hi.
    do 36 (destruct i as [|i];
           [inversion Hi; eval_dash_position;
            first [reflexivity | apply hex_digit_is_hex]|]).
    discriminate Hi.
  - cbn [lookup list_lookup]. change (4 * (31 - Z.of_nat 12)) with 76.
    now rewrite uuid4_version.
  - cbn [lookup list_lookup]. change (4 * (31 - Z.of_nat 16)) with 60.
    eexists. split; [reflexivity|].
    pose proof (uuid4_variant rnd) as Hv.
    remember (Z.land (Z.shiftr (uuid4 rnd) 60) 15) as v eqn:Ev. clear Ev.
    assert (Hcases : v = 8 \/ v = 9 \/ v = 10 \/ v = 11) by lia.
    apply list_elem_of_In. destruct Hcases as [-> | [-> | [-> | ->]]]; cbn; tauto.
Qed.

Lemma uuid_hyphen_at_8 (rnd : Z) :
  list_ascii_of_string (make_globally_unique_id rnd) !! 8%nat = Some "-"%char.
Proof.
  unfold make_globally_unique_id, uuid_str.
  rewrite list_ascii_of_string_of_list_ascii. unfold hex32.
  cbn [seq map firstn skipn app]. reflexivity.
Qed.

Lemma string_of_uint_digits (d : Decimal.uint) (i : nat) :
  list_ascii_of_string (DecimalString.NilEmpty.string_of_uint d) !! i <> Some "-"%char.
Proof.
  revert i. induction d; intros i; cbn [DecimalString.NilEmpty.string_of_uint
                                        list_ascii_of_string];
    try (destruct i as [|i]; [discriminate | apply IHd]).
  discriminate.
Qed.

(** The text of an int has no hyphen after its first character. *)
Lemma py_str_int_no_hyphen (n : Z) (i : nat) :
  list_ascii_of_string (py_str_int n) !! S i <> Some "-"%char.
Proof.
  unfold py_str_int.
  destruct (Z.to_int n) as [d|d]; cbn [DecimalString.NilZero.string_of_int].
  - destruct d; try apply string_of_uint_digits. discriminate.
  - cbn [list_ascii_of_string lookup list_lookup].
    destruct d; try apply string_of_uint_digits.
    destruct i; discriminate.
Qed.

(** X18. An identifier made in simple-ID mode is never equal to one made
    in the other mode, whatever the counter and the random bytes: the
    text of an int has no hyphen at position 8, where a UUID has one. *)
Theorem make_id_modes_disjoint (rnd rnd' n n' : Z) :
  fst (make_id true rnd n) <> fst (make_id false rnd' n').
Proof.
  cbn [make_id fst]. intros E.
  apply (py_str_int_no_hyphen (n + 1) 7). rewrite E. apply uuid_hyphen_at_8.
Qed.

(** ** More on temporal scalars and buffers *)

(** X19. The two recognizers overlap on exactly one class: a value is
    accepted both by [is_datetime_type] and by [is_timedelta_type] if
    and only if pandas can be imported and the value is a
    [pd.Timedelta]. *)
Theorem datetime_and_timedelta_overlap (pd : bool) (obj : value) :
  is_datetime_type pd obj = true /\ is_timedelta_type obj = true
  <-> pd = true /\ class_of obj = c_pd_Timedelta.
Proof.
  unfold is_datetime_type, is_timedelta_type, isinstance.
  destruct pd, (class_of obj); vm_compute existsb; split;
    intros [H1 H2]; try discriminate H1; try discriminate H2; split; reflexivity.
Qed.

(** A character that is neither of the alphabet nor the padding leaves
    the decoding as it is, wherever it stands. *)
Lemma a2b_base64_loop_skip (before after : list ascii) (c : ascii)
    (quad_pos leftchar pads : Z) (out : list byte) :
  b64_value c = None -> c <> "="%char ->
  a2b_base64_loop (before ++ c :: after) quad_pos leftchar pads out
  = a2b_base64_loop (before ++ after) quad_pos leftchar pads out.
Proof.
  intros Hv Hc. revert quad_pos leftchar pads out.
  induction before as [|b before IH]; intros quad_pos leftchar pads out.
  - cbn [app a2b_base64_loop]. rewrite Hv.
    destruct (Ascii.eqb_spec c "="); [contradiction|reflexivity].
  - cbn [app a2b_base64_loop].
    repeat match goal with
           | |- context [if ?t then _ else _] => destruct t
           | |- context [match b64_value ?x with _ => _ end] => destruct (b64_value x)
           end; auto.
Qed.

(** X20. Text that is not base64 does not disturb the decoding: an
    ASCII character outside the base64 alphabet other than the padding,
    a line break for one, can be put anywhere into the text of an
    envelope without changing what [decode_base64_dict] returns or
    raises. *)
Theorem decode_base64_dict_ignores_noise (np_dtype : string -> result dtype) (maxdims : nat)
    (sys : ByteOrder) (c : ascii)
    (before after : list ascii) (shape : list Z) (tag : string) (order : ByteOrder) :
  code c < 128 ->
  b64_value c = None ->
  c <> "="%char ->
  decode_base64_dict np_dtype maxdims sys
    (mk_BufferJson (Base64 (string_of_list_ascii (before ++ c :: after))) shape tag order)
  = decode_base64_dict np_dtype maxdims sys
      (mk_BufferJson (Base64 (string_of_list_ascii (before ++ after))) shape tag order).
Proof.
  intros Hascii Hv Hc. unfold decode_base64_dict. cbn [buf_array buf_dtype buf_shape].
  assert (Hb : b64decode (string_of_list_ascii (before ++ c :: after))
               = b64decode (string_of_list_ascii (before ++ after))).
  { unfold b64decode. rewrite !list_ascii_of_string_of_list_ascii.
    rewrite !forallb_app. cbn [forallb].
    destruct (Z.ltb_spec (code c) 128) as [_|Hge]; [|lia]. cbn [andb].
    destruct (forallb _ before && forallb _ after); [|reflexivity].
    now apply a2b_base64_loop_skip. }
  now rewrite Hb.
Qed.

Lemma decode_base64_dict_ignores_noise_witness :
  decode_base64_dict dtype_of_name 32 little
    (mk_BufferJson (Base64 (string_of_list_ascii
                              (list_ascii_of_string "AAAA" ++ "010"%char
                               :: list_ascii_of_string "AAAA8D8=")))
                   [2; 2] "int16" little)
  = decode_base64_dict dtype_of_name 32 little sample_square.
Proof.
  apply (decode_base64_dict_ignores_noise dtype_of_name 32 little "010"%char
           (list_ascii_of_string "AAAA") (list_ascii_of_string "AAAA8D8=")).
  - reflexivity.
  - reflexivity.
  - discriminate.
Defined.

Lemma shape_nonneg_kept (q : Z) (shape : list Z) :
  Forall (fun d => 0 <= d) shape ->
  map (fun d => if d <? 0 then q else d) shape = shape.
Proof.
  induction 1 as [|d shape Hd Hshape IH]; [reflexivity|].
  cbn [map]. destruct (Z.ltb_spec d 0); [lia|]. now rewrite IH.
Qed.

(** X21. An envelope without payload decodes to an array without cells:
    for every dtype other than object, empty text gives the array of
    shape [[0]] when the shape of the envelope has at most one
    dimension, whatever that shape says.  For a shape of more
    dimensions, none negative, the decoding raises [ValueError] when no
    dimension is zero, returns the empty array of that shape when one
    is zero and the shape is the shape of an array (no more dimensions
    than NumPy allows, the other dimensions within the size an array
    can have), and returns nothing else. *)
Theorem decode_base64_dict_empty (np_dtype : string -> result dtype) (maxdims : nat)
    (sys : ByteOrder) (shape : list Z) (tag : string) (order : ByteOrder) (d : dtype) :
  np_dtype tag = Ok d ->
  d <> dt_object ->
  let buffer := mk_BufferJson (Base64 "") shape tag order in
  let decoded := decode_base64_dict np_dtype maxdims sys buffer in
  let empty s := NDArray (mk_ndarray d s [] C_contiguous) in
  ((length shape <= 1)%nat -> decoded = Ok (empty [0]))
  /\ ((1 < length shape)%nat -> Forall (fun n => 0 <= n) shape ->
      (prod_shape shape <> 0 -> decoded = Raise ValueError)
      /\ (prod_shape shape = 0 -> (length shape <= maxdims)%nat ->
          creatable (itemsize d) shape = true ->
          decoded = Ok (empty shape))
      /\ (forall a, decoded = Ok a -> a = empty shape /\ prod_shape shape = 0)).
Proof.
  intros Hd Hne buffer decoded empty. subst buffer decoded empty.
  assert (Hcells : buffer_cells sys d [] = []).
  { unfold buffer_cells, chunks. cbn [length]. now rewrite Nat.Div0.div_0_l. }
  assert (Hn : Z.of_nat (length (@nil byte)) / itemsize d = 0).
  { cbn [length]. change (Z.of_nat 0) with 0. apply Z.div_0_l.
    pose proof (itemsize_pos d). lia. }
  rewrite (decode_base64_dict_steps np_dtype maxdims sys
             (mk_BufferJson (Base64 "") shape tag order) "" [] d eq_refl eq_refl Hd Hne)
    by (cbn [length]; apply Zmod_0_l).
  cbn [buf_shape]. rewrite Hcells, Hn. split.
  - intros Hlen. destruct (Nat.ltb_spec 1 (length shape)); [lia|reflexivity].
  - intros Hlen Hpos. destruct (Nat.ltb_spec 1 (length shape)); [|lia].
    split; [|split].
    + intros Hprod. now rewrite (resolve_shape_mismatch maxdims _ _ _ Hpos Hprod).
    + intros Hprod Hdims Hc.
      rewrite (resolve_shape_nonneg maxdims _ _ _ (itemsize_pos d) Hpos Hdims Hc).
      rewrite Hprod. reflexivity.
    + intros a. destruct (resolve_shape _ _ _ _) as [shape'|e] eqn:Hs; cbn [rbind];
        [|intros E; discriminate E].
      apply resolve_shape_Ok in Hs as (Hshape' & Hprod & _).
      rewrite (shape_nonneg_kept _ shape Hpos) in Hshape'. subst shape'.
      intros E. inversion E. auto.
Qed.

Lemma decode_base64_dict_empty_witness :
  decode_base64_dict dtype_of_name 32 little (mk_BufferJson (Base64 "") [5] "float64" big)
  = Ok (NDArray (mk_ndarray np_float64 [0] [] C_contiguous))
  /\ decode_base64_dict dtype_of_name 32 little
       (mk_BufferJson (Base64 "") [2; 3] "float64" big)
     = Raise ValueError
  /\ decode_base64_dict dtype_of_name 32 little
       (mk_BufferJson (Base64 "") [0; 3] "float64" big)
     = Ok (NDArray (mk_ndarray np_float64 [0; 3] [] C_contiguous)).
Proof.
  destruct (decode_base64_dict_empty dtype_of_name 32 little [5] "float64" big np_float64)
    as [Hflat _]; [reflexivity | discriminate |].
  destruct (decode_base64_dict_empty dtype_of_name 32 little [2; 3] "float64" big np_float64)
    as [_ Hshaped]; [reflexivity | discriminate |].
  destruct (decode_base64_dict_empty dtype_of_name 32 little [0; 3] "float64" big np_float64)
    as [_ Hzero]; [reflexivity | discriminate |].
  split; [|split].
  - apply Hflat. cbn. lia.
  - destruct Hshaped as (Hraise & _); [cbn; lia | repeat constructor; lia |].
    apply Hraise. discriminate.
  - destruct Hzero as (_ & Hok & _); [cbn; lia | repeat constructor; lia |].
    apply Hok; [reflexivity | cbn; lia | reflexivity].
Defined.
(** ** More on durations *)

(** Evaluation of the unit factors that occur in a goal. *)
Ltac eval_rank_factors :=
  repeat match goal with
         | |- context [rank_factor ?i ?j] =>
             let f := eval vm_compute in (rank_factor i j) in
             change (rank_factor i j) with f
         end.

Lemma wrap64_idem (n : Z) : wrap64 (wrap64 n) = wrap64 n.
Proof.
  unfold wrap64. replace ((n + 2 ^ 63) mod 2 ^ 64 - 2 ^ 63 + 2 ^ 63)
    with ((n + 2 ^ 63) mod 2 ^ 64) by lia.
  now rewrite Z.mod_mod by lia.
Qed.

(** Towards a finer unit the scaling is the product, wrapped. *)
Lemma scale64_product (num dt : Z) : scale64 num 1 dt = wrap64 (dt * num).
Proof.
  unfold scale64. destruct (dt <? 0).
  - rewrite Z.sub_0_r, wrap64_idem. apply Z.quot_1_r.
  - apply Z.quot_1_r.
Qed.

Lemma rescale_to_ms (l : lunit) (x : Z) :
  rescale (rank l) (rank (finer l l_ms)) x = time_of_int64 (wrap64 (x * ms_in_unit l)).
Proof.
  unfold rescale.
  destruct l; cbn [ms_in_unit finer rank Nat.leb]; eval_rank_factors;
    now rewrite scale64_product.
Qed.

Lemma rescale_ms (l : lunit) :
  rescale (rank l_ms) (rank (finer l l_ms)) 1 = Some (units_in_ms l).
Proof. destruct l; vm_compute; reflexivity. Qed.

(** X22. What [convert_timedelta_type] returns on the durations it
    converts.  A [dt.timedelta] gives its total seconds times 1000, a
    [pd.Timedelta] the same with the [total_seconds] of pandas.  A
    [np.timedelta64] in a unit of fixed length is brought to the finer
    of its unit and the millisecond in 64-bit arithmetic and divided by
    one millisecond as a double: the product with the milliseconds in
    the unit wraps around, so a count of [10**16] seconds gives a
    negative number of milliseconds, and a product that wraps to the
    least 64-bit integer reads as NaT and gives NaN, as a count of
    [2**60] seconds does.  NaT gives NaN, and a count without unit is
    taken as it is. *)
Theorem convert_timedelta_type_values (pd_total_seconds : Z -> float) :
  (forall us,
     convert_timedelta_type pd_total_seconds (VObj (PyTimedelta us))
     = Ok (Double.mul (Double.int_truediv us (10 ^ 6)) (Double.of_Z 1000)))
  /\ (forall ns,
        convert_timedelta_type pd_total_seconds (VObj (PdTimedelta ns))
        = Ok (Double.mul (pd_total_seconds ns) (Double.of_Z 1000)))
  /\ (forall l x,
        convert_timedelta_type pd_total_seconds (VObj (NpTimedelta64 (Some x) (u_lin l)))
        = Ok (if wrap64 (x * ms_in_unit l) =? INT64_MIN then Double.nan
              else Double.div (Double.of_Z (wrap64 (x * ms_in_unit l)))
                              (Double.of_Z (units_in_ms l))))
  /\ (forall l x,
        INT64_MIN < x * ms_in_unit l <= INT64_MAX ->
        convert_timedelta_type pd_total_seconds (VObj (NpTimedelta64 (Some x) (u_lin l)))
        = Ok (Double.div (Double.of_Z (x * ms_in_unit l)) (Double.of_Z (units_in_ms l))))
  /\ (forall x,
        convert_timedelta_type pd_total_seconds (VObj (NpTimedelta64 (Some x) u_generic))
        = Ok (Double.div (Double.of_Z x) (Double.of_Z 1)))
  /\ (forall u, u <> u_Y -> u <> u_M ->
        convert_timedelta_type pd_total_seconds (VObj (NpTimedelta64 None u))
        = Ok Double.nan)
  /\ convert_timedelta_type pd_total_seconds (VObj (NpTimedelta64 (Some (10 ^ 16)) (u_lin l_s)))
     = Ok (Double.div (Double.of_Z (10 ^ 19 - 2 ^ 64)) (Double.of_Z 1))
  /\ convert_timedelta_type pd_total_seconds (VObj (NpTimedelta64 (Some (2 ^ 60)) (u_lin l_s)))
     = Ok Double.nan.
Proof.
  assert (Hlin : forall l x,
            convert_timedelta_type pd_total_seconds (VObj (NpTimedelta64 (Some x) (u_lin l)))
            = Ok (if wrap64 (x * ms_in_unit l) =? INT64_MIN then Double.nan
                  else Double.div (Double.of_Z (wrap64 (x * ms_in_unit l)))
                                  (Double.of_Z (units_in_ms l)))).
  { intros l x. unfold convert_timedelta_type. eval_isinstance. cbv iota.
    unfold timedelta64_truediv, NP_MS_DELTA, promote_timedelta, rbind, cast_timedelta.
    cbn [fst snd]. rewrite rescale_to_ms, rescale_ms. unfold time_of_int64.
    now destruct (_ =? _). }
  split; [reflexivity|]. split; [reflexivity|]. split; [exact Hlin|].
  split; [|split; [reflexivity|split; [|split]]].
  - intros l x Hx. rewrite Hlin.
    assert (Hw : wrap64 (x * ms_in_unit l) = x * ms_in_unit l).
    { unfold wrap64. unfold INT64_MIN, INT64_MAX in Hx.
      rewrite Z.mod_small by lia. lia. }
    rewrite Hw. destruct (Z.eqb_spec (x * ms_in_unit l) INT64_MIN); [lia|reflexivity].
  - intros u HY HM. destruct u; try contradiction; reflexivity.
  - rewrite Hlin. reflexivity.
  - rewrite Hlin. reflexivity.
Qed.
